(** * vrnetlab launchers and the vr-xcon cross-connect: a shallow embedding

    The development follows the four Python sources:
    - [common/vrnetlab.py]   ([Vrnetlab]: [gen_mac], the [VM] base class, the
      [VR] supervision loop),
    - [sros/docker/launch.py] ([Sros]: [uuid_rev_part], the SR-OS VM classes and
      the [SROS] supervisor constructor),
    - [xrv/docker/launch_xrv.py] ([Xrv]: the IOS-XR launcher),
    - [vr-xcon/xcon.py]      ([Xcon]: [Tcp2Tap] and [TcpBridge]).

    Python integers are [Z]; [str] is [string]; [bytes] is [list byte]; a dict
    keyed by objects is a [gmap] keyed by the object's identity.  What the
    operating system, the random generator or the serial console answers is an
    explicit argument of the function that asks. *)

From Stdlib Require Import ZArith List Ascii String Lia Bool.
From Stdlib.Strings Require Import Byte.
From stdpp Require Import base option list gmap strings.

Local Open Scope Z_scope.

(** ** Python built-ins used by the sources *)
Module Py.

(** Exceptions the modelled code can raise; [SystemExit] is [sys.exit]. *)
Inductive exn :=
| TypeError (msg : string)
| ValueError (msg : string)
| IndexError
| NoVR (msg : string)
| SystemExit (code : Z)
| OSError (msg : string).

Inductive result (A : Type) :=
| Ok (a : A)
| Raise (e : exn).
Arguments Ok {A} a.
Arguments Raise {A} e.

Definition bind {A B} (r : result A) (k : A -> result B) : result B :=
  match r with
  | Ok a => k a
  | Raise e => Raise e
  end.

(** ** [%d], [%02d], [%02x]: integer conversions of the [%] operator *)

Definition digit_char (d : Z) : ascii :=
  match d with
  | 0 => "0" | 1 => "1" | 2 => "2" | 3 => "3" | 4 => "4"
  | 5 => "5" | 6 => "6" | 7 => "7" | 8 => "8" | 9 => "9"
  | 10 => "a" | 11 => "b" | 12 => "c" | 13 => "d" | 14 => "e"
  | _ => "f"
  end%char.

(** Digits of a non-negative [n], most significant first. *)
Fixpoint digits_from (fuel : nat) (base n : Z) (acc : string) : string :=
  match fuel with
  | O => acc
  | S fuel' =>
      let acc' := String (digit_char (n mod base)) acc in
      if n / base =? 0 then acc' else digits_from fuel' base (n / base) acc'
  end.

Definition digits (base n : Z) : string :=
  digits_from (S (Z.to_nat (Z.log2 n))) base n "".

Fixpoint zeros (k : nat) : string :=
  match k with
  | O => ""
  | S k' => String "0" (zeros k')
  end.

(** The [0] flag pads between the sign and the digits, up to [width]. *)
Definition fmt_int (base : Z) (width : nat) (n : Z) : string :=
  let sign := if n <? 0 then "-" else "" in
  let body := digits base (Z.abs n) in
  sign +:+ zeros (width - String.length sign - String.length body) +:+ body.

Definition fmt_d : Z -> string := fmt_int 10 0.
Definition fmt_02d : Z -> string := fmt_int 10 2.
Definition fmt_02x : Z -> string := fmt_int 16 2.

(** [%s] of an optional string: [None] prints as the word [None]. *)
Definition fmt_s (o : option string) : string :=
  match o with
  | Some s => s
  | None => "None"
  end.

(** ** [str.split(sep)] for a non-empty separator *)
Fixpoint split_go (sep s : string) (skip : nat) (cur : string) : list string :=
  match s with
  | "" => [cur]
  | String c s' =>
      match skip with
      | S k => split_go sep s' k cur
      | O =>
          if String.prefix sep s
          then cur :: split_go sep s' (String.length sep - 1) ""
          else split_go sep s' 0 (cur +:+ String c "")
      end
  end.

Definition split (sep s : string) : list string := split_go sep s 0 "".

(** ** [range] *)
(** [range(lo, hi)]: the integers [lo], [lo+1], ..., [hi-1]. *)
Definition range (lo hi : Z) : list Z :=
  map (fun k => lo + Z.of_nat k) (seq 0 (Z.to_nat (hi - lo))).

(** [range(0, n, 2)] over a length. *)
Definition range_step2 (n : nat) : list nat :=
  map (fun k => 2 * k)%nat (seq 0 (Nat.div2 (S n))).

(** ** [bytes.decode()] *)
(** The byte lies in [lo .. hi]. *)
Definition byte_in (lo hi : N) (b : byte) : bool :=
  (N.leb lo (Byte.to_N b) && N.leb (Byte.to_N b) hi)%bool.

(** A continuation byte, [80 .. BF]. *)
Definition utf8_cont : byte -> bool := byte_in 128 191.

(** [b.decode()] uses UTF-8 with strict error handling: it returns for the
    well-formed sequences (one byte [00..7F]; [C2..DF] and a continuation;
    three bytes from [E0] with [A0..BF], [E1..EC], [ED] with [80..9F] or
    [EE..EF]; four bytes from [F0] with [90..BF], [F1..F3] or [F4] with
    [80..8F]) and raises [UnicodeDecodeError] for any other bytes. *)
Fixpoint utf8_valid (bs : list byte) : bool :=
  match bs with
  | [] => true
  | b0 :: rest =>
      if byte_in 0 127 b0 then utf8_valid rest
      else if byte_in 194 223 b0 then
        match rest with
        | b1 :: rest' => utf8_cont b1 && utf8_valid rest'
        | _ => false
        end
      else if byte_in 224 239 b0 then
        match rest with
        | b1 :: b2 :: rest' =>
            (if byte_in 224 224 b0 then byte_in 160 191 b1
             else if byte_in 237 237 b0 then byte_in 128 159 b1
             else utf8_cont b1)
            && utf8_cont b2 && utf8_valid rest'
        | _ => false
        end
      else if byte_in 240 244 b0 then
        match rest with
        | b1 :: b2 :: b3 :: rest' =>
            (if byte_in 240 240 b0 then byte_in 144 191 b1
             else if byte_in 244 244 b0 then byte_in 128 143 b1
             else utf8_cont b1)
            && utf8_cont b2 && utf8_cont b3 && utf8_valid rest'
        | _ => false
        end
      else false
  end.

(** ** [random]: the generator as a stream of draws and a position *)
Record rng := { draws : nat -> Z; pos : nat }.

(** [random.randint(lo, hi)]: some integer of [lo..hi], here the next draw
    reduced into the interval. *)
Definition randint (lo hi : Z) (g : rng) : Z * rng :=
  (lo + draws g (pos g) mod (hi - lo + 1),
   {| draws := draws g; pos := S (pos g) |}).

End Py.

(** ** common/vrnetlab.py *)
Module Vrnetlab.
Import Py.

(** What the modelled methods do to the outside world, in order.  Logger
    calls are left out. *)
Inductive event :=
| EvSpawn (args : list string)          (* subprocess.Popen(self.qemu_args, ...) *)
| EvCommunicate (timeout : Z)           (* self.p.communicate(timeout=...) *)
| EvTerminate                           (* self.p.terminate() *)
| EvKill                                (* self.p.kill() *)
| EvTelnetOpen (port : Z)               (* telnetlib.Telnet("127.0.0.1", port) *)
| EvTelnetExpect (timeout : Z)          (* self.tn.expect(patterns, timeout) *)
| EvTelnetReadUntil (token : string)    (* self.tn.read_until(token) *)
| EvTelnetWrite (line : string)         (* self.tn.write(line) *)
| EvTelnetClose                         (* self.tn.close() *)
| EvRunCommand (cmd : list string)      (* run_command(cmd) *)
| EvHealth (content : string).          (* /health rewritten with content *)

(** The world a method runs in: the trace so far and the random generator. *)
Record world := { trace : list event; gen : rng }.

(** A method body: it reads and extends the world and returns a value.
    Calls that the sources do not guard with [try] are taken to succeed. *)
Definition M (A : Type) : Type := world -> A * world.

Definition ret {A} (a : A) : M A := fun w => (a, w).
Definition mbind {A B} (m : M A) (k : A -> M B) : M B :=
  fun w => let (a, w') := m w in k a w'.
Definition emit (e : event) : M unit :=
  fun w => (tt, {| trace := trace w ++ [e]; gen := gen w |}).
Definition draw (lo hi : Z) : M Z :=
  fun w => let (v, g) := randint lo hi (gen w) in
           (v, {| trace := trace w; gen := g |}).

Notation "x <- m ;; k" := (mbind m (fun x => k))
  (at level 60, m at next level, right associativity).
Notation "m ;;; k" := (mbind m (fun _ => k))
  (at level 60, right associativity).

(** [for x in xs: body(x)] over an accumulator. *)
Fixpoint for_each {A S} (xs : list A) (body : A -> S -> M S) (s : S) : M S :=
  match xs with
  | [] => ret s
  | x :: xs' => s' <- body x s ;; for_each xs' body s'
  end.

(** [gen_mac(last_octet)]: the two [random.randint(0x00, 0xff)] calls are
    evaluated left to right. *)
Definition gen_mac (last_octet : Z) : M string :=
  a <- draw 0 255 ;;
  b <- draw 0 255 ;;
  ret ("52:54:00:" +:+ fmt_02x a +:+ ":" +:+ fmt_02x b +:+ ":" +:+ fmt_02x last_octet).

(** Attributes of a [VM] object. [p] is the child process handle (the number
    of the spawn that made it), [tn] the console connection's port. *)
Record VM := {
  username : option string;
  password : option string;
  num : Z;
  running : bool;
  spins : Z;
  p : option nat;
  tn : option Z;
  uuid : option string;
  fake_start_date : option string;
  nic_type : string;
  num_nics : Z;
  smbios : list string;
  qemu_args : list string
}.

(** [list.insert(1, x)] *)
Definition insert1 {A} (x : A) (l : list A) : list A :=
  match l with
  | [] => [x]
  | a :: l' => a :: x :: l'
  end.

(** The parameters [VM.__init__] declares besides [self]. *)
Definition VM_init_params : list string :=
  ["username"; "password"; "disk_image"; "num"; "ram"].

(** Binding of keyword arguments: a keyword the callee does not declare is a
    [TypeError]. *)
Definition bind_kwargs (params kws : list string) : result unit :=
  match List.find (fun k => negb (existsb (String.eqb k) params)) kws with
  | Some k =>
      Raise (TypeError ("__init__() got an unexpected keyword argument '" +:+ k +:+ "'"))
  | None => Ok tt
  end.

(** [VM.__init__(username, password, disk_image, num, ram)]; [kvm] is
    [os.path.exists("/dev/kvm")].  The attempt to make [/tftpboot] changes no
    attribute and is left out. *)
Definition VM_init (kvm : bool) (username password : option string)
    (disk_image : option string) (num ram : Z) : VM :=
  let args :=
    ["qemu-system-x86_64"; "-display"; "none"] ++
    ["-m"; fmt_d ram;
     "-serial"; "telnet:0.0.0.0:50" +:+ fmt_02d num +:+ ",server,nowait";
     "-drive"; "if=ide,file=" +:+ fmt_s disk_image] in
  {| username := username; password := password; num := num;
     running := false; spins := 0; p := None; tn := None;
     uuid := None; fake_start_date := None;
     nic_type := "e1000"; num_nics := 0; smbios := [];
     qemu_args := if kvm then insert1 "-enable-kvm" args else args |}.

Definition set_qemu_args (vm : VM) (a : list string) : VM :=
  {| username := username vm; password := password vm; num := num vm;
     running := running vm; spins := spins vm; p := p vm; tn := tn vm;
     uuid := uuid vm; fake_start_date := fake_start_date vm;
     nic_type := nic_type vm; num_nics := num_nics vm; smbios := smbios vm;
     qemu_args := a |}.

Definition set_running (vm : VM) (r : bool) : VM :=
  {| username := username vm; password := password vm; num := num vm;
     running := r; spins := spins vm; p := p vm; tn := tn vm;
     uuid := uuid vm; fake_start_date := fake_start_date vm;
     nic_type := nic_type vm; num_nics := num_nics vm; smbios := smbios vm;
     qemu_args := qemu_args vm |}.

Definition set_spins (vm : VM) (n : Z) : VM :=
  {| username := username vm; password := password vm; num := num vm;
     running := running vm; spins := n; p := p vm; tn := tn vm;
     uuid := uuid vm; fake_start_date := fake_start_date vm;
     nic_type := nic_type vm; num_nics := num_nics vm; smbios := smbios vm;
     qemu_args := qemu_args vm |}.

Definition set_handles (vm : VM) (proc : option nat) (console : option Z) : VM :=
  {| username := username vm; password := password vm; num := num vm;
     running := running vm; spins := spins vm; p := proc; tn := console;
     uuid := uuid vm; fake_start_date := fake_start_date vm;
     nic_type := nic_type vm; num_nics := num_nics vm; smbios := smbios vm;
     qemu_args := qemu_args vm |}.

Definition set_license (vm : VM) (u d : option string) : VM :=
  {| username := username vm; password := password vm; num := num vm;
     running := running vm; spins := spins vm; p := p vm; tn := tn vm;
     uuid := u; fake_start_date := d;
     nic_type := nic_type vm; num_nics := num_nics vm; smbios := smbios vm;
     qemu_args := qemu_args vm |}.

Definition set_nics (vm : VM) (n : Z) (sm : list string) : VM :=
  {| username := username vm; password := password vm; num := num vm;
     running := running vm; spins := spins vm; p := p vm; tn := tn vm;
     uuid := uuid vm; fake_start_date := fake_start_date vm;
     nic_type := nic_type vm; num_nics := n; smbios := sm;
     qemu_args := qemu_args vm |}.

(** What [self.tn.expect(patterns, 1)] returns: the index of the pattern
    that matched, whether there was a match, and the bytes read. *)
Record expect_result := { ridx : Z; matched : bool; res : list byte }.

(** Truth value of an optional string: [None] and the empty string are false. *)
Definition truthy (o : option string) : bool :=
  match o with
  | Some s => negb (String.eqb s "")
  | None => false
  end.

(** [VM.gen_mgmt] *)
Definition VM_gen_mgmt (vm : VM) : M (list string) :=
  let res := [] in
  let res := res ++ ["-device"] in
  mac <- gen_mac 0 ;;
  let res := res ++ [nic_type vm +:+ ",netdev=p" +:+ fmt_02d 0 +:+ ",mac=" +:+ mac] in
  let res := res ++ ["-netdev"] in
  let res := res ++ ["user,id=p" +:+ fmt_02d 0 +:+
    ",net=10.0.0.0/24,tftp=/tftpboot,hostfwd=tcp::2022-10.0.0.15:22,hostfwd=tcp::2830-10.0.0.15:830"] in
  ret res.

(** One pass of the body shared by the [gen_nics] loops: the four appends
    for NIC index [i]. *)
Definition append_nic (nic_type : string) (i : Z) (res : list string) : M (list string) :=
  let res := res ++ ["-device"] in
  mac <- gen_mac i ;;
  let res := res ++ [nic_type +:+ ",netdev=p" +:+ fmt_02d i +:+ ",mac=" +:+ mac] in
  let res := res ++ ["-netdev"] in
  let res := res ++ ["socket,id=p" +:+ fmt_02d i +:+ ",listen=:100" +:+ fmt_02d i] in
  ret res.

(** [VM.gen_nics]: [for i in range(1, self.num_nics)]. *)
Definition VM_gen_nics (vm : VM) : M (list string) :=
  for_each (range 1 (num_nics vm)) (append_nic (nic_type vm)) [].

(** [VM.start]; [gen_mgmt] and [gen_nics] are the methods of the object's
    class. *)
Definition VM_start (gen_mgmt gen_nics : VM -> M (list string)) (vm : VM) : M VM :=
  let args := qemu_args vm in
  let args := if truthy (uuid vm) then args ++ ["-uuid"; fmt_s (uuid vm)] else args in
  let args := if truthy (fake_start_date vm)
              then args ++ ["-rtc"; "base=" +:+ fmt_s (fake_start_date vm)] else args in
  let args := fold_left (fun a e => a ++ ["-smbios"; e]) (smbios vm) args in
  mgmt <- gen_mgmt vm ;;
  let args := args ++ mgmt in
  nics <- gen_nics vm ;;
  let args := args ++ nics in
  let vm := set_qemu_args vm args in
  emit (EvSpawn args) ;;;
  emit (EvCommunicate 2) ;;;
  emit (EvTelnetOpen (5000 + num vm)) ;;;
  ret (set_handles vm (Some (match p vm with Some k => S k | None => O end))
                      (Some (5000 + num vm))).

(** What the child process answers during [stop]. *)
Record stop_answers := {
  terminate_lookup_error : bool;   (* terminate() raises ProcessLookupError *)
  communicate_timeout : bool       (* communicate(timeout=10) raises *)
}.

(** [VM.stop] of a VM that has a process: [self.p] is read only to call
    [terminate], [communicate] and [kill] on it.  On an object whose [p] is
    still [None] the source raises [AttributeError] at [self.p.terminate()]
    (only [ProcessLookupError] is caught); that call is outside this
    function, and every statement made through it has [p <> None], as a
    hypothesis or because [check_qemu] has started the VM before. *)
Definition VM_stop (a : stop_answers) (vm : VM) : M VM :=
  let vm := set_running vm false in
  emit EvTerminate ;;;
  if terminate_lookup_error a then ret vm
  else
    emit (EvCommunicate 10) ;;;
    if communicate_timeout a
    then emit EvKill ;;; emit (EvCommunicate 10) ;;; ret vm
    else ret vm.

(** [VM.wait_write(cmd, wait)] *)
Definition wait_write (cmd : string) (wait : option string) : M unit :=
  (if truthy wait then emit (EvTelnetReadUntil (fmt_s wait)) else ret tt) ;;;
  emit (EvTelnetWrite (cmd +:+ String (ascii_of_nat 13) "")).

(** [VR.update_health(exit_status, message)]: the file is rewritten with
    ["%d %s" % (exit_status, message)]. *)
Definition update_health (exit_status : Z) (message : string) : M unit :=
  emit (EvHealth (fmt_d exit_status +:+ " " +:+ message)).

(** One pass of the [while True] loop of [VR.start].  [flags] holds, for each
    VM of [self.vms] in order, the value of [vm.running] read right after
    that VM's [work()] call; [started] is the loop's local of that name. *)
Definition supervision_pass (flags : list bool) (started : bool) : M bool :=
  let all_running :=
    fold_left (fun all r => if negb (Bool.eqb r true) then false else all) flags true in
  if all_running
  then update_health 0 "running" ;;; ret true
  else
    if started
    then update_health 1 "VM failed - restarting" ;;; ret started
    else update_health 1 "starting" ;;; ret started.

(** The first [n] passes of the loop; [flags k] is what pass [k] reads. *)
Fixpoint supervise (flags : nat -> list bool) (n : nat) : M bool :=
  match n with
  | O => ret false
  | S k => started <- supervise flags k ;; supervision_pass (flags k) started
  end.

End Vrnetlab.

(** ** sros/docker/launch.py *)
Module Sros.
Import Py Vrnetlab.

(** One pass of the loop of [uuid_rev_part]: [res += part[i]] and then
    [res += part[i+1]]; an index past the end raises [IndexError]. *)
Definition rev_step (part : string) (acc : result string) (i : nat) : result string :=
  bind acc (fun res =>
    match String.get i part with
    | None => Raise IndexError
    | Some a =>
        let res := res +:+ String a "" in
        match String.get (i + 1) part with
        | None => Raise IndexError
        | Some b => Ok (res +:+ String b "")
        end
    end).

(** [uuid_rev_part(part)]: [for i in reversed(range(0, len(part), 2))]. *)
Definition uuid_rev_part (part : string) : result string :=
  fold_left (rev_step part) (rev (range_step2 (String.length part))) (Ok "").

Definition index {A} (l : list A) (i : nat) : result A :=
  match l !! i with
  | Some x => Ok x
  | None => Raise IndexError
  end.

(** [mangle_uuid(uuid)] *)
Definition mangle_uuid (uuid : string) : result string :=
  let parts := split "-" uuid in
  bind (index parts 0) (fun p0 => bind (uuid_rev_part p0) (fun r0 =>
  bind (index parts 1) (fun p1 => bind (uuid_rev_part p1) (fun r1 =>
  bind (index parts 2) (fun p2 => bind (uuid_rev_part p2) (fun r2 =>
  bind (index parts 3) (fun p3 =>
  bind (index parts 4) (fun p4 =>
  Ok (String.concat "-" [r0; r1; r2; p3; p4]))))))))).

(** What [read_license] takes from [/tftpboot/license.txt]: the text before
    the first space of its non-comment lines, and the two groups of the
    first date the regular expression finds (the second one as [int]). *)
Record license_file := { uuid_input : string; date_match : option (string * Z) }.

(** [SROS_vm.read_license]; [lic] is [None] when the file does not exist. *)
Definition read_license (lic : option license_file) (vm : VM) : result VM :=
  match lic with
  | None => Ok vm
  | Some l =>
      match mangle_uuid (uuid_input l) with
      | Raise _ => Raise (ValueError "Unable to parse license file")
      | Ok _ =>
          Ok (set_license vm (Some (uuid_input l))
                (match date_match l with
                 | Some (g1, day) => Some (g1 +:+ fmt_02d (day + 1))
                 | None => fake_start_date vm
                 end))
      end
  end.

(** The classes derived from [SROS_vm], with the attributes each adds. *)
Inductive sros_class :=
| Integrated
| ControlPlane (num_lc : Z)
| LineCard (slot : Z).

Record SROS_vm := { vm : VM; class : sros_class; newchassis : bool }.

Definition with_vm (o : SROS_vm) (v : VM) : SROS_vm :=
  {| vm := v; class := class o; newchassis := newchassis o |}.

(** [SROS_vm.__init__(username, password, num, ram)]: the call of the base
    constructor passes the keywords [disk_image], [num], [cpus] and [ram].
    [params] is the parameter list of the base constructor. *)
Definition SROS_vm_init_with (params : list string) (kvm : bool)
    (lic : option license_file) (username password : option string)
    (num ram : Z) : result VM :=
  bind (bind_kwargs params ["disk_image"; "num"; "cpus"; "ram"]) (fun _ =>
  let v := VM_init kvm username password (Some "/sros.qcow2") num ram in
  let v := set_license v (Some "00000000-0000-0000-0000-000000000000") (fake_start_date v) in
  read_license lic v).

(** What [SROS_integrated.__init__] assigns after the base constructor. *)
Definition SROS_integrated_body (v : VM) (newchassis : bool) : SROS_vm :=
  {| vm := set_nics v 5
       (if newchassis
        then ["type=1,product=TIMOS:address=10.0.0.15/24@active license-file=tftp://10.0.0.2/license.txt slot=A chassis=SR-1 card=iom-1 mda/1=me6-100gb-qsfp28"]
        else ["type=1,product=TIMOS:address=10.0.0.15/24@active license-file=tftp://10.0.0.2/license.txt slot=A chassis=SR-c12 card=cfm-xp-b mda/1=m20-1gb-xp-sfp"]);
     class := Integrated; newchassis := newchassis |}.

(** What [SROS_cp.__init__] assigns after the base constructor. *)
Definition SROS_cp_body (v : VM) (num_lc : Z) (newchassis : bool) : SROS_vm :=
  {| vm := set_nics v 0
       (if newchassis
        then ["type=1,product=TIMOS:address=10.0.0.15/24@active license-file=tftp://10.0.0.2/license.txt chassis=SR-14s slot=A sfm=sfm-s card=cpm-s"]
        else ["type=1,product=TIMOS:address=10.0.0.15/24@active license-file=tftp://10.0.0.2/license.txt chassis=XRS-20 chassis-topology=XRS-40 slot=A sfm=sfm-x20-b card=cpm-x20"]);
     class := ControlPlane num_lc; newchassis := newchassis |}.

(** What [SROS_lc.__init__] assigns after the base constructor. *)
Definition SROS_lc_body (v : VM) (slot : Z) (newchassis : bool) : SROS_vm :=
  {| vm := set_nics v 6
       (if newchassis
        then ["type=1,product=TIMOS:chassis=SR-14s slot=" +:+ fmt_d slot +:+ " sfm=sfm-s card=xcm-14s mda/1=s36-400gb-qsfpdd"]
        else ["type=1,product=TIMOS:chassis=XRS-20 chassis-topology=XRS-40 slot=" +:+ fmt_d slot +:+ " sfm=sfm-x20-b card=xcm-x20 mda/1=cx20-10g-sfp"]);
     class := LineCard slot; newchassis := newchassis |}.

Section Constructors.
(** The parameter list of [vrnetlab.VM.__init__], the state of
    [/dev/kvm] and of the license file. *)
Variable params : list string.
Variable kvm : bool.
Variable lic : option license_file.

Definition SROS_integrated_init (username password : option string)
    (newchassis : bool) : result SROS_vm :=
  bind (SROS_vm_init_with params kvm lic username password 0 6144) (fun v =>
  Ok (SROS_integrated_body v newchassis)).

Definition SROS_cp_init (username password : option string) (num_lc : Z)
    (newchassis : bool) : result SROS_vm :=
  bind (SROS_vm_init_with params kvm lic username password 0 6144) (fun v =>
  Ok (SROS_cp_body v num_lc newchassis)).

Definition SROS_lc_init (slot : Z) (newchassis : bool) : result SROS_vm :=
  bind (SROS_vm_init_with params kvm lic None None slot 6144) (fun v =>
  Ok (SROS_lc_body v slot newchassis)).

(** [vms.append(SROS_lc(i, ...))] for each [i] of the list, in order. *)
Fixpoint append_linecards (slots : list Z) (newchassis : bool)
    (vms : list SROS_vm) : result (list SROS_vm) :=
  match slots with
  | [] => Ok vms
  | i :: rest =>
      bind (SROS_lc_init i newchassis) (fun lc =>
      append_linecards rest newchassis (vms ++ [lc]))
  end.

(** [math.ceil(num_nics / 6)] for [num_nics] below 2^50: the quotient is a
    double, the one nearest to the exact quotient, and below 2^50 its ceiling
    is the exact ceiling, which this function returns.  From about 1.35e16 on
    the rounding of the quotient shows and the two differ; statements that
    depend on the value bound [num_nics]. *)
Definition ceil_div (a b : Z) : Z := - ((- a) / b).

(** [SROS.__init__(username, password, num_nics, newchassis)]: the value
    of [self.vms], or the exception that ends the constructor. *)
Definition SROS_init_with (username password : option string) (num_nics : Z)
    (newchassis : bool) : result (list SROS_vm) :=
  let license := match lic with Some _ => true | None => false end in
  if num_nics >? 5 then
    if negb license then Raise (SystemExit 1)
    else
      let num_lc := ceil_div num_nics 6 in
      bind (SROS_cp_init username password num_lc newchassis) (fun cp =>
      append_linecards (range 1 (num_lc + 1)) newchassis [cp])
  else
    bind (SROS_integrated_init username password newchassis) (fun i =>
    Ok [i]).
End Constructors.

(** The constructors against [vrnetlab.VM.__init__] as the repository has it. *)
Definition SROS_init := SROS_init_with VM_init_params.

(** [SROS_integrated.gen_mgmt] *)
Definition SROS_integrated_gen_mgmt (v : VM) : M (list string) :=
  res <- VM_gen_mgmt v ;;
  let res := res ++ ["-device"] in
  mac <- gen_mac 1 ;;
  let res := res ++ ["e1000,netdev=dummy0,mac=" +:+ mac] in
  let res := res ++ ["-netdev"] in
  let res := res ++ ["tap,ifname=dummy0,id=dummy0,script=no,downscript=no"] in
  ret res.

(** [SROS_cp.gen_mgmt] *)
Definition SROS_cp_gen_mgmt (v : VM) : M (list string) :=
  res <- VM_gen_mgmt v ;;
  let res := res ++ ["-device"] in
  mac <- gen_mac 1 ;;
  let res := res ++ ["e1000,netdev=vcp-int,mac=" +:+ mac] in
  let res := res ++ ["-netdev"] in
  let res := res ++ ["tap,ifname=vcp-int,id=vcp-int,script=no,downscript=no"] in
  ret res.

(** [SROS_lc.gen_mgmt] *)
Definition SROS_lc_gen_mgmt (slot : Z) (v : VM) : M (list string) :=
  let res := [] in
  mac <- gen_mac 0 ;;
  let res := res ++ ["-device"; "e1000,netdev=mgmt,mac=" +:+ mac] in
  let res := res ++ ["-netdev"; "user,id=mgmt,net=10.0.0.0/24"] in
  mac <- gen_mac 0 ;;
  let res := res ++ ["-device"; "e1000,netdev=vfpc-int,mac=" +:+ mac] in
  let res := res ++ ["-netdev";
    "tap,ifname=vfpc" +:+ fmt_d slot +:+ "-int,id=vfpc-int,script=no,downscript=no"] in
  ret res.

(** [SROS_lc.gen_nics]: [offset = 6 * (self.slot-1)], then
    [for j in range(0, self.num_nics)] with [i = offset + j + 1]. *)
Definition SROS_lc_gen_nics (slot : Z) (v : VM) : M (list string) :=
  let offset := 6 * (slot - 1) in
  for_each (range 0 (num_nics v))
    (fun j res => let i := offset + j + 1 in append_nic (nic_type v) i res) [].

(** The methods the object's class selects. *)
Definition gen_mgmt (o : SROS_vm) : VM -> M (list string) :=
  match class o with
  | Integrated => SROS_integrated_gen_mgmt
  | ControlPlane _ => SROS_cp_gen_mgmt
  | LineCard slot => SROS_lc_gen_mgmt slot
  end.

Definition gen_nics (o : SROS_vm) : VM -> M (list string) :=
  match class o with
  | LineCard slot => SROS_lc_gen_nics slot
  | _ => VM_gen_nics
  end.

(** [start]: the base method, and for [SROS_cp] and [SROS_lc] the three
    commands that put the VM's tap interface on the bridge. *)
Definition start (o : SROS_vm) : M SROS_vm :=
  v <- VM_start (gen_mgmt o) (gen_nics o) (vm o) ;;
  match class o with
  | Integrated => ret (with_vm o v)
  | ControlPlane _ =>
      emit (EvRunCommand ["brctl"; "addif"; "int_cp"; "vcp-int"]) ;;;
      emit (EvRunCommand ["ip"; "link"; "set"; "vcp-int"; "up"]) ;;;
      emit (EvRunCommand ["ip"; "link"; "set"; "dev"; "vcp-int"; "mtu"; "10000"]) ;;;
      ret (with_vm o v)
  | LineCard slot =>
      let intf := "vfpc" +:+ fmt_d slot +:+ "-int" in
      emit (EvRunCommand ["brctl"; "addif"; "int_cp"; intf]) ;;;
      emit (EvRunCommand ["ip"; "link"; "set"; intf; "up"]) ;;;
      emit (EvRunCommand ["ip"; "link"; "set"; "dev"; intf; "mtu"; "10000"]) ;;;
      ret (with_vm o v)
  end.

Section Spin.
(** [self.bootstrap_config()], which [SROS_integrated] and [SROS_cp]
    define: console writes only. *)
Variable bootstrap_config : SROS_vm -> M unit.

(** [SROS_vm.bootstrap_spin]; [sa] is what the child answers should the
    VM be stopped, [ex] what the console's [expect] returns.  On the path
    without a match the log line's [res.decode()] is evaluated when [res] is
    not empty and raises [UnicodeDecodeError] on bytes that are not UTF-8;
    the function describes that path for bytes that decode
    ([utf8_valid res]). *)
Definition SROS_vm_bootstrap_spin (sa : stop_answers) (ex : expect_result)
    (o : SROS_vm) : M SROS_vm :=
  if spins (vm o) >? 60 then
    v <- VM_stop sa (vm o) ;;
    o <- start (with_vm o v) ;;
    ret (with_vm o (set_spins (vm o) 0))
  else
    emit (EvTelnetExpect 1) ;;;
    if matched ex then
      (if ridx ex =? 0
       then wait_write "admin" None ;;; wait_write "admin" (Some "Password:")
       else ret tt) ;;;
      bootstrap_config o ;;;
      emit EvTelnetClose ;;;
      ret (with_vm o (set_running (vm o) true))
    else
      let o := match res ex with
               | [] => o
               | _ :: _ => with_vm o (set_spins (vm o) 0)
               end in
      ret (with_vm o (set_spins (vm o) (spins (vm o) + 1))).

(** [SROS_lc.bootstrap_spin] *)
Definition SROS_lc_bootstrap_spin (o : SROS_vm) : M SROS_vm :=
  let o := with_vm o (set_running (vm o) true) in
  emit EvTelnetClose ;;;
  ret o.

Definition bootstrap_spin (sa : stop_answers) (ex : expect_result)
    (o : SROS_vm) : M SROS_vm :=
  match class o with
  | LineCard _ => SROS_lc_bootstrap_spin o
  | _ => SROS_vm_bootstrap_spin sa ex o
  end.
End Spin.

(** The double quote of the console commands. *)
Definition dq : string := String (ascii_of_nat 34) "".

(** [SROS_integrated.bootstrap_config] *)
Definition SROS_integrated_bootstrap_config (o : SROS_vm) : M unit :=
  let v := vm o in
  (if truthy (username v) && truthy (password v) then
     wait_write ("configure system security user " +:+ dq +:+ fmt_s (username v) +:+ dq +:+
                 " password " +:+ fmt_s (password v)) (Some "#") ;;;
     wait_write ("configure system security user " +:+ dq +:+ fmt_s (username v) +:+ dq +:+
                 " access console netconf") (Some "#") ;;;
     wait_write ("configure system security user " +:+ dq +:+ fmt_s (username v) +:+ dq +:+
                 " console member " +:+ dq +:+ "administrative" +:+ dq +:+ " " +:+
                 dq +:+ "default" +:+ dq) (Some "#")
   else ret tt) ;;;
  wait_write "configure system netconf no shutdown" (Some "#") ;;;
  wait_write ("configure system security profile " +:+ dq +:+ "administrative" +:+ dq +:+
              " netconf base-op-authorization lock") (Some "#") ;;;
  wait_write "configure card 1 mda 1 shutdown" (Some "#") ;;;
  wait_write "configure card 1 mda 1 no mda-type" (Some "#") ;;;
  wait_write "configure card 1 shutdown" (Some "#") ;;;
  wait_write "configure card 1 no card-type" (Some "#") ;;;
  (if newchassis o then
     wait_write "configure card 1 card-type iom-1 level he" (Some "#") ;;;
     wait_write "configure card 1 mda 1 mda-type me6-100gb-qsfp28" (Some "#")
   else
     wait_write "configure card 1 card-type iom-xp-b" (Some "#") ;;;
     wait_write "configure card 1 mcm 1 mcm-type mcm-xp" (Some "#") ;;;
     wait_write "configure card 1 mda 1 mda-type m20-1gb-xp-sfp" (Some "#")) ;;;
  wait_write "configure card 1 no shutdown" (Some "#") ;;;
  wait_write "admin save" (Some "#") ;;;
  wait_write "logout" (Some "#").

(** [SROS_cp.bootstrap_config] *)
Definition SROS_cp_bootstrap_config (num_lc : Z) (o : SROS_vm) : M unit :=
  let v := vm o in
  (if truthy (username v) && truthy (password v) then
     wait_write ("configure system security user " +:+ dq +:+ fmt_s (username v) +:+ dq +:+
                 " password " +:+ fmt_s (password v)) (Some "#") ;;;
     wait_write ("configure system security user " +:+ dq +:+ fmt_s (username v) +:+ dq +:+
                 " access console netconf") (Some "#") ;;;
     wait_write ("configure system security user " +:+ dq +:+ fmt_s (username v) +:+ dq +:+
                 " console member " +:+ dq +:+ "administrative" +:+ dq +:+ " " +:+
                 dq +:+ "default" +:+ dq) (Some "#")
   else ret tt) ;;;
  wait_write "configure system netconf no shutdown" (Some "#") ;;;
  wait_write ("configure system security profile " +:+ dq +:+ "administrative" +:+ dq +:+
              " netconf base-op-authorization lock") (Some "#") ;;;
  (if newchassis o then
     for_each (range 1 3) (fun i _ =>
       wait_write ("configure system power-shelf " +:+ fmt_d i +:+
                   " power-shelf-type ps-a10-shelf-dc") (Some "#") ;;;
       for_each (range 1 11) (fun m _ =>
         wait_write ("configure system power-shelf " +:+ fmt_d i +:+ " power-module " +:+
                     fmt_d m +:+ " power-module-type ps-a-dc-6000") (Some "#")) tt) tt
   else ret tt) ;;;
  (if newchassis o then
     for_each (range 1 9) (fun i _ =>
       wait_write ("configure sfm " +:+ fmt_d i +:+ " sfm-type sfm-s") (Some "#")) tt
   else
     for_each (range 1 17) (fun i _ =>
       wait_write ("configure sfm " +:+ fmt_d i +:+ " sfm-type sfm-x20-b") (Some "#")) tt) ;;;
  for_each (range 1 (num_lc + 1)) (fun i _ =>
    if newchassis o then ret tt
    else
      wait_write ("configure card " +:+ fmt_d i +:+ " card-type xcm-x20") (Some "#") ;;;
      wait_write ("configure card " +:+ fmt_d i +:+ " mda 1 mda-type cx20-10g-sfp") (Some "#")) tt ;;;
  wait_write "admin save" (Some "#") ;;;
  wait_write "logout" (Some "#").

(** [self.bootstrap_config()] as the object's class has it.  [SROS_lc] has
    none, and its [bootstrap_spin] calls none. *)
Definition bootstrap_config (o : SROS_vm) : M unit :=
  match class o with
  | Integrated => SROS_integrated_bootstrap_config o
  | ControlPlane num_lc => SROS_cp_bootstrap_config num_lc o
  | LineCard _ => ret tt
  end.

(** What [self.p.communicate(timeout=1)] answers in [check_qemu]: the child
    is still running ([TimeoutExpired]), or it has ended and handed back
    [errs]. *)
Inductive communicate_answer :=
| StillRunning
| Ended (errs : option string).

(** [errs != ""] *)
Definition errs_differ (errs : option string) : bool :=
  match errs with
  | Some s => negb (String.eqb s "")
  | None => true
  end.

(** [VM.check_qemu]; [start] is the method of the object's class. *)
Definition check_qemu (ca : communicate_answer) (sa : stop_answers) (o : SROS_vm)
    : M SROS_vm :=
  o <- match p (vm o) with
       | None => start o
       | Some _ => ret o
       end ;;
  emit (EvCommunicate 1) ;;;
  match ca with
  | StillRunning => ret o
  | Ended errs =>
      if errs_differ errs
      then v <- VM_stop sa (vm o) ;; start (with_vm o v)
      else ret o
  end.

(** What the outside answers during one call of [work]: the child process to
    [check_qemu], to a stop by [check_qemu] and to a stop by the spin, and the
    console to [expect]. *)
Record work_answers := {
  comm : communicate_answer;
  stop_check : stop_answers;
  stop_spin : stop_answers;
  console : expect_result
}.

(** [VM.work] *)
Definition work (a : work_answers) (o : SROS_vm) : M SROS_vm :=
  o <- check_qemu (comm a) (stop_check a) o ;;
  if negb (running (vm o))
  then bootstrap_spin bootstrap_config (stop_spin a) (console a) o
  else ret o.

(** [for vm in self.vms: vm.work(); if vm.running != True: ...]: the objects
    after their [work] and the flags read, in order; [ans k] is what VM number
    [k] is answered. *)
Fixpoint work_each (ans : nat -> work_answers) (k : nat) (vms : list SROS_vm)
    : M (list SROS_vm * list bool) :=
  match vms with
  | [] => ret ([], [])
  | o :: rest =>
      o' <- work (ans k) o ;;
      r <- work_each ans (S k) rest ;;
      ret (o' :: r.1, running (vm o') :: r.2)
  end.

(** One pass of the loop of [VR.start] over the VMs of an [SROS]. *)
Definition VR_pass (ans : nat -> work_answers) (vms : list SROS_vm) (started : bool)
    : M (list SROS_vm * bool) :=
  r <- work_each ans 0 vms ;;
  started' <- supervision_pass r.2 started ;;
  ret (r.1, started').

(** The first [n] passes; [ans j k] answers VM number [k] in pass [j]. *)
Fixpoint VR_passes (ans : nat -> nat -> work_answers) (n : nat) (vms : list SROS_vm)
    : M (list SROS_vm * bool) :=
  match n with
  | O => ret (vms, false)
  | S j => r <- VR_passes ans j vms ;; VR_pass (ans j) r.1 r.2
  end.

(** [VR.start]: the two port forwarders, then the loop. *)
Definition VR_start (ans : nat -> nat -> work_answers) (n : nat) (vms : list SROS_vm)
    : M (list SROS_vm * bool) :=
  emit (EvRunCommand ["socat"; "TCP-LISTEN:22,fork"; "TCP:127.0.0.1:2022"]) ;;;
  emit (EvRunCommand ["socat"; "TCP-LISTEN:830,fork"; "TCP:127.0.0.1:2830"]) ;;;
  VR_passes ans n vms.

End Sros.

(** ** xrv/docker/launch_xrv.py *)
Module Xrv.
Import Py Vrnetlab.

(** The file's own [gen_mac]. *)
Definition gen_mac (last_octet : Z) : M string :=
  a <- draw 0 255 ;;
  b <- draw 0 255 ;;
  ret ("52:54:00:" +:+ fmt_02x a +:+ ":" +:+ fmt_02x b +:+ ":" +:+ fmt_02x last_octet).

Record XRV := {
  credentials : list (string * string);
  spins : Z;
  username : string;
  password : string;
  ram : Z;
  num_nics : Z;
  xr_ready : bool
}.

(** [XRV.__init__(username, password)] *)
Definition XRV_init (username password : string) : XRV :=
  {| credentials := [("admin", "admin")]; spins := 0;
     username := username; password := password;
     ram := 4096; num_nics := 128; xr_ready := false |}.

Definition set_spins (x : XRV) (n : Z) : XRV :=
  {| credentials := credentials x; spins := n; username := username x;
     password := password x; ram := ram x; num_nics := num_nics x;
     xr_ready := xr_ready x |}.

Definition set_xr_ready (x : XRV) (r : bool) : XRV :=
  {| credentials := credentials x; spins := spins x; username := username x;
     password := password x; ram := ram x; num_nics := num_nics x;
     xr_ready := r |}.

Definition set_credentials (x : XRV) (c : list (string * string)) : XRV :=
  {| credentials := c; spins := spins x; username := username x;
     password := password x; ram := ram x; num_nics := num_nics x;
     xr_ready := xr_ready x |}.

(** One pass of the NIC loop of [start_vm]. *)
Definition append_nic (i : Z) (cmd : list string) : M (list string) :=
  let nics_per_pci_bus := 26 in
  let pci_bus := i / nics_per_pci_bus in
  let addr := i mod nics_per_pci_bus in
  let cmd := cmd ++ ["-device"] in
  mac <- gen_mac i ;;
  let cmd := cmd ++ ["e1000,netdev=p" +:+ fmt_02d i +:+ ",mac=" +:+ mac +:+
                     ",bus=pci." +:+ fmt_d (pci_bus + 1) +:+
                     ",addr=0x" +:+ fmt_int 16 0 (addr + 1)] in
  let cmd := cmd ++ ["-netdev"] in
  let cmd := cmd ++ ["socket,id=p" +:+ fmt_02d (i + 1) +:+ ",listen=:100" +:+ fmt_02d (i + 1)] in
  ret cmd.

(** [XRV.start_vm]: the command line handed to [run_command]. *)
Definition start_vm_cmd (kvm : bool) (x : XRV) : M (list string) :=
  let cmd :=
    ["qemu-system-x86_64"; "-display"; "none"; "-daemonize"; "-m"; fmt_d (ram x);
     "-machine"; "pc";
     "-device"; "pci-bridge,chassis_nr=1,id=pci.0";
     "-device"; "pci-bridge,chassis_nr=2,id=pci.1";
     "-device"; "pci-bridge,chassis_nr=3,id=pci.2";
     "-device"; "pci-bridge,chassis_nr=4,id=pci.3";
     "-device"; "pci-bridge,chassis_nr=5,id=pci.4";
     "-device"; "pci-bridge,chassis_nr=6,id=pci.5";
     "-serial"; "telnet:0.0.0.0:5000,server,nowait";
     "-hda"; "/xrv.vmdk"] in
  let cmd := if kvm then insert1 "-enable-kvm" cmd else cmd in
  let cmd := cmd ++ ["-device"] in
  mac <- gen_mac 0 ;;
  let cmd := cmd ++ ["e1000,netdev=mgmt,mac=" +:+ mac] in
  let cmd := cmd ++ ["-netdev"] in
  let cmd := cmd ++ ["user,id=mgmt,net=10.0.0.0/24,hostfwd=tcp::2022-10.0.0.15:22,hostfwd=tcp::2830-10.0.0.15:830"] in
  for_each (range 0 (num_nics x)) append_nic cmd.

Definition start_vm (kvm : bool) (x : XRV) : M unit :=
  cmd <- start_vm_cmd kvm x ;;
  emit (EvRunCommand cmd).

(** [XRV.wait_write(cmd, wait)] *)
Definition wait_write (cmd : string) (wait : option string) : M unit :=
  (if truthy wait then emit (EvTelnetReadUntil (fmt_s wait)) else ret tt) ;;;
  emit (EvTelnetWrite (cmd +:+ String (ascii_of_nat 13) "")).

Definition nonempty (s : string) : bool := negb (String.eqb s "").

(** [XRV.bootstrap_config] *)
Definition bootstrap_config (x : XRV) : M unit :=
  let cr := String (ascii_of_nat 13) "" in
  wait_write "" None ;;;
  wait_write ("crypto key generate rsa" +:+ cr) (Some "#") ;;;
  (if nonempty (username x) && nonempty (password x) then
     wait_write "admin" (Some "#") ;;;
     wait_write "configure" (Some "#") ;;;
     wait_write ("username " +:+ username x +:+ " group root-system") (Some "#") ;;;
     wait_write ("username " +:+ username x +:+ " group cisco-support") (Some "#") ;;;
     wait_write ("username " +:+ username x +:+ " secret " +:+ password x) (Some "#") ;;;
     wait_write "commit" (Some "#") ;;;
     wait_write "exit" (Some "#") ;;;
     wait_write "exit" (Some "#")
   else ret tt) ;;;
  wait_write "configure" (Some "#") ;;;
  wait_write "ssh server v2" (Some "#") ;;;
  wait_write "ssh server netconf port 830" (Some "#") ;;;
  wait_write "ssh server netconf vrf default" (Some "#") ;;;
  wait_write "netconf agent ssh" (Some "#") ;;;
  wait_write "netconf-yang agent ssh" (Some "#") ;;;
  wait_write "xml agent tty" (Some "#") ;;;
  wait_write "interface MgmtEth 0/0/CPU0/0" (Some "#") ;;;
  wait_write "no shutdown" (Some "#") ;;;
  wait_write "ipv4 address 10.0.0.15/24" (Some "#") ;;;
  wait_write "exit" (Some "#") ;;;
  wait_write "commit" (Some "#") ;;;
  wait_write "exit" (Some "#").

(** The end of [bootstrap_spin] when nothing returned earlier, for bytes
    [res] that decode.  The argument of the log line, [res.decode()], is
    evaluated whenever [res] is not empty; on bytes that are not UTF-8 it
    raises [UnicodeDecodeError], which nothing catches, before the counter is
    reset.  That end of the spin is outside this function: what is stated of
    a spin that comes here with a non-empty [res] has [utf8_valid res] as a
    hypothesis. *)
Definition spin_tail (ex : expect_result) (x : XRV) : M (bool * bool * XRV) :=
  let x := match res ex with
           | [] => x
           | _ :: _ => set_spins x 0
           end in
  ret (false, false, set_spins x (spins x + 1)).

(** [XRV.bootstrap_spin]: the pair it returns and the object afterwards;
    [ex] is what the console's [expect] returns. *)
Definition bootstrap_spin (ex : expect_result) (x : XRV) : M (bool * bool * XRV) :=
  if spins x >? 300 then ret (true, false, x)
  else
    emit (EvTelnetExpect 1) ;;;
    if matched ex then
      x <- (if ridx ex =? 0 then wait_write "" None ;;; ret x else ret x) ;;
      x <- (if ridx ex =? 1
            then wait_write "" None ;;; ret (set_xr_ready x true)
            else ret x) ;;
      x <- (if ridx ex =? 2
            then wait_write (username x) None ;;;
                 wait_write (password x) (Some "Enter secret:") ;;;
                 wait_write (password x) (Some "Enter secret again:") ;;;
                 ret (set_credentials x ((username x, password x) :: credentials x))
            else ret x) ;;
      r <- (if ridx ex =? 3 then
              match credentials x with
              | [] => ret None
              | (u, pw) :: rest =>
                  wait_write u None ;;;
                  wait_write pw (Some "Password:") ;;;
                  ret (Some (set_credentials x rest))
              end
            else ret (Some x)) ;;
      match r with
      | None => ret (true, false, x)
      | Some x =>
          if Bool.eqb (xr_ready x) true && (ridx ex =? 4)
          then bootstrap_config x ;;; ret (true, true, x)
          else spin_tail ex x
      end
    else spin_tail ex x.

(** The loop of [XRV.start]: spin until [done]; [answers] are the console's
    answers to the successive [expect] calls.  [None] when they run out
    before a spin reports [done]. *)
Fixpoint spin_until_done (answers : list expect_result) (x : XRV) : M (option XRV) :=
  match answers with
  | [] => ret None
  | ex :: rest =>
      r <- bootstrap_spin ex x ;;
      let '(done, _, x) := r in
      if done then ret (Some x) else spin_until_done rest x
  end.

(** [XRV.start] *)
Definition start (kvm : bool) (answers : list expect_result) (x : XRV) : M (option XRV) :=
  start_vm kvm x ;;;
  emit (EvRunCommand ["socat"; "TCP-LISTEN:22,fork"; "TCP:127.0.0.1:2022"]) ;;;
  emit (EvRunCommand ["socat"; "TCP-LISTEN:830,fork"; "TCP:127.0.0.1:2830"]) ;;;
  emit (EvTelnetOpen 5000) ;;;
  r <- spin_until_done answers x ;;
  match r with
  | None => ret None
  | Some x => emit EvTelnetClose ;;; ret (Some x)
  end.

End Xrv.

(** ** vr-xcon/xcon.py *)
Module Xcon.
Import Py.

(** *** Byte order: [struct] with the native format [I], [socket.ntohl] *)
Inductive byteorder := LittleEndian | BigEndian.

(** A byte as a number of [0 .. 255], and back (modulo 256). *)
Definition byte_val (b : byte) : Z := Z.of_N (Byte.to_N b).

Definition byte_of (v : Z) : byte :=
  match Byte.of_N (Z.to_N (v mod 256)) with
  | Some b => b
  | None => x00
  end.

(** [struct.unpack("I", b)[0]]: four bytes in the host's order, the first
    byte the least significant on a little-endian host and the most
    significant on a big-endian one; any other length is [struct.error]. *)
Definition unpack_I (host : byteorder) (b : list byte) : option Z :=
  match b with
  | [b0; b1; b2; b3] =>
      Some match host with
           | LittleEndian =>
               byte_val b0 + 2 ^ 8 * byte_val b1 + 2 ^ 16 * byte_val b2 + 2 ^ 24 * byte_val b3
           | BigEndian =>
               byte_val b3 + 2 ^ 8 * byte_val b2 + 2 ^ 16 * byte_val b1 + 2 ^ 24 * byte_val b0
           end
  | _ => None
  end.

(** [struct.pack("I", v)] for [v] of [0 .. 2^32-1]; [struct.error] otherwise. *)
Definition pack_I (host : byteorder) (v : Z) : option (list byte) :=
  if (0 <=? v) && (v <? 2 ^ 32) then
    let le := [byte_of v; byte_of (v / 2 ^ 8);
               byte_of (v / 2 ^ 16); byte_of (v / 2 ^ 24)] in
    Some match host with
         | LittleEndian => le
         | BigEndian => rev le
         end
  else None.

(** The four bytes of a 32-bit value in reverse order. *)
Definition swap32 (x : Z) : Z :=
  2 ^ 24 * (x mod 2 ^ 8) + 2 ^ 16 * (x / 2 ^ 8 mod 2 ^ 8) +
  2 ^ 8 * (x / 2 ^ 16 mod 2 ^ 8) + x / 2 ^ 24 mod 2 ^ 8.

(** [socket.ntohl] and [socket.htonl] on a 32-bit value: the bytes are
    swapped on a little-endian host and left alone on a big-endian one. *)
Definition ntohl (host : byteorder) (x : Z) : Z :=
  match host with
  | LittleEndian => swap32 x
  | BigEndian => x
  end.
Definition htonl : byteorder -> Z -> Z := ntohl.

(** *** Tcp2Tap *)

(** [tcp_state]: 0 = reading size, 1 = reading packet. *)
Inductive tcp_state_t := ReadingSize | ReadingPacket.

Inductive xevent :=
| XSocket (family : string)                (* socket.socket(family, SOCK_STREAM) *)
| XBind (host : string) (port : Z)         (* self.s.bind((host, port)) *)
| XListen (backlog : Z)                    (* self.s.listen(backlog) *)
| XOpenTun                                 (* os.open("/dev/net/tun", os.O_RDWR) *)
| XTunsetiff (name : string) (flags : Z)   (* fcntl.ioctl(self.tap, TUNSETIFF, ...) *)
| XAccept                                  (* self.s.accept() *)
| XTapWrite (payload : list byte)          (* os.write(self.tap, payload) *)
| XTcpSend (buf : list byte)               (* self.tcp.send(buf) *)
| XDebugRead (n len : Z)                   (* "read %d bytes from tcp, tcp_buf length %d" *)
| XDebugWaitSize                           (* "reading size - less than 4 bytes ..." *)
| XDebugPktSize (size : Z)                 (* "reading size - pkt size: %d" *)
| XDebugWaitPacket                         (* "reading packet - less than remaining ..." *)
| XDebugReading (n : Z)                    (* "reading packet - reading %d bytes" *)
| XWarnDropped                             (* "connection dropped" *)
| XWarnDiscard.                            (* "received packet from tap ... discarding" *)

Record Tcp2Tap := {
  tcp : option nat;
  tcp_state : tcp_state_t;
  tcp_buf : list byte;
  tcp_remaining : Z
}.

(** [Tcp2Tap.__init__(tap_intf, listen_port)]: the object and what the
    constructor does to the system. *)
Definition Tcp2Tap_init (tap_intf : string) (listen_port : Z) : Tcp2Tap * list xevent :=
  let IFF_TAP := 2 in
  let IFF_NO_PI := 4096 in
  ({| tcp := None; tcp_state := ReadingSize; tcp_buf := []; tcp_remaining := 0 |},
   [XSocket "AF_INET6"; XBind "::0" 10001; XListen 1;
    XOpenTun; XTunsetiff tap_intf (Z.lor IFF_TAP IFF_NO_PI)]).

(** [if args.tap_listen: t2t = Tcp2Tap(args.tap_if, 10000 + int(args.tap_listen))];
    [suffix] is [int(args.tap_listen)]. *)
Definition main_tap_listen (tap_if : string) (suffix : Z) : Tcp2Tap * list xevent :=
  Tcp2Tap_init tap_if (10000 + suffix).

Definition len (b : list byte) : Z := Z.of_nat (length b).

Inductive flow := Break | Continue.

(** The second [if] of the framer's loop body: [if self.tcp_state == 1]. *)
Definition packet_part (t : Tcp2Tap) (evs : list xevent) : flow * Tcp2Tap * list xevent :=
  match tcp_state t with
  | ReadingPacket =>
      if len (tcp_buf t) <? tcp_remaining t
      then (Break, t, evs ++ [XDebugWaitPacket])
      else
        let evs := evs ++ [XDebugReading (tcp_remaining t)] in
        let payload := take (Z.to_nat (tcp_remaining t)) (tcp_buf t) in
        let t := {| tcp := tcp t; tcp_state := ReadingSize;
                    tcp_buf := drop (Z.to_nat (tcp_remaining t)) (tcp_buf t);
                    tcp_remaining := 0 |} in
        (Continue, t, evs ++ [XTapWrite payload])
  | ReadingSize => (Continue, t, evs)
  end.

(** One pass of the body of the inner [while True] of [work]. *)
Definition framer_pass (host : byteorder) (t : Tcp2Tap) : result (flow * Tcp2Tap * list xevent) :=
  match tcp_state t with
  | ReadingSize =>
      if negb (len (tcp_buf t) >? 4)
      then Ok (Break, t, [XDebugWaitSize])
      else
        match unpack_I host (take 4 (tcp_buf t)) with
        | None => Raise (ValueError "struct.error")
        | Some v =>
            let size := ntohl host v in
            let t := {| tcp := tcp t; tcp_state := ReadingPacket;
                        tcp_buf := drop 4 (tcp_buf t);
                        tcp_remaining := size |} in
            Ok (packet_part t [XDebugPktSize size])
        end
  | ReadingPacket => Ok (packet_part t [])
  end.

(** The inner [while True]: passes until one breaks.  [None] when [fuel]
    passes were not enough. *)
Fixpoint framer_loop (fuel : nat) (host : byteorder) (t : Tcp2Tap) (evs : list xevent)
    : option (result (Tcp2Tap * list xevent)) :=
  match fuel with
  | O => None
  | S fuel' =>
      match framer_pass host t with
      | Raise e => Some (Raise e)
      | Ok (Break, t', e) => Some (Ok (t', evs ++ e))
      | Ok (Continue, t', e) => framer_loop fuel' host t' (evs ++ e)
      end
  end.

Definition framer (host : byteorder) (t : Tcp2Tap) : option (result (Tcp2Tap * list xevent)) :=
  framer_loop (S (S (length (tcp_buf t)))) host t [].

(** The calls of [os.write] among the events. *)
Fixpoint tap_write_count (evs : list xevent) : nat :=
  match evs with
  | [] => O
  | XTapWrite _ :: evs' => S (tap_write_count evs')
  | _ :: evs' => tap_write_count evs'
  end.

(** What [select] reports ready, with what the system call on it returns:
    the listener (and the accepted connection), the TCP connection (and what
    [recv(2048)] returns, [None] when it raises [ConnectionResetError] or
    another [OSError], which [work] catches), or the tap (and the frame read
    from it).  [select] is handed [self.tcp] only once a connection has been
    accepted.  The other calls of the loop are outside any [try]; the last
    five forms are a pass in which one of them raises [e]: [select] itself,
    [accept], [os.read], [send] (after the frame [payload] was read), and
    the call of [os.write] number [k] of the pass, counted from 0 (after
    [recv] returned [buf]). *)
Inductive ready :=
| ReadyListener (conn : nat)
| ReadyTcp (r : option (list byte))
| ReadyTap (payload : list byte)
| SelectRaises (e : exn)
| AcceptRaises (e : exn)
| TapReadRaises (e : exn)
| TapSendRaises (payload : list byte) (e : exn)
| TapWriteRaises (buf : list byte) (k : nat) (e : exn).

(** One pass of the outer [while True] of [Tcp2Tap.work]. *)
Definition work_pass (host : byteorder) (t : Tcp2Tap) (r : ready)
    : option (result (Tcp2Tap * list xevent)) :=
  match r with
  | ReadyListener conn =>
      Some (Ok ({| tcp := Some conn; tcp_state := tcp_state t;
                   tcp_buf := tcp_buf t; tcp_remaining := tcp_remaining t |},
                [XAccept]))
  | ReadyTcp None => Some (Ok (t, [XWarnDropped]))
  | ReadyTcp (Some buf) =>
      let t := {| tcp := tcp t; tcp_state := tcp_state t;
                  tcp_buf := tcp_buf t ++ buf; tcp_remaining := tcp_remaining t |} in
      match framer host t with
      | Some (Ok (t', evs)) => Some (Ok (t', XDebugRead (len buf) (len (tcp_buf t)) :: evs))
      | other => other
      end
  | ReadyTap payload =>
      match pack_I host (htonl host (len payload)) with
      | None => Some (Raise (ValueError "struct.error"))
      | Some hdr =>
          let buf := hdr ++ payload in
          match tcp t with
          | None => Some (Ok (t, [XWarnDiscard]))
          | Some _ => Some (Ok (t, [XTcpSend buf]))
          end
      end
  | SelectRaises e => Some (Raise e)
  | AcceptRaises e => Some (Raise e)
  | TapReadRaises e => Some (Raise e)
  | TapSendRaises payload e =>
      match pack_I host (htonl host (len payload)) with
      | None => Some (Raise (ValueError "struct.error"))
      | Some hdr =>
          match tcp t with
          | None => Some (Ok (t, [XWarnDiscard]))
          | Some _ => Some (Raise e)
          end
      end
  | TapWriteRaises buf k e =>
      let t := {| tcp := tcp t; tcp_state := tcp_state t;
                  tcp_buf := tcp_buf t ++ buf; tcp_remaining := tcp_remaining t |} in
      match framer host t with
      | Some (Ok (t', evs)) =>
          if (k <? tap_write_count evs)%nat then Some (Raise e)
          else Some (Ok (t', XDebugRead (len buf) (len (tcp_buf t)) :: evs))
      | other => other
      end
  end.

(** [work] over the successive answers of [select]. *)
Fixpoint work (host : byteorder) (t : Tcp2Tap) (rs : list ready)
    : option (result (Tcp2Tap * list xevent)) :=
  match rs with
  | [] => Some (Ok (t, []))
  | r :: rs' =>
      match work_pass host t r with
      | Some (Ok (t', evs)) =>
          match work host t' rs' with
          | Some (Ok (t'', evs')) => Some (Ok (t'', evs ++ evs'))
          | other => other
          end
      | other => other
      end
  end.

(** *** TcpBridge *)

(** A socket object is known by its identity; [next_sock] is the identity
    the next [socket.socket()] gets, [connected] the sockets whose
    [connect] succeeded and the address they reached. *)
Record net := { next_sock : nat; connected : gmap nat (string * Z) }.

Record TcpBridge := {
  sockets : list nat;
  socket2remote : gmap nat nat;
  socket2hostintf : gmap nat string
}.

(** [TcpBridge.__init__] *)
Definition TcpBridge_init : TcpBridge :=
  {| sockets := []; socket2remote := ∅; socket2hostintf := ∅ |}.

(** What [i.recv(2048)] answers in [TcpBridge.work]. *)
Inductive recv_answer :=
| RecvData (buf : list byte)
| RecvReset                  (* ConnectionResetError *)
| RecvOSError.               (* any other OSError *)

(** What [remote.send(buf)] answers. *)
Inductive send_answer :=
| SendOk
| SendBrokenPipe             (* BrokenPipeError *)
| SendRaises.                (* any other exception; [work] does not catch it *)

(** A socket [select] reports ready, with what [recv] on it and, should it
    come to that, [send] on its remote answer. *)
Record ready_sock := { rsock : nat; recv_ans : recv_answer; send_ans : send_answer }.

(** What [TcpBridge.work] does to the sockets; logger calls are left out. *)
Inductive bevent :=
| BSend (sock : nat) (buf : list byte)         (* sock.send(buf) *)
| BSendBroken (sock : nat) (buf : list byte)   (* sock.send(buf) raised BrokenPipeError *)
| BReconnect (sock : nat) (addr : string * Z). (* sock.connect(addr) *)

(** How [TcpBridge.work] ends. *)
Inductive work_end :=
| Returned                   (* [return] on an empty read, [break] on select.error *)
| KeyError (sock : nat)      (* a dict of the bridge has no entry for the socket *)
| SendError (sock : nat).    (* what [send] raised went through *)

Section Bridge.
(** [int(s)] ([None]: [ValueError]); [socket.getaddrinfo(host, port)]
    reduced to [res[0][4]] ([None]: [socket.gaierror]); whether
    [sock.connect(addr)] succeeds. *)
Variable py_int : string -> option Z.
Variable getaddrinfo : string -> string -> option (string * Z).
Variable connect_ok : nat -> string * Z -> bool.

(** [a, b = s.split(sep)] *)
Definition split2 (sep s : string) : result (string * string) :=
  match split sep s with
  | [a; b] => Ok (a, b)
  | _ => Raise (ValueError "unpack")
  end.

(** [TcpBridge.hostintf2addr(hostintf)] *)
Definition hostintf2addr (hostintf : string) : result (string * Z) :=
  bind (split2 "/" hostintf) (fun '(hostname, interface) =>
  match py_int interface with
  | None => Raise (ValueError "int")
  | Some i =>
      match getaddrinfo hostname ("100" +:+ fmt_02d i) with
      | None => Raise (NoVR ("Unable to resolve " +:+ hostname))
      | Some sockaddr => Ok sockaddr
      end
  end).

(** [try: sock.connect(addr) except: ...] *)
Definition try_connect (sock : nat) (addr : string * Z) (n : net) : net :=
  if connect_ok sock addr
  then {| next_sock := next_sock n; connected := <[sock := addr]> (connected n) |}
  else n.

(** [TcpBridge.add_p2p(p2p)] *)
Definition add_p2p (b : TcpBridge) (n : net) (p2p : string) : result (TcpBridge * net) :=
  bind (split2 "--" p2p) (fun '(source, destination) =>
  bind (split2 "/" source) (fun '(src_router, src_interface) =>
  bind (split2 "/" destination) (fun '(dst_router, dst_interface) =>
  bind (hostintf2addr source) (fun src =>
  bind (hostintf2addr destination) (fun dst =>
  let left := next_sock n in
  let right := S (next_sock n) in
  let n := {| next_sock := S (S (next_sock n)); connected := connected n |} in
  let s2h := <[left := src_router +:+ "/" +:+ src_interface]> (socket2hostintf b) in
  let s2h := <[right := dst_router +:+ "/" +:+ dst_interface]> s2h in
  let n := try_connect left src n in
  let n := try_connect right dst n in
  let socks := (sockets b ++ [left]) ++ [right] in
  let s2r := <[left := right]> (socket2remote b) in
  let s2r := <[right := left]> s2r in
  Ok ({| sockets := socks; socket2remote := s2r; socket2hostintf := s2h |}, n)))))).

(** A call of [add_p2p] and the state it leaves: every statement of
    [add_p2p] that can raise comes before its first assignment, so a call
    that raises leaves the object as it was. *)
Definition add_p2p_call (st : TcpBridge * net) (p2p : string) : TcpBridge * net :=
  match add_p2p st.1 st.2 p2p with
  | Ok st' => st'
  | Raise _ => st
  end.

Definition add_p2p_calls (st : TcpBridge * net) (p2ps : list string) : TcpBridge * net :=
  fold_left add_p2p_call p2ps st.

(** [try: i.connect(self.hostintf2addr(self.socket2hostintf[i])) except ...]:
    whatever is raised on the way to the [connect], or by it, is caught. *)
Definition reconnect (b : TcpBridge) (sock : nat) (n : net) : net * list bevent :=
  match socket2hostintf b !! sock with
  | None => (n, [])
  | Some label =>
      match hostintf2addr label with
      | Raise _ => (n, [])
      | Ok addr => (try_connect sock addr n, [BReconnect sock addr])
      end
  end.

(** The body of [for i in ir] in [TcpBridge.work], for one ready socket:
    [None] when the loop goes on to the next socket, and how [work] ends
    otherwise.  The lookups of the log lines are made as the code makes
    them. *)
Definition serve (b : TcpBridge) (n : net) (r : ready_sock)
    : option work_end * net * list bevent :=
  let i := rsock r in
  match socket2remote b !! i with
  | None => (Some (KeyError i), n, [])
  | Some remote =>
      match recv_ans r with
      | RecvReset | RecvOSError =>
          match socket2hostintf b !! i with
          | None => (Some (KeyError i), n, [])
          | Some _ => let (n', evs) := reconnect b i n in (None, n', evs)
          end
      | RecvData buf =>
          if len buf =? 0 then (Some Returned, n, [])
          else
            match socket2hostintf b !! i with
            | None => (Some (KeyError i), n, [])
            | Some _ =>
                match socket2hostintf b !! remote with
                | None => (Some (KeyError remote), n, [])
                | Some _ =>
                    match send_ans r with
                    | SendOk => (None, n, [BSend remote buf])
                    | SendBrokenPipe =>
                        let (n', evs) := reconnect b remote n in
                        (None, n', BSendBroken remote buf :: evs)
                    | SendRaises => (Some (SendError remote), n, [])
                    end
                end
            end
      end
  end.

(** [for i in ir: ...] *)
Fixpoint serve_all (b : TcpBridge) (n : net) (ir : list ready_sock)
    : option work_end * net * list bevent :=
  match ir with
  | [] => (None, n, [])
  | r :: ir' =>
      match serve b n r with
      | (None, n', evs) =>
          let '(e, n'', evs') := serve_all b n' ir' in (e, n'', evs ++ evs')
      | stop => stop
      end
  end.

(** [TcpBridge.work] over the successive answers of [select]; an answer of
    [None] is [select.error].  The first component is how [work] ended,
    [None] when the answers ran out with the loop still going. *)
Fixpoint TcpBridge_work (b : TcpBridge) (n : net) (rounds : list (option (list ready_sock)))
    : option work_end * net * list bevent :=
  match rounds with
  | [] => (None, n, [])
  | None :: _ => (Some Returned, n, [])
  | Some ir :: rest =>
      match serve_all b n ir with
      | (None, n', evs) =>
          let '(e, n'', evs') := TcpBridge_work b n' rest in (e, n'', evs ++ evs')
      | stop => stop
      end
  end.

(** The [--p2p] branch of [__main__] up to the call of [work]: a new
    [TcpBridge] and [add_p2p] for each link in order.  [NoVR] ends the program
    with status 1; any other exception is not caught. *)
Fixpoint main_add_p2ps (b : TcpBridge) (n : net) (p2ps : list string)
    : result (TcpBridge * net) :=
  match p2ps with
  | [] => Ok (b, n)
  | p2p :: rest =>
      match add_p2p b n p2p with
      | Ok (b', n') => main_add_p2ps b' n' rest
      | Raise (NoVR _) => Raise (SystemExit 1)
      | Raise e => Raise e
      end
  end.

Definition main_p2p (p2ps : list string) : result (TcpBridge * net) :=
  main_add_p2ps TcpBridge_init {| next_sock := 0; connected := ∅ |} p2ps.
End Bridge.

End Xcon.

(** * Observations: what the claims speak about *)

(** ** Reading formatted text back *)
Module Read.

(** The hexadecimal digits in order of value. *)
Definition hex_digits : string := "0123456789abcdef".

Fixpoint position (c : ascii) (s : string) (k : Z) : option Z :=
  match s with
  | "" => None
  | String d s' => if Ascii.eqb c d then Some k else position c s' (k + 1)
  end.

(** The value of one lower-case hexadecimal digit. *)
Definition hex_val (c : ascii) : option Z := position c hex_digits 0.

Fixpoint hex_go (s : string) (acc : Z) : option Z :=
  match s with
  | "" => Some acc
  | String c s' =>
      match hex_val c with
      | Some v => hex_go s' (16 * acc + v)
      | None => None
      end
  end.

(** The value of a non-empty string of lower-case hexadecimal digits. *)
Definition hex (s : string) : option Z :=
  match s with
  | "" => None
  | _ => hex_go s 0
  end.

(** The octets of a colon-separated MAC address, first octet first. *)
Definition mac_octets (mac : string) : option (list Z) :=
  mapM hex (Py.split ":" mac).

End Read.

(** The MAC address [gen_mac] returns from a given world. *)
Definition mac_of (k : Z) (w : Vrnetlab.world) : string := (Vrnetlab.gen_mac k w).1.

(** The two bytes the generator hands to the next [gen_mac] call. *)
Definition next_draws (w : Vrnetlab.world) : Z * Z :=
  let g := Vrnetlab.gen w in
  (Py.draws g (Py.pos g) mod 256, Py.draws g (S (Py.pos g)) mod 256).

(** The MAC property as the specification words it: octets one to three are
    the OUI, the third octet is the requested one, and so is the last. *)
Definition gen_mac_as_stated (k : Z) (w : Vrnetlab.world) : Prop :=
  exists o : list Z,
    Read.mac_octets (mac_of k w) = Some o /\
    take 3 o = [82; 84; 0] /\
    o !! 2%nat = Some k /\
    last o = Some k.

(** [%02x] of [v] is two characters, neither a colon, that read back as [v]. *)
Definition two_hex_digits (v : Z) : bool :=
  match Py.fmt_02x v with
  | String c1 (String c2 "") =>
      negb (Ascii.eqb c1 ":") && negb (Ascii.eqb c2 ":") &&
      match Read.hex (String c1 (String c2 "")) with
      | Some v' => v' =? v
      | None => false
      end
  | _ => false
  end.

(** The pairs of characters of [s] in reverse order (characters past the
    last full pair are dropped). *)
Fixpoint rev_pairs (s : string) : string :=
  match s with
  | String a (String b s') => rev_pairs s' +:+ String a (String b "")
  | _ => ""
  end.

(** ** UUID texts *)
Module Uuid.

(** The text has no dash. *)
Fixpoint dashless (s : string) : bool :=
  match s with
  | "" => true
  | String c s' => negb (Ascii.eqb c "-") && dashless s'
  end.

(** The first three fields have an even number of characters. *)
Definition even3 (p0 p1 p2 : string) : Prop :=
  Nat.Even (String.length p0) /\ Nat.Even (String.length p1) /\ Nat.Even (String.length p2).

End Uuid.

(** [a] directly followed by [b] among the arguments. *)
Definition has_pair (a b : string) (args : list string) : Prop :=
  exists pre post, args = pre ++ [a; b] ++ post.

(** A world with nothing in its trace and a generator that draws zeros. *)
Definition quiet_world : Vrnetlab.world :=
  {| Vrnetlab.trace := []; Vrnetlab.gen := {| Py.draws := fun _ => 0; Py.pos := 0 |} |}.

(** ** What a trace of [Tcp2Tap.work] shows *)
Module Obs.
Import Xcon.

(** Bytes handed to [os.write(self.tap, ...)]. *)
Fixpoint tap_bytes (evs : list xevent) : Z :=
  match evs with
  | [] => 0
  | XTapWrite payload :: evs' => len payload + tap_bytes evs'
  | _ :: evs' => tap_bytes evs'
  end.

(** The payloads written to the tap, in order. *)
Fixpoint tap_writes (evs : list xevent) : list (list byte) :=
  match evs with
  | [] => []
  | XTapWrite payload :: evs' => payload :: tap_writes evs'
  | _ :: evs' => tap_writes evs'
  end.

(** Length headers taken off the buffer: one per pass through the
    "pkt size" line. *)
Fixpoint headers (evs : list xevent) : Z :=
  match evs with
  | [] => 0
  | XDebugPktSize _ :: evs' => 1 + headers evs'
  | _ :: evs' => headers evs'
  end.

(** Bytes received over a sequence of TCP reads. *)
Definition received (bufs : list (list byte)) : Z :=
  fold_right (fun b acc => len b + acc) 0 bufs.

(** The answers of [select] when only the TCP connection is ever ready and
    [recv] returns the given chunks. *)
Definition tcp_reads (bufs : list (list byte)) : list ready :=
  map (fun b => ReadyTcp (Some b)) bufs.

(** A freshly constructed [Tcp2Tap] whose listener has accepted [conn]. *)
Definition attached (conn : nat) : Tcp2Tap :=
  {| tcp := Some conn; tcp_state := ReadingSize; tcp_buf := []; tcp_remaining := 0 |}.

(** The four bytes of [n], most significant first. *)
Definition be32 (n : Z) : list byte :=
  [byte_of (n / 2 ^ 24); byte_of (n / 2 ^ 16); byte_of (n / 2 ^ 8); byte_of n].

(** Passes the framer can still make: it shrinks with every pass that
    does not break. *)
Definition passes_left (t : Tcp2Tap) : nat :=
  (length (tcp_buf t) + match tcp_state t with ReadingPacket => 1 | ReadingSize => 0 end)%nat.

End Obs.

(** ** The framer as a sequence of moves *)
Module Frames.
Import Xcon.

(** What [Tcp2Tap] sends for one frame read from the tap: the length in four
    bytes, most significant first, then the frame. *)
Definition wire (payload : list byte) : list byte := Obs.be32 (len payload) ++ payload.

(** [self.tcp_buf += buf] *)
Definition feed (t : Tcp2Tap) (buf : list byte) : Tcp2Tap :=
  {| tcp := tcp t; tcp_state := tcp_state t;
     tcp_buf := tcp_buf t ++ buf; tcp_remaining := tcp_remaining t |}.

(** One move of the framer.  In state 0 with more than four bytes buffered
    the length header is taken off the buffer; in state 1 with the announced
    number of bytes buffered the packet is taken off and written to the tap.
    The list is what the move writes. *)
Inductive move (host : byteorder) : Tcp2Tap -> list (list byte) -> Tcp2Tap -> Prop :=
| move_size (t : Tcp2Tap) (v : Z) :
    tcp_state t = ReadingSize -> 4 < len (tcp_buf t) ->
    unpack_I host (take 4 (tcp_buf t)) = Some v ->
    move host t []
      {| tcp := tcp t; tcp_state := ReadingPacket;
         tcp_buf := drop 4 (tcp_buf t); tcp_remaining := ntohl host v |}
| move_packet (t : Tcp2Tap) :
    tcp_state t = ReadingPacket -> tcp_remaining t <= len (tcp_buf t) ->
    move host t [take (Z.to_nat (tcp_remaining t)) (tcp_buf t)]
      {| tcp := tcp t; tcp_state := ReadingSize;
         tcp_buf := drop (Z.to_nat (tcp_remaining t)) (tcp_buf t);
         tcp_remaining := 0 |}.

Inductive moves (host : byteorder) : Tcp2Tap -> list (list byte) -> Tcp2Tap -> Prop :=
| moves_nil (t : Tcp2Tap) : moves host t [] t
| moves_cons (t t1 t2 : Tcp2Tap) (w1 w2 : list (list byte)) :
    move host t w1 t1 -> moves host t1 w2 t2 -> moves host t (w1 ++ w2) t2.

(** No move is possible until more bytes arrive. *)
Definition settled (t : Tcp2Tap) : Prop :=
  match tcp_state t with
  | ReadingSize => len (tcp_buf t) <= 4
  | ReadingPacket => len (tcp_buf t) < tcp_remaining t
  end.

(** What a state reached by moves keeps: no announced size outside 32 bits,
    and none at all while the size is awaited. *)
Definition sized (t : Tcp2Tap) : Prop :=
  match tcp_state t with
  | ReadingSize => tcp_remaining t = 0
  | ReadingPacket => 0 <= tcp_remaining t < 2 ^ 32
  end.

(** The object between two passes of [work]: at most four bytes are buffered
    while the size is awaited, and fewer than the announced size while a
    packet is. *)
Definition between_passes (t : Tcp2Tap) : Prop :=
  match tcp_state t with
  | ReadingSize => len (tcp_buf t) <= 4 /\ tcp_remaining t = 0
  | ReadingPacket => len (tcp_buf t) < tcp_remaining t < 2 ^ 32
  end.

(** A frame as the tap hands it over: [os.read(self.tap, 2048)]. *)
Definition tap_sized (r : ready) : Prop :=
  match r with
  | ReadyTap payload => len payload <= 2048
  | TapSendRaises payload _ => len payload <= 2048
  | _ => True
  end.

(** What the pass has a call raise that [work] does not catch, should the
    pass come to that call. *)
Definition raises (r : ready) : option Py.exn :=
  match r with
  | ReadyListener _ | ReadyTcp _ | ReadyTap _ => None
  | SelectRaises e | AcceptRaises e | TapReadRaises e => Some e
  | TapSendRaises _ e | TapWriteRaises _ _ e => Some e
  end.

(** Every call of the pass returns (for [recv]: returns or raises what
    [work] catches). *)
Definition calls_return (r : ready) : Prop := raises r = None.

(** The pass raises [e] whatever the state of the object: [select],
    [accept] or [os.read] does. *)
Definition raises_at_once (r : ready) (e : Py.exn) : Prop :=
  r = SelectRaises e \/ r = AcceptRaises e \/ r = TapReadRaises e.

End Frames.

(** ** The peer map of a [TcpBridge] *)
Module Peers.
Import Xcon.

(** Every registered socket has a registered peer whose peer it is, and a
    host/interface label. *)
Definition peers_ok (b : TcpBridge) : Prop :=
  forall s : nat, s ∈ sockets b ->
    exists r : nat, r ∈ sockets b /\
      socket2remote b !! s = Some r /\
      socket2remote b !! r = Some s /\
      is_Some (socket2hostintf b !! s).

(** No registered socket has an identity still to be handed out. *)
Definition allocated (b : TcpBridge) (n : net) : Prop :=
  forall s : nat, s ∈ sockets b -> (s < next_sock n)%nat.

(** No socket made yet. *)
Definition fresh_net : net := {| next_sock := 0; connected := ∅ |}.

(** An edge whose text parses ([a/i--b/j]) and whose two ends resolve: the
    edge, its two ends and their router and interface. *)
Definition resolves (py_int : string -> option Z)
    (getaddrinfo : string -> string -> option (string * Z))
    (p2p source destination sr si dr di : string) : Prop :=
  split2 "--" p2p = Py.Ok (source, destination) /\
  split2 "/" source = Py.Ok (sr, si) /\
  split2 "/" destination = Py.Ok (dr, di) /\
  (exists src, hostintf2addr py_int getaddrinfo source = Py.Ok src) /\
  (exists dst, hostintf2addr py_int getaddrinfo destination = Py.Ok dst).

(** Every edge of the list parses and resolves. *)
Definition all_resolve (py_int : string -> option Z)
    (getaddrinfo : string -> string -> option (string * Z)) (p2ps : list string) : Prop :=
  Forall (fun p2p => exists source destination sr si dr di,
            resolves py_int getaddrinfo p2p source destination sr si dr di) p2ps.

End Peers.

(** ** What [TcpBridge.work] forwards *)
Module Forward.
Import Xcon.

(** The ready sockets of all rounds, in the order [work] serves them. *)
Definition all_ready (rounds : list (option (list ready_sock))) : list ready_sock :=
  concat (omap id rounds).

(** [select] is handed [self.sockets] and reports sockets of that list. *)
Definition selected (b : TcpBridge) (rounds : list (option (list ready_sock))) : Prop :=
  Forall (fun r => rsock r ∈ sockets b) (all_ready rounds).

(** The read brings data and the send to the remote goes through. *)
Definition delivers (r : ready_sock) : Prop :=
  send_ans r = SendOk /\ exists buf, recv_ans r = RecvData buf /\ buf <> [].

(** [ev] is the send, to the peer of the socket of [r], of what was read from
    that socket. *)
Definition forwards (b : TcpBridge) (r : ready_sock) (ev : bevent) : Prop :=
  exists remote buf,
    socket2remote b !! (rsock r) = Some remote /\
    recv_ans r = RecvData buf /\
    ev = BSend remote buf.

(** No socket is its own peer. *)
Definition no_loop (b : TcpBridge) : Prop :=
  forall s r : nat, socket2remote b !! s = Some r -> s <> r.

(** The read on the socket failed. *)
Definition recv_failed (r : ready_sock) : Prop :=
  recv_ans r = RecvReset \/ recv_ans r = RecvOSError.

(** What a reconnection of [sock], labelled [label], comes to: a [connect] to
    the address the label resolves to at that moment, and nothing when it
    does not resolve (the exception is caught). *)
Definition redial (py_int : string -> option Z)
    (getaddrinfo : string -> string -> option (string * Z))
    (connect_ok : nat -> string * Z -> bool)
    (sock : nat) (label : string) (n : net) : net * list bevent :=
  match hostintf2addr py_int getaddrinfo label with
  | Py.Ok addr => (try_connect connect_ok sock addr n, [BReconnect sock addr])
  | Py.Raise _ => (n, [])
  end.

(** The read brings [buf], which is not empty, and the send of it raises
    [BrokenPipeError]. *)
Definition broken_pipe (r : ready_sock) (buf : list byte) : Prop :=
  recv_ans r = RecvData buf /\ buf <> [] /\ send_ans r = SendBrokenPipe.

End Forward.

(** A run with two edges in which every [connect] fails. *)
Definition demo_int (s : string) : option Z :=
  if String.eqb s "1" then Some 1 else if String.eqb s "2" then Some 2 else None.
Definition demo_resolve (host port : string) : option (string * Z) :=
  Some (host, 10001).
Definition demo_bridge : Xcon.TcpBridge :=
  (Xcon.add_p2p_calls demo_int demo_resolve (fun _ _ => false)
     (Xcon.TcpBridge_init, Peers.fresh_net) ["r1/1--r2/1"; "bad"; "r2/2--r3/1"]).1.

(** A run of [__main__] with two links whose routers resolve, and the answers
    of two rounds of [select]. *)
Definition demo_links : list string := ["r1/1--r2/1"; "r2/2--r3/1"].
Definition demo_main : Xcon.TcpBridge * Xcon.net :=
  match Xcon.main_p2p demo_int demo_resolve (fun _ _ => false) demo_links with
  | Py.Ok st => st
  | Py.Raise _ => (Xcon.TcpBridge_init, Peers.fresh_net)
  end.
Definition demo_rounds : list (option (list Xcon.ready_sock)) :=
  [Some [{| Xcon.rsock := 0; Xcon.recv_ans := Xcon.RecvData [xde; xad];
            Xcon.send_ans := Xcon.SendOk |};
         {| Xcon.rsock := 3; Xcon.recv_ans := Xcon.RecvData [xbe];
            Xcon.send_ans := Xcon.SendOk |}];
   Some [{| Xcon.rsock := 1; Xcon.recv_ans := Xcon.RecvData [xef; x01];
            Xcon.send_ans := Xcon.SendOk |}]].

(** A resolver that knows [r1] only. *)
Definition demo_resolve_r1 (host port : string) : option (string * Z) :=
  if String.eqb host "r1" then Some (host, 10001) else None.

(** ** The health file over the passes of the supervision loop *)
Module Health.
Import Vrnetlab.

(** The contents written to [/health], in order. *)
Fixpoint healths (evs : list event) : list string :=
  match evs with
  | [] => []
  | EvHealth c :: evs' => c :: healths evs'
  | _ :: evs' => healths evs'
  end.

(** What the first [n] passes wrote. *)
Definition health_log (flags : nat -> list bool) (n : nat) : list string :=
  healths (trace (supervise flags n quiet_world).2).

(** What pass [n] wrote (passes are counted from 0). *)
Definition health_at (flags : nat -> list bool) (n : nat) : option string :=
  health_log flags (S n) !! n.

(** Every VM reports running on pass [n]. *)
Definition all_up (flags : nat -> list bool) (n : nat) : Prop :=
  forall r : bool, r ∈ flags n -> r = true.

(** The file goes from "1 starting" to "0 running" between pass [n] and the
    next one. *)
Definition comes_up (flags : nat -> list bool) (n : nat) : Prop :=
  health_at flags n = Some "1 starting" /\ health_at flags (S n) = Some "0 running".

(** The consequence as the specification words it: the file goes from
    "1 starting" to "0 running" exactly once. *)
Definition comes_up_exactly_once (flags : nat -> list bool) : Prop :=
  exists n, comes_up flags n /\ forall m, comes_up flags m -> m = n.

(** Every flag of a pass is true. *)
Definition all_upb (fl : list bool) : bool := forallb (fun r => r) fl.

(** Some pass before pass [n] had every flag true. *)
Definition was_up (flags : nat -> list bool) (n : nat) : bool :=
  existsb (fun k => all_upb (flags k)) (seq 0 n).

(** What pass [n] writes, from the flags alone. *)
Definition expected (flags : nat -> list bool) (n : nat) : string :=
  if all_upb (flags n) then "0 running"
  else if was_up flags n then "1 VM failed - restarting"
  else "1 starting".

End Health.

(** ** The watchdog of the bootstrap spin *)
Module Watchdog.
Import Vrnetlab.

(** Between two traces the child was told to terminate and a new child was
    spawned afterwards. *)
Definition kills_and_restarts (before after : list event) : Prop :=
  exists e1 args e2, after = before ++ EvTerminate :: e1 ++ EvSpawn args :: e2.

(** The watchdog as the specification words it, for the IOS-XR launcher: a
    spin that finds the counter above 300 restarts the VM and resets the
    counter. *)
Definition xrv_restarts_as_stated (ex : expect_result) (x : Xrv.XRV) (w : world) : Prop :=
  300 < Xrv.spins x ->
  kills_and_restarts (trace w) (trace (Xrv.bootstrap_spin ex x w).2) /\
  Xrv.spins (Xrv.bootstrap_spin ex x w).1.2 = 0.

(** A method that leaves the trace as it is. *)
Definition silent {A} (m : M A) : Prop := forall w, trace (m w).2 = trace w.

End Watchdog.

(** An integrated SR-OS VM and an IOS-XR launcher whose counters have just
    passed their thresholds, and a console that stays silent. *)
Definition stuck_sros : Sros.SROS_vm :=
  Sros.SROS_integrated_body
    (Vrnetlab.set_spins
       (Vrnetlab.VM_init false (Some "vrnetlab") (Some "VR-netlab9") (Some "/sros.qcow2") 0 6144)
       61)
    false.
Definition stuck_xrv : Xrv.XRV := Xrv.set_spins (Xrv.XRV_init "vrnetlab" "VR-netlab9") 301.

(** The same VM after a first [start], with the counter just past the
    threshold, and the world that start has left. *)
Definition first_start : Sros.SROS_vm * Vrnetlab.world :=
  Sros.start
    (Sros.SROS_integrated_body
       (Vrnetlab.VM_init false (Some "vrnetlab") (Some "VR-netlab9") (Some "/sros.qcow2") 0 6144)
       false)
    quiet_world.
Definition started_stuck_sros : Sros.SROS_vm :=
  Sros.with_vm first_start.1 (Vrnetlab.set_spins (Sros.vm first_start.1) 61).
Definition started_world : Vrnetlab.world := first_start.2.
Definition silence : Vrnetlab.expect_result :=
  {| Vrnetlab.ridx := -1; Vrnetlab.matched := false; Vrnetlab.res := [] |}.
Definition exits_at_once : Vrnetlab.stop_answers :=
  {| Vrnetlab.terminate_lookup_error := false; Vrnetlab.communicate_timeout := false |}.
Definition save_only (o : Sros.SROS_vm) : Vrnetlab.M unit :=
  Vrnetlab.wait_write "admin save" (Some "#").

(** ** Calls of [work] over time *)
Module Boot.
Import Py Vrnetlab.

(** The first [n] calls of [work] on one VM; [ans k] answers call [k]. *)
Fixpoint works (ans : nat -> Sros.work_answers) (n : nat) (o : Sros.SROS_vm)
    : M Sros.SROS_vm :=
  match n with
  | O => ret o
  | S k => o' <- works ans k o ;; Sros.work (ans k) o'
  end.

(** The emulator is alive and the console says nothing. *)
Definition quiet (a : Sros.work_answers) : Prop :=
  Sros.comm a = Sros.StillRunning /\
  matched (Sros.console a) = false /\
  res (Sros.console a) = [].

(** The VM has an emulator process and has finished its bootstrap. *)
Definition up (o : Sros.SROS_vm) : Prop :=
  running (Sros.vm o) = true /\ p (Sros.vm o) <> None.

(** What a pass over [k] VMs that are up leaves in the trace: one poll of
    each emulator and the health file. *)
Definition steady_pass (k : nat) : list event :=
  repeat (EvCommunicate 1) k ++ [EvHealth "0 running"].

(** A method that only adds to the trace. *)
Definition extends {A} (m : M A) : Prop :=
  forall w, exists e, trace (m w).2 = trace w ++ e.

(** The lines written to the console, in order. *)
Fixpoint console_writes (evs : list event) : list string :=
  match evs with
  | [] => []
  | EvTelnetWrite line :: evs' => line :: console_writes evs'
  | _ :: evs' => console_writes evs'
  end.

(** An integrated VM that has been started and waits for its console. *)
Definition booting : Sros.SROS_vm :=
  Sros.with_vm stuck_sros
    (set_handles (set_spins (Sros.vm stuck_sros) 0) (Some 0%nat) (Some 5000)).

(** The same VM after its bootstrap. *)
Definition booted : Sros.SROS_vm :=
  Sros.with_vm booting (set_running (Sros.vm booting) true).

Definition quiet_answers : Sros.work_answers :=
  {| Sros.comm := Sros.StillRunning; Sros.stop_check := exits_at_once;
     Sros.stop_spin := exits_at_once; Sros.console := silence |}.


(** The carriage return [wait_write] ends each line with. *)
Definition cr : string := String (ascii_of_nat 13) "".


(** The two lines that set up the card in slot [i] of the old chassis. *)
Definition card_lines (i : Z) : list string :=
  [("configure card " +:+ fmt_d i +:+ " card-type xcm-x20") +:+ cr;
   ("configure card " +:+ fmt_d i +:+ " mda 1 mda-type cx20-10g-sfp") +:+ cr].

(** The card lines of a line-card VM: those of its slot. *)
Definition card_lines_of (o : Sros.SROS_vm) : list string :=
  match Sros.class o with
  | Sros.LineCard slot => card_lines slot
  | _ => []
  end.





(** A VM that is a line card, or that is up with a live emulator. *)
Definition linecard_or_up (a : Sros.work_answers) (o : Sros.SROS_vm) : Prop :=
  (exists slot, Sros.class o = Sros.LineCard slot) \/
  (up o /\ Sros.comm a = Sros.StillRunning).

End Boot.

(** ** The IOS-XR launcher: its NIC arguments and its bootstrap over time *)
Module Xnic.
Import Py.

(** The PCI bus and the address on it that NIC [i] is put at:
    [math.floor(i/26) + 1] and [i % 26 + 1]. *)
Definition pci_bus (i : Z) : Z := i / 26 + 1.
Definition pci_addr (i : Z) : Z := i mod 26 + 1.

(** The four arguments of traffic NIC [i]: the device refers to netdev
    [p<i>], the socket that follows is given the id [p<i+1>]. *)
Definition quad (i : Z) (mac : string) : list string :=
  ["-device";
   "e1000,netdev=p" +:+ fmt_02d i +:+ ",mac=" +:+ mac +:+
   ",bus=pci." +:+ fmt_d (pci_bus i) +:+ ",addr=0x" +:+ fmt_int 16 0 (pci_addr i);
   "-netdev";
   "socket,id=p" +:+ fmt_02d (i + 1) +:+ ",listen=:100" +:+ fmt_02d (i + 1)].

(** The argument makes a socket netdev with the id [p00]. *)
Definition defines_p00 (a : string) : bool := String.prefix "socket,id=p00," a.

(** The socket argument of NIC [i] does not make [p00]. *)
Definition socket_not_p00 (i : Z) : bool :=
  negb (defines_p00 ("socket,id=p" +:+ fmt_02d (i + 1) +:+ ",listen=:100" +:+ fmt_02d (i + 1))).

End Xnic.

Module Xboot.
Import Py Vrnetlab.

(** The console says nothing within the second [expect] waits. *)
Definition quiet (ex : expect_result) : Prop := matched ex = false /\ res ex = [].







End Xboot.

(** ** The port map read off the emulator's arguments *)
Module Ports.
Import Py Vrnetlab.

(** The four arguments of one traffic NIC: a [-device] that references
    netdev [p<i>] and the [-netdev] socket with that same id, listening on
    the port written [port]. *)
Definition nic_quad (ty : string) (i : Z) (mac port : string) : list string :=
  ["-device"; ty +:+ ",netdev=p" +:+ fmt_02d i +:+ ",mac=" +:+ mac;
   "-netdev"; "socket,id=p" +:+ fmt_02d i +:+ ",listen=:" +:+ port].

(** [args] is, for each index of [indices] in order, the arguments of a NIC
    with that index listening on TCP port 10000 + index. *)
Definition nics_are (ty : string) (indices : list Z) (args : list string) : Prop :=
  exists qs : list (list string),
    args = concat qs /\
    Forall2 (fun i q => exists mac, q = nic_quad ty i mac (fmt_d (10000 + i))) indices qs.

(** [args] has the serial console on TCP port [port]. *)
Definition serial_on (port : Z) (args : list string) : Prop :=
  exists pre post,
    args = pre ++ ["-serial"; "telnet:0.0.0.0:" +:+ fmt_d port +:+ ",server,nowait"] ++ post.

(** The line-card part of the port map as the specification words it: NIC
    [i] of the slot's range is among the arguments, on port 10000 + i. *)
Definition linecard_ports_as_stated (slot : Z) (base : VM) (w : world) : Prop :=
  let o := Sros.SROS_lc_body base slot false in
  forall i, 6 * (slot - 1) + 1 <= i <= 6 * slot ->
    exists pre mac post,
      (Sros.gen_nics o (Sros.vm o) w).1
      = pre ++ nic_quad (nic_type base) i mac (fmt_d (10000 + i)) ++ post.

End Ports.

(** ** What a start hands to the emulator *)
Module Started.
Import Py Vrnetlab.

(** What one call of [VM.start] appends to [self.qemu_args]: the UUID, the
    start date, the smbios entries, the management NICs and the traffic
    NICs. *)
Definition start_block (gm gn : VM -> M (list string)) (v : VM) (w : world) : list string :=
  (if truthy (uuid v) then ["-uuid"; fmt_s (uuid v)] else []) ++
  (if truthy (fake_start_date v)
   then ["-rtc"; "base=" +:+ fmt_s (fake_start_date v)] else []) ++
  flat_map (fun e => ["-smbios"; e]) (smbios v) ++
  (gm v w).1 ++ (gn v (gm v w).2).1.

(** The argument lists of the emulators spawned, in order. *)
Fixpoint spawns (evs : list event) : list (list string) :=
  match evs with
  | [] => []
  | EvSpawn args :: evs' => args :: spawns evs'
  | _ :: evs' => spawns evs'
  end.

(** The start date [read_license] derives from the date it finds. *)
Definition license_date (l : Sros.license_file) : option string :=
  match Sros.date_match l with
  | Some (g1, day) => Some (g1 +:+ fmt_02d (day + 1))
  | None => None
  end.

End Started.

(** What the base constructor leaves for a line card in [slot]. *)
Definition lc_base (slot : Z) : Vrnetlab.VM :=
  Vrnetlab.VM_init false None None (Some "/sros.qcow2") slot 6144.

(** ** What the constructors leave behind *)
Module Built.
Import Py.

(** The addresses the constructor of [Tcp2Tap] binds its listener to. *)
Fixpoint binds (evs : list Xcon.xevent) : list (string * Z) :=
  match evs with
  | [] => []
  | Xcon.XBind h p :: evs' => (h, p) :: binds evs'
  | _ :: evs' => binds evs'
  end.

(** The license file, when there is one, has a UUID that [mangle_uuid]
    accepts. *)
Definition license_parses (lic : option Sros.license_file) : Prop :=
  match lic with
  | None => True
  | Some l => exists m, Sros.mangle_uuid (Sros.uuid_input l) = Ok m
  end.

(** A base constructor that accepts the four keywords [SROS_vm.__init__]
    passes. *)
Definition accepts_cpus (params : list string) : Prop :=
  Vrnetlab.bind_kwargs params ["disk_image"; "num"; "cpus"; "ram"] = Ok tt.

End Built.

(** A license file whose first token is a UUID. *)
Definition demo_license : Sros.license_file :=
  {| Sros.uuid_input := "00112233-4455-6677-8899-aabbccddeeff";
     Sros.date_match := Some ("2016-01-", 31) |}.

(** * Evaluations on small inputs *)

Example fmt_02d_7 : Py.fmt_02d 7 = "07". Proof. reflexivity. Qed.
Example fmt_02d_100 : Py.fmt_02d 100 = "100". Proof. reflexivity. Qed.
Example fmt_02d_neg : Py.fmt_02d (-5) = "-5". Proof. reflexivity. Qed.
Example fmt_02x_255 : Py.fmt_02x 255 = "ff". Proof. reflexivity. Qed.
Example fmt_d_10000 : Py.fmt_d 10000 = "10000". Proof. reflexivity. Qed.
Example split_ex : Py.split "--" "r1/1--r2/1" = ["r1/1"; "r2/1"]. Proof. reflexivity. Qed.
Example split_ex2 : Py.split "--" "a--" = ["a"; ""]. Proof. reflexivity. Qed.
Example split_ex3 : Py.split "--" "a---b" = ["a"; "-b"]. Proof. reflexivity. Qed.
Example range_ex : Py.range 1 5 = [1;2;3;4]. Proof. reflexivity. Qed.
Example range_step2_ex : Py.range_step2 5 = [0;2;4]%nat. Proof. reflexivity. Qed.

Example mac_ex :
  mac_of 7 {| Vrnetlab.trace := []; Vrnetlab.gen := {| Py.draws := fun n => Z.of_nat n + 171; Py.pos := 0 |} |}
  = "52:54:00:ab:ac:07".
Proof. reflexivity. Qed.

Example uuid_rev_part_ex : Sros.uuid_rev_part "a1b2c3d4" = Py.Ok "d4c3b2a1".
Proof. reflexivity. Qed.
Example uuid_rev_part_odd : Sros.uuid_rev_part "abc" = Py.Raise Py.IndexError.
Proof. reflexivity. Qed.
Example mangle_uuid_ex :
  Sros.mangle_uuid "00112233-4455-6677-8899-aabbccddeeff"
  = Py.Ok "33221100-5544-7766-8899-aabbccddeeff".
Proof. reflexivity. Qed.

Example demo_bridge_sockets : Xcon.sockets demo_bridge = [0; 1; 2; 3]%nat.
Proof. reflexivity. Qed.
Example demo_bridge_peer : Xcon.socket2remote demo_bridge !! 2%nat = Some 3%nat.
Proof. reflexivity. Qed.
Example demo_bridge_label : Xcon.socket2hostintf demo_bridge !! 3%nat = Some "r3/1".
Proof. reflexivity. Qed.

Example health_log_ex :
  Health.health_log (fun k => nth k [[false;false]; [true;false]; [true;true]; [true;false]; [true;true]] []) 5
  = ["1 starting"; "1 starting"; "0 running"; "1 VM failed - restarting"; "0 running"].
Proof. reflexivity. Qed.

Example stuck_sros_trace :
  Vrnetlab.trace (Sros.bootstrap_spin save_only exits_at_once silence stuck_sros quiet_world).2
  = [Vrnetlab.EvTerminate; Vrnetlab.EvCommunicate 10;
     Vrnetlab.EvSpawn
       ["qemu-system-x86_64"; "-display"; "none"; "-m"; "6144";
        "-serial"; "telnet:0.0.0.0:5000,server,nowait";
        "-drive"; "if=ide,file=/sros.qcow2";
        "-smbios"; "type=1,product=TIMOS:address=10.0.0.15/24@active license-file=tftp://10.0.0.2/license.txt slot=A chassis=SR-c12 card=cfm-xp-b mda/1=m20-1gb-xp-sfp";
        "-device"; "e1000,netdev=p00,mac=52:54:00:00:00:00";
        "-netdev"; "user,id=p00,net=10.0.0.0/24,tftp=/tftpboot,hostfwd=tcp::2022-10.0.0.15:22,hostfwd=tcp::2830-10.0.0.15:830";
        "-device"; "e1000,netdev=dummy0,mac=52:54:00:00:00:01";
        "-netdev"; "tap,ifname=dummy0,id=dummy0,script=no,downscript=no";
        "-device"; "e1000,netdev=p01,mac=52:54:00:00:00:01";
        "-netdev"; "socket,id=p01,listen=:10001";
        "-device"; "e1000,netdev=p02,mac=52:54:00:00:00:02";
        "-netdev"; "socket,id=p02,listen=:10002";
        "-device"; "e1000,netdev=p03,mac=52:54:00:00:00:03";
        "-netdev"; "socket,id=p03,listen=:10003";
        "-device"; "e1000,netdev=p04,mac=52:54:00:00:00:04";
        "-netdev"; "socket,id=p04,listen=:10004"];
     Vrnetlab.EvCommunicate 2; Vrnetlab.EvTelnetOpen 5000].
Proof. vm_compute. reflexivity. Qed.

Example linecard_2_nics :
  (Sros.gen_nics (Sros.SROS_lc_body (lc_base 2) 2 false)
     (Sros.vm (Sros.SROS_lc_body (lc_base 2) 2 false)) quiet_world).1
  = ["-device"; "e1000,netdev=p07,mac=52:54:00:00:00:07"; "-netdev"; "socket,id=p07,listen=:10007";
     "-device"; "e1000,netdev=p08,mac=52:54:00:00:00:08"; "-netdev"; "socket,id=p08,listen=:10008";
     "-device"; "e1000,netdev=p09,mac=52:54:00:00:00:09"; "-netdev"; "socket,id=p09,listen=:10009";
     "-device"; "e1000,netdev=p10,mac=52:54:00:00:00:0a"; "-netdev"; "socket,id=p10,listen=:10010";
     "-device"; "e1000,netdev=p11,mac=52:54:00:00:00:0b"; "-netdev"; "socket,id=p11,listen=:10011";
     "-device"; "e1000,netdev=p12,mac=52:54:00:00:00:0c"; "-netdev"; "socket,id=p12,listen=:10012"].
Proof. vm_compute. reflexivity. Qed.

Example linecard_17_fourth_nic :
  (Sros.gen_nics (Sros.SROS_lc_body (lc_base 17) 17 false)
     (Sros.vm (Sros.SROS_lc_body (lc_base 17) 17 false)) quiet_world).1 !! 15%nat
  = Some "socket,id=p100,listen=:100100".
Proof. vm_compute. reflexivity. Qed.

Example serial_slot_100 :
  Vrnetlab.qemu_args (lc_base 100) !! 6%nat = Some "telnet:0.0.0.0:50100,server,nowait".
Proof. vm_compute. reflexivity. Qed.

(** A length header that arrives split over two reads (one byte, then
    three) is completed by the next read: the payload that follows is written
    to the tap whole, on a host of either byte order. *)
Example header_split_over_reads :
  forall host conn,
    exists evs,
      Xcon.work host (Obs.attached conn)
        (Obs.tcp_reads [[x00]; [x00; x00; x04]; [xde; xad; xbe; xef]])
      = Some (Py.Ok (Obs.attached conn, evs)) /\
      Obs.tap_writes evs = [[xde; xad; xbe; xef]].
Proof. intros host conn. destruct host; eexists; split; vm_compute; reflexivity. Qed.

(** A frame read from the tap goes out as its length in four bytes, most
    significant first, followed by the frame; with no TCP client it is
    discarded. *)
Example tap_frame_is_length_prefixed :
  forall host conn,
    Xcon.work_pass host (Obs.attached conn) (Xcon.ReadyTap [xde; xad; xbe; xef; x01])
    = Some (Py.Ok (Obs.attached conn,
                   [Xcon.XTcpSend [x00; x00; x00; x05; xde; xad; xbe; xef; x01]])) /\
    Xcon.work_pass host (Xcon.Tcp2Tap_init "tap0" 10001).1
      (Xcon.ReadyTap [xde; xad; xbe; xef; x01])
    = Some (Py.Ok ((Xcon.Tcp2Tap_init "tap0" 10001).1, [Xcon.XWarnDiscard])).
Proof. intros host conn. destruct host; split; vm_compute; reflexivity. Qed.

Example utf8_valid_ex :
  Py.utf8_valid [x55; xc3; xa9; xe2; x82; xac; xf0; x9f; x98; x80] = true /\
  Py.utf8_valid [xff] = false /\ Py.utf8_valid [xc0; x80] = false /\
  Py.utf8_valid [xed; xa0; x80] = false /\ Py.utf8_valid [xe2; x82] = false /\
  Py.utf8_valid [xf4; x90; x80; x80] = false.
Proof. repeat split. Qed.

Example sros_13_classes :
  match Sros.SROS_init_with (Vrnetlab.VM_init_params ++ ["cpus"]) false (Some demo_license)
          None None 13 false with
  | Py.Ok vms => map Sros.class vms
  | Py.Raise _ => []
  end
  = [Sros.ControlPlane 3; Sros.LineCard 1; Sros.LineCard 2; Sros.LineCard 3].
Proof. vm_compute. reflexivity. Qed.

Example ceil_div_6 : Sros.ceil_div 6 6 = 1. Proof. reflexivity. Qed.
Example ceil_div_13 : Sros.ceil_div 13 6 = 3. Proof. reflexivity. Qed.

(** * Lemmas and theorems *)

Lemma forallb_range (P : Z -> bool) (lo hi : Z) :
  forallb P (Py.range lo hi) = true ->
  forall i, lo <= i < hi -> P i = true.
Proof.
  intros H i Hi. rewrite forallb_forall in H. apply H.
  unfold Py.range. apply in_map_iff. exists (Z.to_nat (i - lo)). split; [lia|].
  apply in_seq. lia.
Qed.

Lemma fmt_02x_byte (v : Z) :
  0 <= v <= 255 ->
  exists c1 c2, Py.fmt_02x v = String c1 (String c2 "") /\
    c1 <> ":"%char /\ c2 <> ":"%char /\
    Read.hex (String c1 (String c2 "")) = Some v.
Proof.
  intros Hv.
  assert (H : two_hex_digits v = true).
  { apply (forallb_range two_hex_digits 0 256); [vm_compute; reflexivity | lia]. }
  unfold two_hex_digits in H.
  destruct (Py.fmt_02x v) as [|c1 [|c2 [|? ?]]]; try discriminate.
  apply andb_prop in H as [H H3]. apply andb_prop in H as [H1 H2].
  exists c1, c2. split; [reflexivity|].
  apply negb_true_iff, Ascii.eqb_neq in H1. apply negb_true_iff, Ascii.eqb_neq in H2.
  split; [assumption|]. split; [assumption|].
  destruct (Read.hex _) as [v'|]; [|discriminate].
  apply Z.eqb_eq in H3. congruence.
Qed.

Lemma prefix_colon_ne (c : ascii) (s : string) :
  c <> ":"%char -> String.prefix ":" (String c s) = false.
Proof.
  intros Hc. cbn [String.prefix].
  destruct (ascii_dec ":" c) as [E|E]; [congruence|reflexivity].
Qed.

Lemma prefix_empty (s : string) : String.prefix "" s = true.
Proof. destruct s; reflexivity. Qed.

Lemma append_cons (c : ascii) (s t : string) : String c s +:+ t = String c (s +:+ t).
Proof. reflexivity. Qed.

Lemma append_nil_l (t : string) : "" +:+ t = t.
Proof. reflexivity. Qed.

Lemma append_assoc2 (cur : string) (c1 c2 : ascii) :
  (cur +:+ String c1 "") +:+ String c2 "" = cur +:+ String c1 (String c2 "").
Proof.
  induction cur as [|c cur IH]; [reflexivity|].
  rewrite !append_cons. f_equal. exact IH.
Qed.

Lemma split_go_octet (c1 c2 : ascii) (rest cur : string) :
  c1 <> ":"%char -> c2 <> ":"%char ->
  Py.split_go ":" (String c1 (String c2 (String ":" rest))) 0 cur =
  (cur +:+ String c1 (String c2 "")) :: Py.split_go ":" rest 0 "".
Proof.
  intros H1 H2.
  cbn [Py.split_go]. rewrite prefix_colon_ne by assumption.
  cbn [Py.split_go]. rewrite prefix_colon_ne by assumption.
  cbn [Py.split_go String.prefix].
  destruct (ascii_dec ":" ":") as [_|E]; [|congruence].
  rewrite prefix_empty, append_assoc2. reflexivity.
Qed.

Lemma split_go_last_octet (c1 c2 : ascii) (cur : string) :
  c1 <> ":"%char -> c2 <> ":"%char ->
  Py.split_go ":" (String c1 (String c2 "")) 0 cur = [cur +:+ String c1 (String c2 "")].
Proof.
  intros H1 H2.
  cbn [Py.split_go]. rewrite prefix_colon_ne by assumption.
  cbn [Py.split_go]. rewrite prefix_colon_ne by assumption.
  cbn [Py.split_go]. rewrite append_assoc2. reflexivity.
Qed.

Lemma mac_octets_gen_mac (k : Z) (w : Vrnetlab.world) :
  0 <= k <= 255 ->
  Read.mac_octets (mac_of k w) = Some [82; 84; 0; (next_draws w).1; (next_draws w).2; k].
Proof.
  intros Hk. unfold mac_of, next_draws, Vrnetlab.gen_mac, Vrnetlab.mbind, Vrnetlab.draw,
    Vrnetlab.ret, Py.randint. cbn [fst snd Py.draws Py.pos Vrnetlab.gen].
  replace (255 - 0 + 1) with 256 by reflexivity. rewrite !Z.add_0_l.
  set (a := Py.draws (Vrnetlab.gen w) (Py.pos (Vrnetlab.gen w)) mod 256).
  set (b := Py.draws (Vrnetlab.gen w) (S (Py.pos (Vrnetlab.gen w))) mod 256).
  assert (Ha : 0 <= a <= 255) by (pose proof (Z.mod_pos_bound (Py.draws (Vrnetlab.gen w) (Py.pos (Vrnetlab.gen w))) 256); lia).
  assert (Hb : 0 <= b <= 255) by (pose proof (Z.mod_pos_bound (Py.draws (Vrnetlab.gen w) (S (Py.pos (Vrnetlab.gen w)))) 256); lia).
  destruct (fmt_02x_byte a Ha) as (a1 & a2 & Ea & Na1 & Na2 & Pa).
  destruct (fmt_02x_byte b Hb) as (b1 & b2 & Eb & Nb1 & Nb2 & Pb).
  destruct (fmt_02x_byte k Hk) as (k1 & k2 & Ek & Nk1 & Nk2 & Pk).
  rewrite Ea, Eb, Ek. unfold Read.mac_octets, Py.split.
  rewrite ?append_cons, ?append_nil_l.
  rewrite !split_go_octet by (assumption || discriminate).
  rewrite split_go_last_octet by assumption.
  rewrite ?append_nil_l. cbn [mapM].
  rewrite Pa, Pb, Pk. reflexivity.
Qed.

(** C8, as amended.  For every k in [0, 255] and every state of the random
    generator, gen_mac(k) is a MAC address of six octets: the first three (the
    OUI) are 52:54:00, the fourth and fifth are the two bytes the generator
    draws, and the last one is k. *)
Theorem gen_mac_octets (k : Z) (w : Vrnetlab.world) :
  0 <= k <= 255 ->
  exists o : list Z,
    Read.mac_octets (mac_of k w) = Some o /\
    length o = 6%nat /\
    take 3 o = [82; 84; 0] /\
    o !! 3%nat = Some (next_draws w).1 /\
    o !! 4%nat = Some (next_draws w).2 /\
    last o = Some k.
Proof.
  intros Hk. eexists. split; [apply mac_octets_gen_mac; exact Hk|].
  repeat split.
Qed.

Lemma gen_mac_octets_witness :
  0 <= 7 <= 255 /\
  exists o : list Z,
    Read.mac_octets (mac_of 7 quiet_world) = Some o /\
    length o = 6%nat /\
    take 3 o = [82; 84; 0] /\
    o !! 3%nat = Some (next_draws quiet_world).1 /\
    o !! 4%nat = Some (next_draws quiet_world).2 /\
    last o = Some 7.
Proof. split; [lia | apply (gen_mac_octets 7 quiet_world); lia]. Defined.

(** C8 as stated fails: gen_mac(1) has third octet 00, not 01. *)
Lemma gen_mac_third_octet_is_oui : ~ gen_mac_as_stated 1 quiet_world.
Proof.
  intros (o & Ho & _ & H2 & _).
  rewrite mac_octets_gen_mac in Ho by lia.
  injection Ho as <-. discriminate H2.
Qed.

Section Framer.
Import Xcon Obs.

Lemma tap_bytes_app (e1 e2 : list xevent) :
  tap_bytes (e1 ++ e2) = tap_bytes e1 + tap_bytes e2.
Proof.
  induction e1 as [|e e1 IH]; [reflexivity|].
  destruct e; cbn [app tap_bytes]; rewrite IH; lia.
Qed.

Lemma headers_app (e1 e2 : list xevent) :
  headers (e1 ++ e2) = headers e1 + headers e2.
Proof.
  induction e1 as [|e e1 IH]; [reflexivity|].
  destruct e; cbn [app headers]; rewrite IH; lia.
Qed.

Lemma unpack_I_take4 (host : byteorder) (buf : list byte) :
  4 < len buf -> exists v, unpack_I host (take 4 buf) = Some v.
Proof.
  unfold len. intros H.
  destruct buf as [|b0 [|b1 [|b2 [|b3 buf]]]]; cbn [length] in H; try lia.
  eexists. reflexivity.
Qed.

(** The second half of a pass keeps every byte: what leaves the buffer is
    written to the tap. *)
Lemma packet_part_conserves (t : Tcp2Tap) (evs : list xevent) :
  forall fl t' e, packet_part t evs = (fl, t', e) ->
    len (tcp_buf t) + tap_bytes evs = len (tcp_buf t') + tap_bytes e /\
    headers e = headers evs /\
    tcp t' = tcp t /\
    (fl = Continue -> tcp_state t' = ReadingSize /\
                      (length (tcp_buf t') <= length (tcp_buf t))%nat).
Proof.
  intros fl t' e. unfold packet_part.
  destruct (tcp_state t) eqn:Hs.
  - intros [= <- <- <-]. repeat split; auto.
  - destruct (len (tcp_buf t) <? tcp_remaining t) eqn:Hlt.
    + intros [= <- <- <-]. rewrite tap_bytes_app, headers_app. cbn.
      repeat split; try lia. discriminate.
    + intros [= <- <- <-]. cbn [tcp_buf tcp tcp_state].
      rewrite !tap_bytes_app, !headers_app. cbn [tap_bytes headers].
      unfold len. rewrite length_take, length_drop.
      repeat split; try lia.
Qed.

Lemma framer_pass_conserves (host : byteorder) (t : Tcp2Tap) :
  exists fl t' e, framer_pass host t = Py.Ok (fl, t', e) /\
    len (tcp_buf t) = len (tcp_buf t') + tap_bytes e + 4 * headers e /\
    tcp t' = tcp t /\
    (fl = Continue -> (passes_left t' < passes_left t)%nat).
Proof.
  unfold framer_pass, passes_left.
  destruct (tcp_state t) eqn:Hs.
  - destruct (len (tcp_buf t) >? 4) eqn:Hgt; cbn [negb].
    + apply Z.gtb_lt in Hgt.
      destruct (unpack_I_take4 host _ Hgt) as [v ->].
      match goal with |- context [packet_part ?a ?b] =>
        destruct (packet_part a b) as [[fl t'] e] eqn:Hp end.
      apply packet_part_conserves in Hp as (Hc & Hh & Ht & Hm).
      cbn [tcp_buf tcp tap_bytes headers] in Hc, Hh, Ht, Hm.
      exists fl, t', e. split; [reflexivity|].
      unfold len in *. rewrite length_drop in Hc, Hm.
      split; [lia|]. split; [assumption|].
      intros Hfl. destruct (Hm Hfl) as [-> Hle]. lia.
    + exists Break, t, [XDebugWaitSize]. split; [reflexivity|].
      cbn. split; [lia|]. split; [reflexivity|discriminate].
  - destruct (packet_part t []) as [[fl t'] e] eqn:Hp.
    apply packet_part_conserves in Hp as (Hc & Hh & Ht & Hm).
    cbn [tap_bytes headers] in Hc, Hh.
    exists fl, t', e. split; [reflexivity|].
    split; [lia|]. split; [assumption|].
    intros Hfl. destruct (Hm Hfl) as [-> Hle]. lia.
Qed.

(** With fuel above [passes_left] the loop reaches its [break], and no byte
    is lost on the way. *)
Lemma framer_loop_conserves (host : byteorder) (fuel : nat) :
  forall t evs, (passes_left t < fuel)%nat ->
    exists t' e, framer_loop fuel host t evs = Some (Py.Ok (t', evs ++ e)) /\
      len (tcp_buf t) = len (tcp_buf t') + tap_bytes e + 4 * headers e /\
      tcp t' = tcp t.
Proof.
  induction fuel as [|fuel IH]; intros t evs Hm; [lia|].
  cbn [framer_loop].
  destruct (framer_pass_conserves host t) as (fl & t1 & e1 & -> & Hc & Ht & Hd).
  destruct fl.
  - exists t1, e1. auto.
  - destruct (IH t1 (evs ++ e1)) as (t' & e & -> & Hc' & Ht'); [specialize (Hd eq_refl); lia|].
    exists t', (e1 ++ e). rewrite <- app_assoc. split; [reflexivity|].
    rewrite tap_bytes_app, headers_app. split; [lia|congruence].
Qed.

Lemma framer_conserves (host : byteorder) (t : Tcp2Tap) :
  exists t' e, framer host t = Some (Py.Ok (t', e)) /\
    len (tcp_buf t) = len (tcp_buf t') + tap_bytes e + 4 * headers e /\
    tcp t' = tcp t.
Proof.
  unfold framer.
  destruct (framer_loop_conserves host (S (S (length (tcp_buf t)))) t []) as (t' & e & H & Hc);
    [unfold passes_left; destruct (tcp_state t); lia|].
  exists t', e. split; [exact H|exact Hc].
Qed.

Lemma work_tcp_reads_conserves (host : byteorder) (bufs : list (list byte)) :
  forall t, exists t' evs,
    work host t (tcp_reads bufs) = Some (Py.Ok (t', evs)) /\
    len (tcp_buf t') + tap_bytes evs + 4 * headers evs = len (tcp_buf t) + received bufs.
Proof.
  induction bufs as [|buf bufs IH]; intros t.
  - exists t, []. split; [reflexivity|]. cbn. lia.
  - cbn [tcp_reads map work work_pass].
    match goal with |- context [framer host ?a] =>
      destruct (framer_conserves host a) as (t1 & e1 & -> & Hc & _) end.
    cbn [tcp_buf] in Hc.
    destruct (IH t1) as (t2 & e2 & H2 & Hc2). fold (tcp_reads bufs). rewrite H2.
    eexists _, _. split; [reflexivity|].
    cbn [app tap_bytes headers received fold_right].
    rewrite tap_bytes_app, headers_app.
    unfold len in Hc. rewrite length_app in Hc. fold (received bufs).
    unfold len in *. lia.
Qed.

End Framer.

(** C4.  A Tcp2Tap with an empty buffer in state reading-size that reads the
    eight bytes 00 00 00 04 DE AD BE EF in one recv writes exactly the four
    bytes DE AD BE EF to the tap, once, and is back in state reading-size with
    an empty buffer; on a host of either byte order. *)
Theorem tcp2tap_single_frame (host : Xcon.byteorder) (conn : nat) :
  exists evs,
    Xcon.work_pass host (Obs.attached conn)
      (Xcon.ReadyTcp (Some [x00; x00; x00; x04; xde; xad; xbe; xef]))
    = Some (Py.Ok (Obs.attached conn, evs)) /\
    Obs.tap_writes evs = [[xde; xad; xbe; xef]].
Proof.
  destruct host; eexists; split; vm_compute; reflexivity.
Qed.

(** C5.  For every sequence of TCP reads fed to a fresh Tcp2Tap, the framer
    runs each time until its loop breaks, and afterwards len(tcp_buf) plus the
    bytes written to the tap equals the bytes received minus 4 for each length
    header taken off the buffer. *)
Theorem framer_accounts_for_every_byte (host : Xcon.byteorder) (conn : nat)
    (bufs : list (list byte)) :
  exists t evs,
    Xcon.work host (Obs.attached conn) (Obs.tcp_reads bufs) = Some (Py.Ok (t, evs)) /\
    Xcon.len (Xcon.tcp_buf t) + Obs.tap_bytes evs
    = Obs.received bufs - 4 * Obs.headers evs.
Proof.
  destruct (work_tcp_reads_conserves host bufs (Obs.attached conn)) as (t & evs & H & Hc).
  exists t, evs. split; [exact H|].
  change (Xcon.len (Xcon.tcp_buf (Obs.attached conn))) with 0 in Hc. lia.
Qed.

Section ByteOrder.
Import Xcon Obs.

Lemma byte_val_range (b : byte) : 0 <= byte_val b < 256.
Proof. unfold byte_val. pose proof (Byte.to_N_bounded b). lia. Qed.

Lemma byte_val_of (v : Z) : byte_val (byte_of v) = v mod 256.
Proof.
  unfold byte_val, byte_of.
  assert (Hm : 0 <= v mod 256 < 256) by (apply Z.mod_pos_bound; lia).
  pose proof (Byte.to_of_N_option_map (Z.to_N (v mod 256))) as H.
  destruct (Byte.of_N (Z.to_N (v mod 256))) as [b|]; cbn [option_map] in H.
  - destruct (N.leb (Z.to_N (v mod 256)) 255); [|discriminate H].
    injection H as ->. lia.
  - assert (E : N.leb (Z.to_N (v mod 256)) 255 = true) by (apply N.leb_le; lia).
    rewrite E in H. discriminate H.
Qed.

Lemma byte_of_val (b : byte) : byte_of (byte_val b) = b.
Proof.
  unfold byte_of, byte_val.
  pose proof (Byte.to_N_bounded b) as Hb.
  rewrite Z.mod_small by lia. rewrite N2Z.id, Byte.of_to_N. reflexivity.
Qed.

Lemma byte_of_mod (a b : Z) : a mod 256 = b mod 256 -> byte_of a = byte_of b.
Proof. unfold byte_of. intros ->. reflexivity. Qed.

Lemma swap32_range (x : Z) : 0 <= swap32 x < 2 ^ 32.
Proof.
  unfold swap32.
  change (2 ^ 8) with 256. change (2 ^ 16) with 65536.
  change (2 ^ 24) with 16777216. change (2 ^ 32) with 4294967296.
  pose proof (Z.mod_pos_bound x 256). pose proof (Z.mod_pos_bound (x / 256) 256).
  pose proof (Z.mod_pos_bound (x / 65536) 256). pose proof (Z.mod_pos_bound (x / 16777216) 256).
  lia.
Qed.

(** On either host, [pack("I", htonl(n))] is [n] most significant byte first. *)
Lemma pack_I_htonl (host : byteorder) (n : Z) :
  0 <= n < 2 ^ 32 -> pack_I host (htonl host n) = Some (be32 n).
Proof.
  intros Hn. unfold pack_I, htonl, ntohl, be32. destruct host.
  - pose proof (swap32_range n) as Hr.
    assert (E : (0 <=? swap32 n) && (swap32 n <? 2 ^ 32) = true) by lia.
    rewrite E. clear E Hr. f_equal.
    unfold swap32.
    change (2 ^ 8) with 256 in *. change (2 ^ 16) with 65536 in *.
    change (2 ^ 24) with 16777216 in *. change (2 ^ 32) with 4294967296 in *.
    f_equal; [|f_equal; [|f_equal; [|f_equal]]];
      apply byte_of_mod; Z.div_mod_to_equations; lia.
  - assert (E : (0 <=? n) && (n <? 2 ^ 32) = true) by lia.
    rewrite E. reflexivity.
Qed.

(** On either host, [ntohl(unpack("I", b))] reads [b] most significant byte
    first. *)
Lemma ntohl_unpack_I (host : byteorder) (b0 b1 b2 b3 : byte) :
  exists v, unpack_I host [b0; b1; b2; b3] = Some v /\
    ntohl host v
    = 2 ^ 24 * byte_val b0 + 2 ^ 16 * byte_val b1 + 2 ^ 8 * byte_val b2 + byte_val b3.
Proof.
  pose proof (byte_val_range b0). pose proof (byte_val_range b1).
  pose proof (byte_val_range b2). pose proof (byte_val_range b3).
  eexists. split; [reflexivity|].
  unfold ntohl. destruct host; [|lia].
  unfold swap32.
  change (2 ^ 8) with 256. change (2 ^ 16) with 65536. change (2 ^ 24) with 16777216.
  Z.div_mod_to_equations. lia.
Qed.

Lemma ntohl_unpack_be32 (host : byteorder) (n : Z) :
  0 <= n < 2 ^ 32 ->
  exists v, unpack_I host (be32 n) = Some v /\ ntohl host v = n.
Proof.
  intros Hn. unfold be32.
  destruct (ntohl_unpack_I host (byte_of (n / 2 ^ 24)) (byte_of (n / 2 ^ 16))
              (byte_of (n / 2 ^ 8)) (byte_of n)) as (v & Hv & E).
  exists v. split; [exact Hv|]. rewrite E, !byte_val_of.
  change (2 ^ 8) with 256 in *. change (2 ^ 16) with 65536 in *.
  change (2 ^ 24) with 16777216 in *. change (2 ^ 32) with 4294967296 in *.
  Z.div_mod_to_equations. lia.
Qed.

End ByteOrder.

Section RoundTrip.
Import Xcon Obs.

Lemma framer_one_frame (host : byteorder) (conn : nat) (payload : list byte) :
  payload <> [] -> len payload < 2 ^ 32 ->
  exists evs,
    framer host {| tcp := Some conn; tcp_state := ReadingSize;
                   tcp_buf := be32 (len payload) ++ payload; tcp_remaining := 0 |}
    = Some (Py.Ok (attached conn, evs)) /\
    tap_writes evs = [payload].
Proof.
  intros Hne Hlt.
  assert (Hpos : 0 < len payload).
  { unfold len. destruct payload; [congruence|cbn [length]; lia]. }
  destruct (ntohl_unpack_be32 host (len payload)) as (v & Hv & Hn); [lia|].
  unfold framer. cbn [tcp_buf]. cbn [framer_loop].
  unfold framer_pass at 1. cbn [tcp_state tcp_buf tcp].
  assert (Hlen : len (be32 (len payload) ++ payload) = 4 + len payload).
  { unfold len. rewrite length_app. cbn [be32 length]. lia. }
  assert (Hgt : (len (be32 (len payload) ++ payload) >? 4) = true) by lia.
  rewrite Hgt. cbn [negb].
  change (take 4 (be32 (len payload) ++ payload)) with (be32 (len payload)).
  rewrite Hv, Hn.
  change (drop 4 (be32 (len payload) ++ payload)) with payload.
  unfold packet_part. cbn [tcp_state tcp_buf tcp_remaining tcp].
  rewrite Z.ltb_irrefl.
  assert (Hnat : Z.to_nat (len payload) = length payload) by (unfold len; lia).
  rewrite Hnat, firstn_all, drop_all.
  cbn [framer_loop]. unfold framer_pass. cbn [tcp_state tcp_buf]. cbn [len length negb Z.gtb Z.compare Z.of_nat].
  eexists. split; [reflexivity|]. reflexivity.
Qed.

End RoundTrip.

(** X5.  The wire format in both directions.  A non-empty frame of at most
    2048 bytes read from the tap is sent as its length in four bytes, most
    significant first, followed by the frame; a Tcp2Tap with an empty buffer
    that receives those bytes in one read writes exactly the frame to its tap
    and is left with an empty buffer.  The two hosts may differ in byte
    order. *)
Theorem tap_frame_round_trip (sender receiver : Xcon.byteorder) (c1 c2 : nat)
    (payload : list byte) :
  payload <> [] -> Xcon.len payload <= 2048 ->
  exists buf evs,
    Xcon.work_pass sender (Obs.attached c1) (Xcon.ReadyTap payload)
    = Some (Py.Ok (Obs.attached c1, [Xcon.XTcpSend buf])) /\
    Xcon.work_pass receiver (Obs.attached c2) (Xcon.ReadyTcp (Some buf))
    = Some (Py.Ok (Obs.attached c2, evs)) /\
    Obs.tap_writes evs = [payload].
Proof.
  intros Hne Hlen.
  assert (Hr : 0 <= Xcon.len payload < 2 ^ 32).
  { change (2 ^ 32) with 4294967296. revert Hlen. unfold Xcon.len. lia. }
  destruct (framer_one_frame receiver c2 payload Hne (proj2 Hr)) as (evs & Hf & Hw).
  exists (Obs.be32 (Xcon.len payload) ++ payload). eexists. split; [|split].
  - unfold Xcon.work_pass. rewrite (pack_I_htonl sender _ Hr). reflexivity.
  - unfold Xcon.work_pass. cbn [Obs.attached Xcon.tcp Xcon.tcp_state Xcon.tcp_buf
      Xcon.tcp_remaining app]. rewrite Hf. reflexivity.
  - cbn [Obs.tap_writes]. exact Hw.
Qed.

Lemma tap_frame_round_trip_witness :
  [xde; xad] <> [] /\ Xcon.len [xde; xad] <= 2048 /\
  exists buf evs,
    Xcon.work_pass Xcon.LittleEndian (Obs.attached 0) (Xcon.ReadyTap [xde; xad])
    = Some (Py.Ok (Obs.attached 0, [Xcon.XTcpSend buf])) /\
    Xcon.work_pass Xcon.BigEndian (Obs.attached 1) (Xcon.ReadyTcp (Some buf))
    = Some (Py.Ok (Obs.attached 1, evs)) /\
    Obs.tap_writes evs = [[xde; xad]].
Proof.
  assert (H1 : [xde; xad] <> []) by discriminate.
  assert (H2 : Xcon.len [xde; xad] <= 2048) by (vm_compute; discriminate).
  split; [exact H1|]. split; [exact H2|].
  exact (tap_frame_round_trip Xcon.LittleEndian Xcon.BigEndian 0 1 [xde; xad] H1 H2).
Defined.

Section UuidRev.
Import Py Sros.

Lemma range_step2_SS (n : nat) :
  range_step2 (S (S n)) = 0%nat :: map (fun i => S (S i)) (range_step2 n).
Proof.
  unfold range_step2.
  change (Nat.div2 (S (S (S n)))) with (S (Nat.div2 (S n))).
  cbn [seq map]. f_equal. rewrite <- seq_shift, !map_map.
  apply map_ext. intros k. lia.
Qed.

Lemma rev_step_SS (a b : ascii) (s : string) (acc : result string) (i : nat) :
  rev_step (String a (String b s)) acc (S (S i)) = rev_step s acc i.
Proof. reflexivity. Qed.

Lemma fold_rev_step_SS (a b : ascii) (s : string) (idx : list nat) (acc : result string) :
  fold_left (rev_step (String a (String b s))) (map (fun i => S (S i)) idx) acc
  = fold_left (rev_step s) idx acc.
Proof.
  revert acc. induction idx as [|i idx IH]; intros acc; [reflexivity|].
  cbn [map fold_left]. rewrite rev_step_SS. apply IH.
Qed.

(** The loop on a string that starts with the pair [a b]: the rest is
    handled first and the pair is appended last. *)
Lemma uuid_rev_part_pair (a b : ascii) (s : string) :
  uuid_rev_part (String a (String b s))
  = bind (uuid_rev_part s) (fun r => Ok ((r +:+ String a "") +:+ String b "")).
Proof.
  unfold uuid_rev_part. cbn [String.length].
  rewrite range_step2_SS. cbn [rev].
  rewrite fold_left_app. cbn [fold_left].
  rewrite <- map_rev, fold_rev_step_SS. reflexivity.
Qed.

Lemma even_length_ind (P : string -> Prop) :
  P "" ->
  (forall a b s, Nat.Even (String.length s) -> P s -> P (String a (String b s))) ->
  forall s, Nat.Even (String.length s) -> P s.
Proof.
  intros H0 H2 s [n Hn]. revert s Hn.
  induction n as [|n IH]; intros s Hn.
  - destruct s; [exact H0|discriminate].
  - destruct s as [|a [|b s]]; cbn [String.length] in Hn; try lia.
    apply H2; [exists n; lia | apply IH; lia].
Qed.

Lemma uuid_rev_part_even (s : string) :
  Nat.Even (String.length s) -> uuid_rev_part s = Ok (rev_pairs s).
Proof.
  revert s. apply even_length_ind; [reflexivity|].
  intros a b s _ IH. rewrite uuid_rev_part_pair, IH. cbn [bind rev_pairs].
  rewrite append_assoc2. reflexivity.
Qed.

Lemma length_append (s t : string) :
  String.length (s +:+ t) = (String.length s + String.length t)%nat.
Proof.
  induction s as [|c s IH]; [reflexivity|].
  rewrite append_cons. cbn [String.length]. rewrite IH. reflexivity.
Qed.

Lemma rev_pairs_length (s : string) :
  Nat.Even (String.length s) -> String.length (rev_pairs s) = String.length s.
Proof.
  revert s. apply even_length_ind; [reflexivity|].
  intros a b s _ IH. cbn [rev_pairs]. rewrite length_append, IH. cbn [String.length]. lia.
Qed.

Lemma rev_pairs_snoc (s : string) (a b : ascii) :
  Nat.Even (String.length s) ->
  rev_pairs (s +:+ String a (String b "")) = String a (String b (rev_pairs s)).
Proof.
  revert s. apply even_length_ind; [reflexivity|].
  intros c d s _ IH. rewrite !append_cons. cbn [rev_pairs]. rewrite IH. reflexivity.
Qed.

Lemma rev_pairs_involutive (s : string) :
  Nat.Even (String.length s) -> rev_pairs (rev_pairs s) = s.
Proof.
  revert s. apply even_length_ind; [reflexivity|].
  intros a b s Hs IH. cbn [rev_pairs].
  rewrite rev_pairs_snoc, IH; [reflexivity|].
  rewrite rev_pairs_length; assumption.
Qed.

End UuidRev.

(** C9.  uuid_rev_part is an involution on strings of even length: it returns
    a string, and applied to that string it returns the original. *)
Theorem uuid_rev_part_involution (x : string) :
  Nat.Even (String.length x) ->
  exists y, Sros.uuid_rev_part x = Py.Ok y /\ Sros.uuid_rev_part y = Py.Ok x.
Proof.
  intros Hx. exists (rev_pairs x). split; [apply uuid_rev_part_even, Hx|].
  rewrite uuid_rev_part_even.
  - rewrite rev_pairs_involutive; [reflexivity|exact Hx].
  - rewrite rev_pairs_length; exact Hx.
Qed.

Lemma uuid_rev_part_involution_witness :
  Nat.Even (String.length "a1b2c3d4") /\
  exists y, Sros.uuid_rev_part "a1b2c3d4" = Py.Ok y /\ Sros.uuid_rev_part y = Py.Ok "a1b2c3d4".
Proof.
  assert (H : Nat.Even (String.length "a1b2c3d4")) by (exists 4%nat; reflexivity).
  split; [exact H | apply (uuid_rev_part_involution "a1b2c3d4" H)].
Defined.

Section BridgePeers.
Import Py Xcon Peers.
Variable py_int : string -> option Z.
Variable getaddrinfo : string -> string -> option (string * Z).
Variable connect_ok : nat -> string * Z -> bool.

Lemma try_connect_next (s : nat) (a : string * Z) (n : net) :
  next_sock (try_connect connect_ok s a n) = next_sock n.
Proof. unfold try_connect. destruct (connect_ok s a); reflexivity. Qed.

(** What a call that returns has done, whatever the two [connect]s did. *)
Lemma add_p2p_registers (b : TcpBridge) (n : net) (p2p : string) (b' : TcpBridge) (n' : net) :
  add_p2p py_int getaddrinfo connect_ok b n p2p = Py.Ok (b', n') ->
  exists source destination sr si dr di,
    split2 "--" p2p = Py.Ok (source, destination) /\
    split2 "/" source = Py.Ok (sr, si) /\
    split2 "/" destination = Py.Ok (dr, di) /\
    b' = {| sockets := (sockets b ++ [next_sock n]) ++ [S (next_sock n)];
            socket2remote := <[S (next_sock n) := next_sock n]>
                               (<[next_sock n := S (next_sock n)]> (socket2remote b));
            socket2hostintf := <[S (next_sock n) := dr +:+ "/" +:+ di]>
                                 (<[next_sock n := sr +:+ "/" +:+ si]> (socket2hostintf b)) |} /\
    next_sock n' = S (S (next_sock n)).
Proof.
  unfold add_p2p.
  destruct (split2 "--" p2p) as [[source destination]|]; [|discriminate].
  cbn [bind].
  destruct (split2 "/" source) as [[sr si]|] eqn:Es; [|discriminate].
  destruct (split2 "/" destination) as [[dr di]|] eqn:Ed; [|discriminate].
  cbn [bind].
  destruct (hostintf2addr py_int getaddrinfo source) as [src|]; [|discriminate].
  destruct (hostintf2addr py_int getaddrinfo destination) as [dst|]; [|discriminate].
  cbn [bind]. intros [= <- <-].
  exists source, destination, sr, si, dr, di.
  rewrite !try_connect_next. repeat split; assumption.
Qed.

Lemma add_p2p_call_keeps (st : TcpBridge * net) (p2p : string) :
  peers_ok st.1 -> allocated st.1 st.2 ->
  peers_ok (add_p2p_call py_int getaddrinfo connect_ok st p2p).1 /\
  allocated (add_p2p_call py_int getaddrinfo connect_ok st p2p).1
            (add_p2p_call py_int getaddrinfo connect_ok st p2p).2.
Proof.
  destruct st as [b n]. cbn [fst snd]. intros Hp Ha. unfold add_p2p_call. cbn [fst snd].
  destruct (add_p2p py_int getaddrinfo connect_ok b n p2p) as [[b' n']|] eqn:E; [|auto].
  apply add_p2p_registers in E as (source & destination & sr & si & dr & di & _ & _ & _ & -> & Hn).
  cbn [fst snd]. set (l := next_sock n) in *. split.
  - intros s Hs. cbn [sockets socket2remote socket2hostintf] in *.
    rewrite !elem_of_app, !list_elem_of_singleton in Hs.
    destruct Hs as [[Hs | ->] | ->].
    + pose proof (Ha s Hs) as Hlt. destruct (Hp s Hs) as (r & Hr & Hsr & Hrs & Hl).
      pose proof (Ha r Hr) as Hrlt. fold l in Hlt, Hrlt.
      exists r. rewrite !elem_of_app.
      split; [auto|].
      rewrite !lookup_insert_ne by lia. auto.
    + exists (S l). rewrite !elem_of_app, !list_elem_of_singleton.
      split; [auto|].
      rewrite lookup_insert_ne by lia. rewrite !lookup_insert_eq.
      split; [reflexivity|]. split; [reflexivity|].
      rewrite lookup_insert_ne by lia. rewrite lookup_insert_eq. eauto.
    + exists l. rewrite !elem_of_app, !list_elem_of_singleton.
      split; [auto|].
      rewrite lookup_insert_eq. rewrite lookup_insert_ne by lia. rewrite !lookup_insert_eq.
      split; [reflexivity|]. split; [reflexivity|]. eauto.
  - intros s Hs. cbn [sockets] in Hs. rewrite Hn.
    rewrite !elem_of_app, !list_elem_of_singleton in Hs.
    destruct Hs as [[Hs | ->] | ->]; [pose proof (Ha s Hs); fold l in H|..]; lia.
Qed.

Lemma add_p2p_calls_keep (p2ps : list string) :
  forall st, peers_ok st.1 -> allocated st.1 st.2 ->
    peers_ok (add_p2p_calls py_int getaddrinfo connect_ok st p2ps).1 /\
    allocated (add_p2p_calls py_int getaddrinfo connect_ok st p2ps).1
              (add_p2p_calls py_int getaddrinfo connect_ok st p2ps).2.
Proof.
  unfold add_p2p_calls.
  induction p2ps as [|p2p p2ps IH]; intros st Hp Ha; [auto|].
  cbn [fold_left].
  destruct (add_p2p_call_keeps st p2p Hp Ha) as [Hp' Ha']. apply IH; assumption.
Qed.

(** An edge that parses and resolves is registered, whatever its connects
    do. *)
Lemma add_p2p_resolves (b : TcpBridge) (n : net)
    (p2p source destination sr si dr di : string) :
  resolves py_int getaddrinfo p2p source destination sr si dr di ->
  exists n',
    add_p2p py_int getaddrinfo connect_ok b n p2p
    = Py.Ok ({| sockets := (sockets b ++ [next_sock n]) ++ [S (next_sock n)];
                socket2remote := <[S (next_sock n) := next_sock n]>
                                   (<[next_sock n := S (next_sock n)]> (socket2remote b));
                socket2hostintf := <[S (next_sock n) := dr +:+ "/" +:+ di]>
                                     (<[next_sock n := sr +:+ "/" +:+ si]>
                                        (socket2hostintf b)) |}, n') /\
    next_sock n' = S (S (next_sock n)).
Proof.
  intros (H1 & H2 & H3 & [src H4] & [dst H5]).
  unfold add_p2p. rewrite H1. cbn [bind]. rewrite H2, H3. cbn [bind].
  rewrite H4, H5. cbn [bind].
  eexists. split; [reflexivity|]. rewrite !try_connect_next. reflexivity.
Qed.

Lemma add_p2p_calls_all (p2ps : list string) :
  all_resolve py_int getaddrinfo p2ps ->
  forall st,
    sockets (add_p2p_calls py_int getaddrinfo connect_ok st p2ps).1
    = sockets st.1 ++ seq (next_sock st.2) (2 * length p2ps) /\
    next_sock (add_p2p_calls py_int getaddrinfo connect_ok st p2ps).2
    = (next_sock st.2 + 2 * length p2ps)%nat.
Proof.
  unfold add_p2p_calls, all_resolve.
  induction p2ps as [|p2p p2ps IH]; intros HF st.
  - cbn. rewrite app_nil_r. split; [reflexivity|lia].
  - apply Forall_cons in HF as [(so & de & sr & si & dr & di & Hr) HF].
    cbn [fold_left]. unfold add_p2p_call at 2 4.
    destruct (add_p2p_resolves st.1 st.2 p2p so de sr si dr di Hr) as (n' & -> & Hn).
    destruct (IH HF ({| sockets := (sockets st.1 ++ [next_sock st.2]) ++ [S (next_sock st.2)];
                        socket2remote := <[S (next_sock st.2) := next_sock st.2]>
                                           (<[next_sock st.2 := S (next_sock st.2)]>
                                              (socket2remote st.1));
                        socket2hostintf := <[S (next_sock st.2) := dr +:+ "/" +:+ di]>
                                             (<[next_sock st.2 := sr +:+ "/" +:+ si]>
                                                (socket2hostintf st.1)) |}, n'))
      as [IH1 IH2].
    rewrite IH1, IH2. cbn [fst snd sockets length]. rewrite Hn.
    split; [|lia].
    rewrite <- !app_assoc. f_equal.
    replace (2 * S (length p2ps))%nat with (S (S (2 * length p2ps))) by lia.
    reflexivity.
Qed.

End BridgePeers.

Section BridgeConnects.
Import Py Xcon Peers.
Variable py_int : string -> option Z.
Variable getaddrinfo : string -> string -> option (string * Z).

(** What a call registers does not depend on how the [connect]s went. *)
Lemma add_p2p_call_any_connect (c1 c2 : nat -> string * Z -> bool)
    (b : TcpBridge) (n1 n2 : net) (p2p : string) :
  next_sock n1 = next_sock n2 ->
  (add_p2p_call py_int getaddrinfo c1 (b, n1) p2p).1
  = (add_p2p_call py_int getaddrinfo c2 (b, n2) p2p).1 /\
  next_sock (add_p2p_call py_int getaddrinfo c1 (b, n1) p2p).2
  = next_sock (add_p2p_call py_int getaddrinfo c2 (b, n2) p2p).2.
Proof.
  intros Hn. unfold add_p2p_call, add_p2p. cbn [fst snd].
  destruct (split2 "--" p2p) as [[source destination]|]; [|auto].
  cbn [bind].
  destruct (split2 "/" source) as [[sr si]|]; [|auto].
  destruct (split2 "/" destination) as [[dr di]|]; [|auto].
  cbn [bind].
  destruct (hostintf2addr py_int getaddrinfo source) as [src|]; [|auto].
  destruct (hostintf2addr py_int getaddrinfo destination) as [dst|]; [|auto].
  cbn [bind fst snd]. rewrite !try_connect_next. cbn [next_sock].
  rewrite Hn. split; reflexivity.
Qed.

Lemma add_p2p_calls_any_connect (c1 c2 : nat -> string * Z -> bool) (p2ps : list string) :
  forall st1 st2, st1.1 = st2.1 -> next_sock st1.2 = next_sock st2.2 ->
    (add_p2p_calls py_int getaddrinfo c1 st1 p2ps).1
    = (add_p2p_calls py_int getaddrinfo c2 st2 p2ps).1.
Proof.
  unfold add_p2p_calls.
  induction p2ps as [|p2p p2ps IH]; intros [b1 n1] [b2 n2] Hb Hn; cbn [fst snd] in *; [exact Hb|].
  cbn [fold_left]. subst b2.
  destruct (add_p2p_call_any_connect c1 c2 b1 n1 n2 p2p Hn) as [H1 H2].
  apply IH; assumption.
Qed.

End BridgeConnects.

(** C10.  After any sequence of add_p2p calls on a new TcpBridge, every
    socket of self.sockets has a peer in socket2remote whose peer it is, and a
    label in socket2hostintf; what is registered is what would be registered
    if every connect had failed; a call that returns has appended two new
    sockets, made them each other's peer and labelled them with the source
    and destination router/interface; and a call for an edge that parses and
    resolves does return, whatever its two connects do, so that no such edge
    of a sequence is left out. *)
Theorem tcpbridge_peer_map (py_int : string -> option Z)
    (getaddrinfo : string -> string -> option (string * Z))
    (connect_ok : nat -> string * Z -> bool) (p2ps : list string) :
  let run := fun c =>
    Xcon.add_p2p_calls py_int getaddrinfo c (Xcon.TcpBridge_init, Peers.fresh_net) p2ps in
  Peers.peers_ok (run connect_ok).1 /\
  (run connect_ok).1 = (run (fun _ _ => false)).1 /\
  (forall b n p2p b' n',
     Xcon.add_p2p py_int getaddrinfo connect_ok b n p2p = Py.Ok (b', n') ->
     exists source destination sr si dr di,
       Xcon.split2 "--" p2p = Py.Ok (source, destination) /\
       Xcon.split2 "/" source = Py.Ok (sr, si) /\
       Xcon.split2 "/" destination = Py.Ok (dr, di) /\
       Xcon.sockets b' = Xcon.sockets b ++ [Xcon.next_sock n; S (Xcon.next_sock n)] /\
       Xcon.socket2remote b' !! Xcon.next_sock n = Some (S (Xcon.next_sock n)) /\
       Xcon.socket2remote b' !! S (Xcon.next_sock n) = Some (Xcon.next_sock n) /\
       Xcon.socket2hostintf b' !! Xcon.next_sock n = Some (sr +:+ "/" +:+ si) /\
       Xcon.socket2hostintf b' !! S (Xcon.next_sock n) = Some (dr +:+ "/" +:+ di)) /\
  (forall b n p2p source destination sr si dr di,
     Peers.resolves py_int getaddrinfo p2p source destination sr si dr di ->
     exists b' n',
       Xcon.add_p2p py_int getaddrinfo connect_ok b n p2p = Py.Ok (b', n') /\
       Xcon.add_p2p_call py_int getaddrinfo connect_ok (b, n) p2p = (b', n') /\
       Xcon.sockets b' = Xcon.sockets b ++ [Xcon.next_sock n; S (Xcon.next_sock n)] /\
       Xcon.socket2remote b' !! Xcon.next_sock n = Some (S (Xcon.next_sock n)) /\
       Xcon.socket2remote b' !! S (Xcon.next_sock n) = Some (Xcon.next_sock n) /\
       Xcon.socket2hostintf b' !! Xcon.next_sock n = Some (sr +:+ "/" +:+ si) /\
       Xcon.socket2hostintf b' !! S (Xcon.next_sock n) = Some (dr +:+ "/" +:+ di)) /\
  (Peers.all_resolve py_int getaddrinfo p2ps ->
   Xcon.sockets (run connect_ok).1 = seq 0 (2 * length p2ps)).
Proof.
  intros run. split; [|split; [|split; [|split]]].
  - apply (add_p2p_calls_keep py_int getaddrinfo connect_ok p2ps).
    + intros s Hs. cbn in Hs. apply elem_of_nil in Hs. destruct Hs.
    + intros s Hs. cbn in Hs. apply elem_of_nil in Hs. destruct Hs.
  - apply add_p2p_calls_any_connect; reflexivity.
  - intros b n p2p b' n' H.
    apply add_p2p_registers in H
      as (source & destination & sr & si & dr & di & H1 & H2 & H3 & -> & _).
    exists source, destination, sr, si, dr, di.
    cbn [Xcon.sockets Xcon.socket2remote Xcon.socket2hostintf].
    rewrite <- app_assoc. cbn [app].
    rewrite !lookup_insert_eq.
    rewrite !(lookup_insert_ne _ (S (Xcon.next_sock n)) (Xcon.next_sock n)) by lia.
    rewrite !lookup_insert_eq.
    repeat split; assumption.
  - intros b n p2p source destination sr si dr di Hr.
    destruct (add_p2p_resolves py_int getaddrinfo connect_ok b n p2p
                source destination sr si dr di Hr) as (n' & H & _).
    eexists _, n'. split; [exact H|]. split.
    + unfold Xcon.add_p2p_call. cbn [fst snd]. rewrite H. reflexivity.
    + cbn [Xcon.sockets Xcon.socket2remote Xcon.socket2hostintf].
      rewrite <- app_assoc. cbn [app].
      rewrite !lookup_insert_eq.
      rewrite !(lookup_insert_ne _ (S (Xcon.next_sock n)) (Xcon.next_sock n)) by lia.
      rewrite !lookup_insert_eq.
      repeat split.
  - intros Hall.
    destruct (add_p2p_calls_all py_int getaddrinfo connect_ok p2ps Hall
                (Xcon.TcpBridge_init, Peers.fresh_net)) as [H _].
    exact H.
Qed.

(** An edge of the demonstration run that parses and resolves, and the run
    of two such edges with every connect failing. *)
Example demo_edge_resolves :
  Peers.resolves demo_int demo_resolve "r1/1--r2/1" "r1/1" "r2/1" "r1" "1" "r2" "1" /\
  Peers.all_resolve demo_int demo_resolve ["r1/1--r2/1"; "r2/2--r3/1"] /\
  Xcon.sockets
    (Xcon.add_p2p_calls demo_int demo_resolve (fun _ _ => false)
       (Xcon.TcpBridge_init, Peers.fresh_net) ["r1/1--r2/1"; "r2/2--r3/1"]).1
  = [0; 1; 2; 3]%nat.
Proof.
  split; [|split].
  - repeat split; try reflexivity; eexists; reflexivity.
  - repeat (apply Forall_cons; split); [| |apply Forall_nil; exact I].
    + exists "r1/1", "r2/1", "r1", "1", "r2", "1".
      repeat split; try reflexivity; eexists; reflexivity.
    + exists "r2/2", "r3/1", "r2", "2", "r3", "1".
      repeat split; try reflexivity; eexists; reflexivity.
  - vm_compute. reflexivity.
Qed.

Section Supervision.
Import Vrnetlab Health.

Lemma all_upb_spec (flags : nat -> list bool) (n : nat) :
  all_upb (flags n) = true <-> all_up flags n.
Proof.
  unfold all_upb, all_up. rewrite forallb_forall.
  split; intros H r Hr; apply H; [apply list_elem_of_In|apply list_elem_of_In in Hr]; exact Hr.
Qed.

Lemma was_up_spec (flags : nat -> list bool) (n : nat) :
  was_up flags n = true <-> exists k, (k < n)%nat /\ all_up flags k.
Proof.
  unfold was_up. rewrite existsb_exists. split.
  - intros (k & Hk & Hu). apply in_seq in Hk. exists k. split; [lia|]. apply all_upb_spec, Hu.
  - intros (k & Hk & Hu). exists k. split; [apply in_seq; lia|]. apply all_upb_spec, Hu.
Qed.

Lemma was_up_S (flags : nat -> list bool) (n : nat) :
  was_up flags (S n) = was_up flags n || all_upb (flags n).
Proof.
  unfold was_up. rewrite seq_S, existsb_app. cbn [existsb Nat.add]. rewrite orb_false_r. reflexivity.
Qed.

(** The loop's [all_running] is true when every flag is. *)
Lemma all_running_fold (fl : list bool) (acc : bool) :
  fold_left (fun all r => if negb (Bool.eqb r true) then false else all) fl acc
  = acc && all_upb fl.
Proof.
  revert acc. induction fl as [|r fl IH]; intros acc; cbn [fold_left all_upb forallb].
  - rewrite andb_true_r. reflexivity.
  - rewrite IH. unfold all_upb. destruct r, acc; reflexivity.
Qed.

Lemma supervision_pass_writes (fl : list bool) (started : bool) (w : world) :
  supervision_pass fl started w =
  (started || all_upb fl,
   {| trace := trace w ++
        [EvHealth (if all_upb fl then "0 running"
                   else if started then "1 VM failed - restarting" else "1 starting")];
      gen := gen w |}).
Proof.
  unfold supervision_pass. rewrite all_running_fold. cbn [andb].
  destruct (all_upb fl); [rewrite orb_true_r; reflexivity|].
  rewrite orb_false_r. destruct started; reflexivity.
Qed.

Lemma healths_app (e1 e2 : list event) : healths (e1 ++ e2) = healths e1 ++ healths e2.
Proof.
  induction e1 as [|e e1 IH]; [reflexivity|].
  destruct e; cbn [app healths]; rewrite IH; reflexivity.
Qed.

Lemma supervise_S (flags : nat -> list bool) (n : nat) (w : world) :
  (supervise flags n w).1 = was_up flags n /\
  trace (supervise flags (S n) w).2
  = trace (supervise flags n w).2 ++ [EvHealth (expected flags n)].
Proof.
  induction n as [|n [IHs IHt]].
  - split; [reflexivity|]. cbn [supervise]. unfold mbind, ret.
    rewrite supervision_pass_writes. reflexivity.
  - assert (Hs : (supervise flags (S n) w).1 = was_up flags (S n)).
    { cbn [supervise]. unfold mbind.
      destruct (supervise flags n w) as [st w'] eqn:E. cbn [fst] in IHs. subst st.
      rewrite supervision_pass_writes. cbn [fst]. rewrite was_up_S. reflexivity. }
    split; [exact Hs|].
    change (supervise flags (S (S n)) w)
      with (mbind (supervise flags (S n)) (fun started => supervision_pass (flags (S n)) started) w).
    unfold mbind at 1.
    destruct (supervise flags (S n) w) as [st w'] eqn:E. cbn [fst snd] in *. subst st.
    rewrite supervision_pass_writes. reflexivity.
Qed.

Lemma health_log_S (flags : nat -> list bool) (n : nat) :
  health_log flags (S n) = health_log flags n ++ [expected flags n].
Proof.
  unfold health_log. rewrite (proj2 (supervise_S flags n quiet_world)), healths_app. reflexivity.
Qed.

Lemma health_log_length (flags : nat -> list bool) (n : nat) :
  length (health_log flags n) = n.
Proof.
  induction n as [|n IH]; [reflexivity|].
  rewrite health_log_S, length_app, IH. cbn. lia.
Qed.

Lemma health_at_expected (flags : nat -> list bool) (n : nat) :
  health_at flags n = Some (expected flags n).
Proof.
  unfold health_at. rewrite health_log_S.
  rewrite lookup_app_r by (rewrite health_log_length; lia).
  rewrite health_log_length, Nat.sub_diag. reflexivity.
Qed.

Lemma comes_up_first (flags : nat -> list bool) (n : nat) :
  comes_up flags n ->
  all_up flags (S n) /\ forall k, (k <= n)%nat -> ~ all_up flags k.
Proof.
  unfold comes_up. rewrite !health_at_expected. unfold expected. intros [H1 H2].
  destruct (all_upb (flags n)) eqn:En; [discriminate|].
  destruct (was_up flags n) eqn:Ew; [discriminate|].
  destruct (all_upb (flags (S n))) eqn:ES;
    [|destruct (was_up flags (S n)); discriminate].
  split; [apply all_upb_spec, ES|].
  intros k Hk Hu.
  destruct (Nat.eq_dec k n) as [->|Hne].
  - apply all_upb_spec in Hu. congruence.
  - assert (Hw : was_up flags n = true) by (apply was_up_spec; exists k; split; [lia|exact Hu]).
    congruence.
Qed.

End Supervision.

(** C6, as amended.  Pass n of the supervision loop writes "0 running" when
    every VM reports running on that pass, "1 starting" when not all do and no
    earlier pass had all running, and "1 VM failed - restarting" when not all
    do but an earlier pass had all running.  Consequently the file goes from
    "1 starting" to "0 running" at most once, only into the first pass in which
    all VMs are running, and it does so whenever that pass is not the loop's
    first one. *)
Theorem health_by_pass (flags : nat -> list bool) (n : nat) :
  (Health.all_up flags n -> Health.health_at flags n = Some "0 running") /\
  (~ Health.all_up flags n -> (forall k, (k < n)%nat -> ~ Health.all_up flags k) ->
     Health.health_at flags n = Some "1 starting") /\
  (~ Health.all_up flags n -> (exists k, (k < n)%nat /\ Health.all_up flags k) ->
     Health.health_at flags n = Some "1 VM failed - restarting") /\
  (forall m, Health.comes_up flags m ->
     Health.all_up flags (S m) /\ forall k, (k <= m)%nat -> ~ Health.all_up flags k) /\
  (forall m m', Health.comes_up flags m -> Health.comes_up flags m' -> m = m') /\
  (Health.all_up flags (S n) -> (forall k, (k <= n)%nat -> ~ Health.all_up flags k) ->
     Health.comes_up flags n).
Proof.
  assert (Hup : forall i, Health.all_up flags i -> Health.all_upb (flags i) = true)
    by (intros i; apply all_upb_spec).
  assert (Hdown : forall i, ~ Health.all_up flags i -> Health.all_upb (flags i) = false).
  { intros i H. destruct (Health.all_upb (flags i)) eqn:E; [|reflexivity].
    exfalso. apply H, all_upb_spec, E. }
  assert (Hnever : forall i, (forall k, (k < i)%nat -> ~ Health.all_up flags k) ->
                             Health.was_up flags i = false).
  { intros i H. destruct (Health.was_up flags i) eqn:E; [|reflexivity].
    apply was_up_spec in E as (k & Hk & Hu). exfalso. exact (H k Hk Hu). }
  split; [|split; [|split; [|split; [|split]]]].
  - intros H. rewrite health_at_expected. unfold Health.expected.
    rewrite (Hup n H). reflexivity.
  - intros H Hn. rewrite health_at_expected. unfold Health.expected.
    rewrite (Hdown n H), (Hnever n Hn). reflexivity.
  - intros H Hw. rewrite health_at_expected. unfold Health.expected.
    rewrite (Hdown n H). apply was_up_spec in Hw. rewrite Hw. reflexivity.
  - intros m Hm. exact (comes_up_first flags m Hm).
  - intros m m' Hm Hm'.
    apply comes_up_first in Hm as [Hu Hb]. apply comes_up_first in Hm' as [Hu' Hb'].
    destruct (Nat.lt_trichotomy m m') as [Hlt|[Heq|Hgt]]; [|exact Heq|].
    + exfalso. apply (Hb' (S m)); [lia|exact Hu].
    + exfalso. apply (Hb (S m')); [lia|exact Hu'].
  - intros Hu Hb. split; rewrite health_at_expected; unfold Health.expected.
    + rewrite (Hdown n) by (apply Hb; lia).
      rewrite Hnever by (intros k Hk; apply Hb; lia). reflexivity.
    + rewrite (Hup (S n) Hu). reflexivity.
Qed.

(** C6 as stated fails: when the one VM never reports running, the file never
    goes from "1 starting" to "0 running"; and when it reports running on the
    first pass already, "1 starting" is never written. *)
Lemma comes_up_not_always_once :
  (~ Health.comes_up_exactly_once (fun _ => [false])) /\
  (~ Health.comes_up_exactly_once (fun _ => [true])).
Proof.
  split.
  - intros (n & Hc & _). apply comes_up_first in Hc as [Hu _].
    specialize (Hu false). assert (H : false = true); [|discriminate H].
    apply Hu. apply list_elem_of_singleton. reflexivity.
  - intros (n & Hc & _). apply comes_up_first in Hc as [_ Hb].
    apply (Hb 0%nat); [lia|].
    intros r Hr. apply list_elem_of_singleton in Hr. exact Hr.
Qed.

Section Traces.
Import Py Vrnetlab Watchdog.

Lemma mbind_eq {A B} (m : M A) (k : A -> M B) (w : world) :
  mbind m k w = k (m w).1 (m w).2.
Proof. unfold mbind. destruct (m w). reflexivity. Qed.

Lemma silent_ret {A} (a : A) : silent (ret a).
Proof. intros w. reflexivity. Qed.

Lemma silent_draw (lo hi : Z) : silent (draw lo hi).
Proof. intros w. reflexivity. Qed.

Lemma silent_bind {A B} (m : M A) (k : A -> M B) :
  silent m -> (forall a, silent (k a)) -> silent (mbind m k).
Proof. intros Hm Hk w. rewrite mbind_eq, Hk, Hm. reflexivity. Qed.

Lemma silent_gen_mac (k : Z) : silent (gen_mac k).
Proof.
  unfold gen_mac. apply silent_bind; [apply silent_draw|]. intros a.
  apply silent_bind; [apply silent_draw|]. intros b. apply silent_ret.
Qed.

Lemma silent_append_nic (ty : string) (i : Z) (res : list string) :
  silent (append_nic ty i res).
Proof.
  unfold append_nic. apply silent_bind; [apply silent_gen_mac|]. intros mac. apply silent_ret.
Qed.

Lemma silent_for_each {A S} (xs : list A) (body : A -> S -> M S) :
  (forall x s, silent (body x s)) -> forall s, silent (for_each xs body s).
Proof.
  intros Hb. induction xs as [|x xs IH]; intros s; cbn [for_each].
  - apply silent_ret.
  - apply silent_bind; [apply Hb|]. intros s'. apply IH.
Qed.

Lemma silent_VM_gen_mgmt (v : VM) : silent (VM_gen_mgmt v).
Proof.
  unfold VM_gen_mgmt. apply silent_bind; [apply silent_gen_mac|]. intros mac. apply silent_ret.
Qed.

Lemma silent_VM_gen_nics (v : VM) : silent (VM_gen_nics v).
Proof. unfold VM_gen_nics. apply silent_for_each. intros i s. apply silent_append_nic. Qed.

Lemma silent_sros_gen_mgmt (o : Sros.SROS_vm) (v : VM) : silent (Sros.gen_mgmt o v).
Proof.
  unfold Sros.gen_mgmt. destruct (Sros.class o).
  - unfold Sros.SROS_integrated_gen_mgmt.
    apply silent_bind; [apply silent_VM_gen_mgmt|]. intros r.
    apply silent_bind; [apply silent_gen_mac|]. intros mac. apply silent_ret.
  - unfold Sros.SROS_cp_gen_mgmt.
    apply silent_bind; [apply silent_VM_gen_mgmt|]. intros r.
    apply silent_bind; [apply silent_gen_mac|]. intros mac. apply silent_ret.
  - unfold Sros.SROS_lc_gen_mgmt.
    apply silent_bind; [apply silent_gen_mac|]. intros mac.
    apply silent_bind; [apply silent_gen_mac|]. intros mac'. apply silent_ret.
Qed.

Lemma silent_sros_gen_nics (o : Sros.SROS_vm) (v : VM) : silent (Sros.gen_nics o v).
Proof.
  unfold Sros.gen_nics.
  destruct (Sros.class o); try apply silent_VM_gen_nics.
  unfold Sros.SROS_lc_gen_nics. apply silent_for_each. intros j s. apply silent_append_nic.
Qed.

(** [VM.start] spawns the emulator and opens the console at [5000 + num];
    the counters are left alone. *)
Lemma VM_start_trace (gm gn : VM -> M (list string)) (v : VM) (w : world) :
  silent (gm v) -> silent (gn v) ->
  exists args,
    trace (VM_start gm gn v w).2
    = trace w ++ [EvSpawn args; EvCommunicate 2; EvTelnetOpen (5000 + num v)] /\
    spins (VM_start gm gn v w).1 = spins v /\
    running (VM_start gm gn v w).1 = running v /\
    num (VM_start gm gn v w).1 = num v /\
    tn (VM_start gm gn v w).1 = Some (5000 + num v).
Proof.
  intros Hm Hn. unfold VM_start.
  rewrite mbind_eq. rewrite (mbind_eq (gn v)).
  set (w1 := (gm v w).2). set (w2 := (gn v w1).2).
  assert (Ht : trace w2 = trace w) by (unfold w2, w1; rewrite Hn, Hm; reflexivity).
  eexists. unfold mbind, emit, ret. cbn [fst snd trace gen set_qemu_args set_handles
    spins running num tn].
  rewrite Ht, <- !app_assoc. cbn [app]. repeat split.
Qed.

Lemma VM_stop_trace (sa : stop_answers) (v : VM) (w : world) :
  exists e1,
    trace (VM_stop sa v w).2 = trace w ++ EvTerminate :: e1 /\
    (forall args, EvSpawn args ∉ e1) /\
    (VM_stop sa v w).1 = set_running v false.
Proof.
  unfold VM_stop, mbind, emit, ret.
  destruct (terminate_lookup_error sa); [|destruct (communicate_timeout sa)];
    cbn [fst snd trace gen]; rewrite <- ?app_assoc; cbn [app]; eexists; (split; [reflexivity|]);
    (split; [|reflexivity]); intros args Hin;
    repeat (apply elem_of_cons in Hin as [Hin|Hin]; [discriminate Hin|]);
    apply elem_of_nil in Hin; exact Hin.
Qed.

Lemma sros_start_trace (o : Sros.SROS_vm) (w : world) :
  exists args e2,
    trace (Sros.start o w).2 = trace w ++ EvSpawn args :: e2 /\
    spins (Sros.vm (Sros.start o w).1) = spins (Sros.vm o) /\
    running (Sros.vm (Sros.start o w).1) = running (Sros.vm o) /\
    tn (Sros.vm (Sros.start o w).1) = Some (5000 + num (Sros.vm o)) /\
    Sros.class (Sros.start o w).1 = Sros.class o.
Proof.
  unfold Sros.start. rewrite mbind_eq.
  destruct (VM_start_trace (Sros.gen_mgmt o) (Sros.gen_nics o) (Sros.vm o) w
              (silent_sros_gen_mgmt o _) (silent_sros_gen_nics o _))
    as (args & Ht & Hs & Hr & Hnum & Htn).
  exists args.
  destruct (Sros.class o) eqn:Hc; unfold mbind, emit, ret;
    cbn [fst snd trace gen Sros.vm Sros.with_vm Sros.class];
    rewrite Ht, <- ?app_assoc; cbn [app]; eexists; repeat split; assumption.
Qed.

End Traces.

Section Spins.
Import Py Vrnetlab Watchdog.

Lemma sros_spin_restarts (bc : Sros.SROS_vm -> M unit) (sa : stop_answers)
    (ex : expect_result) (o : Sros.SROS_vm) (w : world) :
  60 < spins (Sros.vm o) ->
  kills_and_restarts (trace w) (trace (Sros.SROS_vm_bootstrap_spin bc sa ex o w).2) /\
  spins (Sros.vm (Sros.SROS_vm_bootstrap_spin bc sa ex o w).1) = 0 /\
  running (Sros.vm (Sros.SROS_vm_bootstrap_spin bc sa ex o w).1) = false /\
  tn (Sros.vm (Sros.SROS_vm_bootstrap_spin bc sa ex o w).1) = Some (5000 + num (Sros.vm o)).
Proof.
  intros Hs. unfold Sros.SROS_vm_bootstrap_spin.
  apply Z.gtb_lt in Hs. rewrite Hs.
  rewrite mbind_eq.
  destruct (VM_stop_trace sa (Sros.vm o) w) as (e1 & Ht1 & _ & Hv).
  rewrite Hv. set (w1 := (VM_stop sa (Sros.vm o) w).2) in *.
  rewrite mbind_eq.
  destruct (sros_start_trace (Sros.with_vm o (set_running (Sros.vm o) false)) w1)
    as (args & e2 & Ht2 & Hsp & Hr & Htn & _).
  unfold ret. cbn [fst snd Sros.vm Sros.with_vm spins running tn set_spins].
  split; [|split; [reflexivity|split; [exact Hr|exact Htn]]].
  exists e1, args, e2. rewrite Ht2, Ht1, <- app_assoc. reflexivity.
Qed.

Lemma sros_spin_has_process (bc : Sros.SROS_vm -> M unit) (sa : stop_answers)
    (ex : expect_result) (o : Sros.SROS_vm) (w : world) :
  60 < spins (Sros.vm o) ->
  p (Sros.vm (Sros.SROS_vm_bootstrap_spin bc sa ex o w).1) <> None.
Proof.
  intros Hs. unfold Sros.SROS_vm_bootstrap_spin.
  apply Z.gtb_lt in Hs. rewrite Hs. rewrite !mbind_eq. unfold ret. cbn [fst Sros.vm Sros.with_vm].
  unfold set_spins. cbn [p].
  match goal with |- p (Sros.vm (Sros.start ?x ?y).1) <> None =>
    unfold Sros.start; rewrite mbind_eq;
    assert (Hv : p (VM_start (Sros.gen_mgmt x) (Sros.gen_nics x) (Sros.vm x) y).1 <> None)
  end.
  { unfold VM_start. rewrite !mbind_eq. unfold emit, ret. cbn [fst p set_handles]. discriminate. }
  destruct (Sros.class _); unfold mbind, emit, ret; cbn [fst Sros.vm Sros.with_vm]; exact Hv.
Qed.

Lemma xrv_spin_gives_up (ex : expect_result) (x : Xrv.XRV) (w : world) :
  300 < Xrv.spins x -> Xrv.bootstrap_spin ex x w = ((true, false, x), w).
Proof.
  intros Hs. unfold Xrv.bootstrap_spin. apply Z.gtb_lt in Hs. rewrite Hs. reflexivity.
Qed.

End Spins.

(** C2, as amended.  When the bootstrap spin of an SR-OS VM that runs
    SROS_vm.bootstrap_spin (the integrated and the control-plane VM) and has
    been started (self.p is a process) finds the spin counter above 60, the
    VM is stopped and started again, the spin counter is reset to 0 and the
    spin returns with the VM not yet running, so that supervision continues.
    When the bootstrap spin of the IOS-XR launcher finds the counter above
    300 it gives up: it returns (True, False) and changes nothing, and the
    loop of start ends there. *)
Theorem watchdog_by_variant (bc : Sros.SROS_vm -> Vrnetlab.M unit)
    (sa : Vrnetlab.stop_answers) (ex : Vrnetlab.expect_result)
    (o : Sros.SROS_vm) (x : Xrv.XRV) (w : Vrnetlab.world)
    (rest : list Vrnetlab.expect_result) :
  (forall slot, Sros.class o <> Sros.LineCard slot) ->
  Vrnetlab.p (Sros.vm o) <> None ->
  60 < Vrnetlab.spins (Sros.vm o) ->
  300 < Xrv.spins x ->
  (Watchdog.kills_and_restarts (Vrnetlab.trace w)
     (Vrnetlab.trace (Sros.bootstrap_spin bc sa ex o w).2) /\
   Vrnetlab.spins (Sros.vm (Sros.bootstrap_spin bc sa ex o w).1) = 0 /\
   Vrnetlab.running (Sros.vm (Sros.bootstrap_spin bc sa ex o w).1) = false /\
   Vrnetlab.p (Sros.vm (Sros.bootstrap_spin bc sa ex o w).1) <> None /\
   Vrnetlab.tn (Sros.vm (Sros.bootstrap_spin bc sa ex o w).1)
     = Some (5000 + Vrnetlab.num (Sros.vm o))) /\
  Xrv.bootstrap_spin ex x w = ((true, false, x), w) /\
  Xrv.spin_until_done (ex :: rest) x w = (Some x, w).
Proof.
  intros Hc Hp Hs Hx. split; [|split].
  - assert (E : Sros.bootstrap_spin bc sa ex o w = Sros.SROS_vm_bootstrap_spin bc sa ex o w).
    { unfold Sros.bootstrap_spin. destruct (Sros.class o) eqn:Ec; try reflexivity.
      exfalso. exact (Hc slot eq_refl). }
    rewrite E.
    destruct (sros_spin_restarts bc sa ex o w Hs) as (H1 & H2 & H3 & H4).
    split; [exact H1|]. split; [exact H2|]. split; [exact H3|]. split; [|exact H4].
    apply sros_spin_has_process. exact Hs.
  - apply xrv_spin_gives_up. exact Hx.
  - cbn [Xrv.spin_until_done]. rewrite mbind_eq, xrv_spin_gives_up by exact Hx. reflexivity.
Qed.

Lemma watchdog_by_variant_witness :
  (forall slot, Sros.class started_stuck_sros <> Sros.LineCard slot) /\
  Vrnetlab.p (Sros.vm started_stuck_sros) <> None /\
  60 < Vrnetlab.spins (Sros.vm started_stuck_sros) /\
  300 < Xrv.spins stuck_xrv /\
  (Watchdog.kills_and_restarts (Vrnetlab.trace started_world)
     (Vrnetlab.trace (Sros.bootstrap_spin save_only exits_at_once silence
                        started_stuck_sros started_world).2) /\
   Vrnetlab.spins (Sros.vm (Sros.bootstrap_spin save_only exits_at_once silence
                              started_stuck_sros started_world).1) = 0 /\
   Vrnetlab.running (Sros.vm (Sros.bootstrap_spin save_only exits_at_once silence
                                started_stuck_sros started_world).1) = false /\
   Vrnetlab.p (Sros.vm (Sros.bootstrap_spin save_only exits_at_once silence
                          started_stuck_sros started_world).1) <> None /\
   Vrnetlab.tn (Sros.vm (Sros.bootstrap_spin save_only exits_at_once silence
                           started_stuck_sros started_world).1)
     = Some (5000 + Vrnetlab.num (Sros.vm started_stuck_sros))) /\
  Xrv.bootstrap_spin silence stuck_xrv started_world = ((true, false, stuck_xrv), started_world) /\
  Xrv.spin_until_done [silence] stuck_xrv started_world = (Some stuck_xrv, started_world).
Proof.
  assert (H1 : forall slot, Sros.class started_stuck_sros <> Sros.LineCard slot)
    by (intros slot; vm_compute; discriminate).
  assert (H0 : Vrnetlab.p (Sros.vm started_stuck_sros) <> None) by (vm_compute; discriminate).
  assert (H2 : 60 < Vrnetlab.spins (Sros.vm started_stuck_sros)) by (vm_compute; reflexivity).
  assert (H3 : 300 < Xrv.spins stuck_xrv) by reflexivity.
  split; [exact H1|]. split; [exact H0|]. split; [exact H2|]. split; [exact H3|].
  exact (watchdog_by_variant save_only exits_at_once silence started_stuck_sros stuck_xrv
           started_world [] H1 H0 H2 H3).
Defined.

(** C2 as stated fails for the IOS-XR launcher: with the counter at 301 the
    spin restarts nothing and leaves the counter at 301. *)
Lemma xrv_spin_does_not_restart :
  ~ Watchdog.xrv_restarts_as_stated silence stuck_xrv quiet_world.
Proof.
  intros H. destruct H as [_ Hs]; [reflexivity|].
  rewrite xrv_spin_gives_up in Hs by reflexivity. discriminate Hs.
Qed.

Section PortMap.
Import Py Vrnetlab Ports.

Lemma in_range (lo hi i : Z) : In i (range lo hi) -> lo <= i < hi.
Proof.
  unfold range. intros H. apply in_map_iff in H as (k & <- & Hk).
  apply in_seq in Hk. lia.
Qed.

Lemma nic_port_text (i : Z) : 0 <= i <= 99 -> "100" +:+ fmt_02d i = fmt_d (10000 + i).
Proof.
  intros Hi.
  apply String.eqb_eq.
  apply (forallb_range (fun i => String.eqb ("100" +:+ fmt_02d i) (fmt_d (10000 + i))) 0 100);
    [vm_compute; reflexivity | lia].
Qed.

Lemma serial_port_text (s : Z) : 0 <= s <= 99 -> "50" +:+ fmt_02d s = fmt_d (5000 + s).
Proof.
  intros Hs.
  apply String.eqb_eq.
  apply (forallb_range (fun s => String.eqb ("50" +:+ fmt_02d s) (fmt_d (5000 + s))) 0 100);
    [vm_compute; reflexivity | lia].
Qed.

Lemma append_nic_fst (ty : string) (i : Z) (res : list string) (w : world) :
  (append_nic ty i res w).1
  = res ++ nic_quad ty i (gen_mac i w).1 ("100" +:+ fmt_02d i).
Proof.
  unfold append_nic. rewrite mbind_eq. unfold ret. cbn [fst].
  unfold nic_quad. rewrite <- !app_assoc. reflexivity.
Qed.

(** The NIC loops: each pass appends the four arguments of its index. *)
Lemma for_each_nics (ty : string) (f : Z -> Z) (idxs : list Z) :
  forall acc w, exists qs,
    (for_each idxs (fun j res => append_nic ty (f j) res) acc w).1 = acc ++ concat qs /\
    Forall2 (fun i q => exists mac, q = nic_quad ty i mac ("100" +:+ fmt_02d i))
            (map f idxs) qs.
Proof.
  induction idxs as [|j idxs IH]; intros acc w.
  - exists []. split; [cbn; rewrite app_nil_r; reflexivity | constructor].
  - cbn [for_each map]. rewrite mbind_eq, append_nic_fst.
    destruct (IH (acc ++ nic_quad ty (f j) (gen_mac (f j) w).1 ("100" +:+ fmt_02d (f j)))
                 (append_nic ty (f j) acc w).2) as (qs & -> & HF).
    eexists (_ :: qs). split; [cbn [concat]; rewrite <- app_assoc; reflexivity|].
    constructor; [eexists; reflexivity | exact HF].
Qed.

Lemma nics_below_100 (ty : string) (idxs : list Z) (qs : list (list string)) :
  Forall (fun i => 0 <= i <= 99) idxs ->
  Forall2 (fun i q => exists mac, q = nic_quad ty i mac ("100" +:+ fmt_02d i)) idxs qs ->
  Forall2 (fun i q => exists mac, q = nic_quad ty i mac (fmt_d (10000 + i))) idxs qs.
Proof.
  intros Hb HF. induction HF as [|i q idxs qs [mac Hq] HF IH]; [constructor|].
  apply Forall_cons in Hb as [Hi Hb].
  constructor; [|apply IH, Hb].
  exists mac. rewrite <- nic_port_text by exact Hi. exact Hq.
Qed.

Lemma VM_gen_nics_ports (v : VM) (w : world) :
  num_nics v <= 100 ->
  nics_are (nic_type v) (range 1 (num_nics v)) (VM_gen_nics v w).1.
Proof.
  intros Hn. unfold VM_gen_nics.
  destruct (for_each_nics (nic_type v) (fun j => j) (range 1 (num_nics v)) [] w) as (qs & E & HF).
  rewrite map_id in HF. exists qs. split; [exact E|].
  apply nics_below_100; [|exact HF].
  apply Forall_forall. intros i Hi. apply list_elem_of_In, in_range in Hi. lia.
Qed.

Lemma SROS_lc_gen_nics_ports (slot : Z) (v : VM) (w : world) :
  1 <= slot <= 16 -> num_nics v = 6 ->
  nics_are (nic_type v) (range (6 * (slot - 1) + 1) (6 * slot + 1)) (Sros.SROS_lc_gen_nics slot v w).1.
Proof.
  intros Hs Hn. unfold Sros.SROS_lc_gen_nics. rewrite Hn.
  destruct (for_each_nics (nic_type v) (fun j => 6 * (slot - 1) + j + 1) (range 0 6) [] w)
    as (qs & E & HF).
  exists qs. split; [exact E|].
  assert (Hr : map (fun j => 6 * (slot - 1) + j + 1) (range 0 6)
               = range (6 * (slot - 1) + 1) (6 * slot + 1)).
  { unfold range. replace (6 * slot + 1 - (6 * (slot - 1) + 1)) with 6 by lia.
    change (Z.to_nat (6 - 0)) with (Z.to_nat 6).
    rewrite map_map. apply map_ext. intros k. lia. }
  rewrite Hr in HF.
  apply nics_below_100; [|exact HF].
  apply Forall_forall. intros i Hi. apply list_elem_of_In, in_range in Hi. lia.
Qed.

Lemma VM_init_serial (kvm : bool) (u pw d : option string) (s ram : Z) :
  0 <= s <= 99 -> serial_on (5000 + s) (qemu_args (VM_init kvm u pw d s ram)).
Proof.
  intros Hs. unfold serial_on. rewrite <- (serial_port_text s Hs).
  destruct kvm.
  - exists ["qemu-system-x86_64"; "-enable-kvm"; "-display"; "none"; "-m"; fmt_d ram],
           ["-drive"; "if=ide,file=" +:+ fmt_s d]. reflexivity.
  - exists ["qemu-system-x86_64"; "-display"; "none"; "-m"; fmt_d ram],
           ["-drive"; "if=ide,file=" +:+ fmt_s d]. reflexivity.
Qed.

End PortMap.

(** C3 at a failing input.  In the command line XRV.start_vm builds, the
    -device of the first traffic NIC refers to netdev p00, while the -netdev
    socket that follows it has the id p01 and listens on port 10001: the loop
    formats the device with i and the socket with i+1, unlike the two loops
    of gen_nics, which use one index for both.  No argument of the command
    line makes a socket with the id p00.  The claim has the socket carry the
    id its device refers to.  Besides, the serial console of a VM with number
    100 is put on "50100" by the format "50%02d", while start opens the
    console on port 5000 + 100. *)
Theorem xrv_socket_id_is_next :
  take 4 (drop 28 (Xrv.start_vm_cmd false (Xrv.XRV_init "vrnetlab" "VR-netlab9") quiet_world).1)
  = ["-device"; "e1000,netdev=p00,mac=52:54:00:00:00:00,bus=pci.1,addr=0x1";
     "-netdev"; "socket,id=p01,listen=:10001"] /\
  forallb (fun a => negb (Xnic.defines_p00 a))
    (Xrv.start_vm_cmd false (Xrv.XRV_init "vrnetlab" "VR-netlab9") quiet_world).1 = true /\
  Vrnetlab.qemu_args (lc_base 100) !! 6%nat = Some "telnet:0.0.0.0:50100,server,nowait" /\
  Vrnetlab.tn (Vrnetlab.VM_start Vrnetlab.VM_gen_mgmt Vrnetlab.VM_gen_nics (lc_base 100)
                 quiet_world).1 = Some 5100.
Proof. repeat split; vm_compute; reflexivity. Qed.

(** X19.  The port map of the two gen_nics loops.  A VM constructed with
    number s of 0..99 has its serial console on TCP port 5000 + s.  For a VM
    with at most 100 as num_nics, VM.gen_nics produces, for each index i of
    1..num_nics-1 in order, a -device that references netdev p<i> and a
    -netdev socket with that same id listening on TCP port 10000 + i.  For a
    line-card object in slot s of 1..16, SROS_lc.gen_nics produces exactly
    that for the indices 6*(s-1)+1 .. 6*s. *)
Theorem port_map (kvm : bool) (u pw d : option string) (ram s : Z)
    (v base : Vrnetlab.VM) (slot : Z) (newchassis : bool) (w : Vrnetlab.world) :
  0 <= s <= 99 ->
  Vrnetlab.num_nics v <= 100 ->
  1 <= slot <= 16 ->
  Ports.serial_on (5000 + s) (Vrnetlab.qemu_args (Vrnetlab.VM_init kvm u pw d s ram)) /\
  Ports.nics_are (Vrnetlab.nic_type v) (Py.range 1 (Vrnetlab.num_nics v))
    (Vrnetlab.VM_gen_nics v w).1 /\
  (let o := Sros.SROS_lc_body base slot newchassis in
   Ports.nics_are (Vrnetlab.nic_type base) (Py.range (6 * (slot - 1) + 1) (6 * slot + 1))
     (Sros.gen_nics o (Sros.vm o) w).1).
Proof.
  intros Hs Hn Hslot. split; [|split].
  - apply VM_init_serial, Hs.
  - apply VM_gen_nics_ports, Hn.
  - cbn zeta. unfold Sros.gen_nics. cbn [Sros.class Sros.SROS_lc_body Sros.vm].
    apply (SROS_lc_gen_nics_ports slot (Vrnetlab.set_nics base 6 _) w Hslot). reflexivity.
Qed.

Lemma port_map_witness :
  0 <= 2 <= 99 /\
  Vrnetlab.num_nics (Sros.vm stuck_sros) <= 100 /\
  1 <= 2 <= 16 /\
  Ports.serial_on (5000 + 2)
    (Vrnetlab.qemu_args (Vrnetlab.VM_init false None None (Some "/sros.qcow2") 2 6144)) /\
  Ports.nics_are (Vrnetlab.nic_type (Sros.vm stuck_sros))
    (Py.range 1 (Vrnetlab.num_nics (Sros.vm stuck_sros)))
    (Vrnetlab.VM_gen_nics (Sros.vm stuck_sros) quiet_world).1 /\
  (let o := Sros.SROS_lc_body (lc_base 2) 2 false in
   Ports.nics_are (Vrnetlab.nic_type (lc_base 2)) (Py.range (6 * (2 - 1) + 1) (6 * 2 + 1))
     (Sros.gen_nics o (Sros.vm o) quiet_world).1).
Proof.
  assert (H1 : 0 <= 2 <= 99) by lia.
  assert (H2 : Vrnetlab.num_nics (Sros.vm stuck_sros) <= 100) by (vm_compute; discriminate).
  assert (H3 : 1 <= 2 <= 16) by lia.
  split; [exact H1|]. split; [exact H2|]. split; [exact H3|].
  exact (port_map false None None (Some "/sros.qcow2") 6144 2
           (Sros.vm stuck_sros) (lc_base 2) 2 false quiet_world H1 H2 H3).
Defined.

(** Past two digits the format "100%02d" no longer spells 10000 + i: the
    fourth NIC of a line-card object in slot 17 has index 100, and its socket
    is told to listen on ":100100", not on 10100. *)
Lemma linecard_17_nic_100 : ~ Ports.linecard_ports_as_stated 17 (lc_base 17) quiet_world.
Proof.
  intros H. destruct (H 100) as (pre & mac & post & E); [lia|].
  assert (Hin : In "socket,id=p100,listen=:10100"
                   (Sros.gen_nics (Sros.SROS_lc_body (lc_base 17) 17 false)
                      (Sros.vm (Sros.SROS_lc_body (lc_base 17) 17 false)) quiet_world).1).
  { rewrite E. apply in_or_app. right. apply in_or_app. left.
    unfold Ports.nic_quad. right. right. right. left. vm_compute. reflexivity. }
  revert Hin. vm_compute. intuition discriminate.
Qed.

(** C1 at a failing input.  Started with --tap-listen 2, that is with
    listen_port 10002, the constructor binds the listener to port 10001. *)
Theorem tap_listen_2_binds_10001 :
  Built.binds (Xcon.main_tap_listen "tap0" 2).2 = [("::0", 10001)] /\
  10000 + 2 <> 10001.
Proof. split; [reflexivity | discriminate]. Qed.

Lemma tcp2tap_bind_ignores_listen_port (tap_intf : string) (listen_port : Z) :
  Built.binds (Xcon.Tcp2Tap_init tap_intf listen_port).2 = [("::0", 10001)].
Proof. reflexivity. Qed.

Section SrosConstructors.
Import Py Vrnetlab Built.

Lemma SROS_vm_init_cpus (kvm : bool) (lic : option Sros.license_file)
    (u pw : option string) (num ram : Z) :
  Sros.SROS_vm_init_with VM_init_params kvm lic u pw num ram
  = Raise (TypeError "__init__() got an unexpected keyword argument 'cpus'").
Proof. reflexivity. Qed.

(** With the repository's [VM.__init__] the constructor of [SROS] never
    gets to build a VM. *)
Lemma SROS_init_never_builds (kvm : bool) (lic : option Sros.license_file)
    (u pw : option string) (num_nics : Z) (newchassis : bool) :
  Sros.SROS_init kvm lic u pw num_nics newchassis
  = if (num_nics >? 5) && negb (bool_decide (is_Some lic))
    then Raise (SystemExit 1)
    else Raise (TypeError "__init__() got an unexpected keyword argument 'cpus'").
Proof.
  unfold Sros.SROS_init, Sros.SROS_init_with, Sros.SROS_cp_init, Sros.SROS_integrated_init.
  rewrite !SROS_vm_init_cpus.
  destruct (num_nics >? 5), lic; reflexivity.
Qed.

End SrosConstructors.

(** C7 at a failing input.  With the default of five NICs the constructor of
    SROS raises TypeError (VM.__init__ has no parameter cpus) where the claim
    has it build one integrated VM; so it does with 6 and with 13 NICs and a
    license, where the claim has it build a control plane and line cards. *)
Theorem sros_init_5_raises :
  Sros.SROS_init false None (Some "vrnetlab") (Some "VR-netlab9") 5 false
  = Py.Raise (Py.TypeError "__init__() got an unexpected keyword argument 'cpus'") /\
  (forall lic,
     Sros.SROS_init false (Some lic) (Some "vrnetlab") (Some "VR-netlab9") 6 false
     = Py.Raise (Py.TypeError "__init__() got an unexpected keyword argument 'cpus'")) /\
  (forall lic,
     Sros.SROS_init false (Some lic) (Some "vrnetlab") (Some "VR-netlab9") 13 false
     = Py.Raise (Py.TypeError "__init__() got an unexpected keyword argument 'cpus'")).
Proof. repeat split. Qed.

Section SrosSelection.
Import Py Vrnetlab Built.

Lemma SROS_vm_init_returns (params : list string) (kvm : bool)
    (lic : option Sros.license_file) (u pw : option string) (num ram : Z) :
  accepts_cpus params -> license_parses lic ->
  exists v, Sros.SROS_vm_init_with params kvm lic u pw num ram = Ok v.
Proof.
  intros Hp Hl. unfold Sros.SROS_vm_init_with. rewrite Hp. cbn [bind].
  unfold Sros.read_license. destruct lic as [l|]; [|eexists; reflexivity].
  destruct Hl as [m ->]. eexists; reflexivity.
Qed.

Lemma append_linecards_returns (params : list string) (kvm : bool)
    (lic : option Sros.license_file) (newchassis : bool) (slots : list Z) :
  accepts_cpus params -> license_parses lic ->
  forall vms, exists lcs,
    Sros.append_linecards params kvm lic slots newchassis vms = Ok (vms ++ lcs) /\
    map Sros.class lcs = map Sros.LineCard slots.
Proof.
  intros Hp Hl. induction slots as [|i slots IH]; intros vms.
  - exists []. rewrite app_nil_r. split; reflexivity.
  - cbn [Sros.append_linecards]. unfold Sros.SROS_lc_init.
    destruct (SROS_vm_init_returns params kvm lic None None i 6144 Hp Hl) as [v ->].
    cbn [bind].
    destruct (IH (vms ++ [Sros.SROS_lc_body v i newchassis])) as (lcs & -> & Hc).
    exists (Sros.SROS_lc_body v i newchassis :: lcs).
    rewrite <- app_assoc. split; [reflexivity|].
    cbn [map Sros.class Sros.SROS_lc_body]. rewrite Hc. reflexivity.
Qed.

Lemma ceil_div_6_bounds (n : Z) :
  6 * (Sros.ceil_div n 6 - 1) < n <= 6 * Sros.ceil_div n 6.
Proof.
  unfold Sros.ceil_div.
  assert (H6 : 6 <> 0) by lia. assert (H0 : 0 < 6) by lia.
  pose proof (Z.div_mod (- n) 6 H6) as Hd.
  pose proof (Z.mod_pos_bound (- n) 6 H0) as Hm. lia.
Qed.

End SrosSelection.

(** X1.  The constructor of SROS never returns.  Once the image and the
    license file are in place (the renames at its start are not part of this
    statement), with more than five NICs and no license file it ends the
    program with exit status 1, before any VM class is called.  For every other input it calls SROS_integrated or
    SROS_cp, whose SROS_vm.__init__ passes the keyword cpus to a base
    constructor that has no such parameter, and the TypeError goes through.
    (num_nics below 2^50: math.ceil(num_nics / 6) is then the exact
    ceiling.) *)
Theorem sros_constructor_outcome (kvm : bool) (lic : option Sros.license_file)
    (u pw : option string) (num_nics : Z) (newchassis : bool) :
  num_nics < 2 ^ 50 ->
  (5 < num_nics -> lic = None ->
     Sros.SROS_init kvm lic u pw num_nics newchassis = Py.Raise (Py.SystemExit 1)) /\
  (num_nics <= 5 \/ lic <> None ->
     exists msg,
       Sros.SROS_init kvm lic u pw num_nics newchassis = Py.Raise (Py.TypeError msg)) /\
  (forall vms, Sros.SROS_init kvm lic u pw num_nics newchassis <> Py.Ok vms).
Proof.
  intros _. rewrite SROS_init_never_builds. split; [|split].
  - intros Hn ->. assert (E : (num_nics >? 5) = true) by lia. rewrite E. reflexivity.
  - intros [Hn|Hl].
    + assert (E : (num_nics >? 5) = false) by lia. rewrite E. eexists. reflexivity.
    + destruct lic as [l|]; [|congruence].
      rewrite andb_false_r. eexists. reflexivity.
  - intros vms. destruct (_ && _); discriminate.
Qed.

Lemma sros_constructor_outcome_witness :
  13 < 2 ^ 50 /\
  (5 < 13 -> Some demo_license = None ->
     Sros.SROS_init false (Some demo_license) (Some "vrnetlab"%string)
       (Some "VR-netlab9"%string) 13 false = Py.Raise (Py.SystemExit 1)) /\
  (13 <= 5 \/ Some demo_license <> None ->
     exists msg,
       Sros.SROS_init false (Some demo_license) (Some "vrnetlab"%string)
         (Some "VR-netlab9"%string) 13 false = Py.Raise (Py.TypeError msg)) /\
  (forall vms, Sros.SROS_init false (Some demo_license) (Some "vrnetlab"%string)
                 (Some "VR-netlab9"%string) 13 false <> Py.Ok vms).
Proof.
  assert (H : 13 < 2 ^ 50) by (vm_compute; reflexivity).
  split; [exact H|].
  exact (sros_constructor_outcome false (Some demo_license) (Some "vrnetlab"%string)
           (Some "VR-netlab9"%string) 13 false H).
Defined.

Section FramerMoves.
Import Xcon Obs Frames.

Lemma tap_writes_app (e1 e2 : list xevent) :
  tap_writes (e1 ++ e2) = tap_writes e1 ++ tap_writes e2.
Proof.
  induction e1 as [|e e1 IH]; [reflexivity|].
  destruct e; cbn [app tap_writes]; rewrite IH; reflexivity.
Qed.

Lemma feed_nil (t : Tcp2Tap) : feed t [] = t.
Proof. destruct t. unfold feed. cbn. rewrite app_nil_r. reflexivity. Qed.

Lemma feed_feed (t : Tcp2Tap) (a b : list byte) : feed (feed t a) b = feed t (a ++ b).
Proof. unfold feed. cbn. rewrite app_assoc. reflexivity. Qed.

Lemma moves_app (host : byteorder) (t t1 t2 : Tcp2Tap) (w1 w2 : list (list byte)) :
  moves host t w1 t1 -> moves host t1 w2 t2 -> moves host t (w1 ++ w2) t2.
Proof.
  intros H1 H2. induction H1 as [t|t ta tb wa wb Hm _ IH]; [exact H2|].
  rewrite <- app_assoc. apply (moves_cons host t ta); [exact Hm|apply IH, H2].
Qed.

Lemma moves_one (host : byteorder) (t t' : Tcp2Tap) (w : list (list byte)) :
  move host t w t' -> moves host t w t'.
Proof.
  intros H. rewrite <- (app_nil_r w). apply (moves_cons host t t'); [exact H|constructor].
Qed.

(** Bytes that arrive later do not change a move that is possible now. *)
Lemma move_feed (host : byteorder) (t t' : Tcp2Tap) (w : list (list byte)) (c : list byte) :
  move host t w t' -> move host (feed t c) w (feed t' c).
Proof.
  intros H. destruct H as [t v Hs Hl Hu|t Hs Hl].
  - assert (H4 : (4 <= length (tcp_buf t))%nat) by (unfold len in Hl; lia).
    unfold feed at 2. cbn [tcp tcp_state tcp_buf tcp_remaining].
    rewrite <- (drop_app_le _ _ _ H4).
    apply (move_size host (feed t c) v); cbn [feed tcp_state tcp_buf].
    + exact Hs.
    + unfold len in *. rewrite length_app. lia.
    + rewrite (take_app_le _ _ _ H4). exact Hu.
  - assert (Hn : (Z.to_nat (tcp_remaining t) <= length (tcp_buf t))%nat)
      by (unfold len in Hl; lia).
    unfold feed at 2. cbn [tcp tcp_state tcp_buf tcp_remaining].
    rewrite <- (drop_app_le _ _ _ Hn), <- (take_app_le _ c _ Hn).
    apply (move_packet host (feed t c)); cbn [feed tcp_state tcp_buf tcp_remaining].
    + exact Hs.
    + unfold len in *. rewrite length_app. lia.
Qed.

Lemma moves_feed (host : byteorder) (t t' : Tcp2Tap) (w : list (list byte)) (c : list byte) :
  moves host t w t' -> moves host (feed t c) w (feed t' c).
Proof.
  intros H. induction H as [t|t ta tb wa wb Hm _ IH]; [constructor|].
  apply (moves_cons host _ (feed ta c)); [apply move_feed, Hm|exact IH].
Qed.

Lemma move_deterministic (host : byteorder) (t t1 t2 : Tcp2Tap) (w1 w2 : list (list byte)) :
  move host t w1 t1 -> move host t w2 t2 -> w1 = w2 /\ t1 = t2.
Proof.
  intros H1 H2.
  destruct H1 as [t v Hs Hl Hu|t Hs Hl]; inversion H2 as [t0 v0 Hs0 Hl0 Hu0|t0 Hs0 Hl0]; subst;
    try congruence.
  - rewrite Hu in Hu0. injection Hu0 as <-. split; reflexivity.
  - split; reflexivity.
Qed.

Lemma settled_no_move (host : byteorder) (t t' : Tcp2Tap) (w : list (list byte)) :
  settled t -> move host t w t' -> False.
Proof.
  unfold settled. intros Hs H. destruct H as [t v Hst Hl Hu|t Hst Hl]; rewrite Hst in Hs; lia.
Qed.

(** The settled state a buffer leads to, and what is written on the way, do
    not depend on the order in which the moves were found. *)
Lemma moves_settled_unique (host : byteorder) (t t1 t2 : Tcp2Tap) (w1 w2 : list (list byte)) :
  moves host t w1 t1 -> settled t1 -> moves host t w2 t2 -> settled t2 ->
  w1 = w2 /\ t1 = t2.
Proof.
  intros H1. revert w2 t2.
  induction H1 as [t|t ta tb wa wb Hm Hms IH]; intros w2 t2 Hs1 H2 Hs2.
  - destruct H2 as [t|t tc td wc wd Hm' _]; [split; reflexivity|].
    exfalso. exact (settled_no_move host t tc wc Hs1 Hm').
  - destruct H2 as [t|t tc td wc wd Hm' Hms'].
    + exfalso. exact (settled_no_move host t ta wa Hs2 Hm).
    + destruct (move_deterministic host t ta tc wa wc Hm Hm') as [-> ->].
      destruct (IH wd td Hs1 Hms' Hs2) as [-> ->]. split; reflexivity.
Qed.

Lemma packet_part_moves (host : byteorder) (t : Tcp2Tap) (evs : list xevent) :
  forall fl t' e, packet_part t evs = (fl, t', e) ->
    exists w, moves host t w t' /\ tap_writes e = tap_writes evs ++ w /\
      (fl = Break -> settled t').
Proof.
  intros fl t' e. unfold packet_part.
  destruct (tcp_state t) eqn:Hs.
  - intros [= <- <- <-]. exists []. rewrite app_nil_r.
    split; [constructor|]. split; [reflexivity|discriminate].
  - destruct (len (tcp_buf t) <? tcp_remaining t) eqn:Hlt.
    + intros [= <- <- <-]. exists []. rewrite tap_writes_app, app_nil_r. cbn [tap_writes].
      rewrite app_nil_r.
      split; [constructor|]. split; [reflexivity|].
      intros _. unfold settled. rewrite Hs. lia.
    + intros [= <- <- <-]. eexists. split; [apply moves_one, move_packet; [exact Hs|lia]|].
      rewrite !tap_writes_app. cbn [tap_writes]. rewrite <- app_assoc.
      split; [reflexivity|discriminate].
Qed.

Lemma framer_pass_moves (host : byteorder) (t : Tcp2Tap) :
  forall fl t' e, framer_pass host t = Py.Ok (fl, t', e) ->
    moves host t (tap_writes e) t' /\ (fl = Break -> settled t').
Proof.
  intros fl t' e. unfold framer_pass.
  destruct (tcp_state t) eqn:Hs.
  - destruct (len (tcp_buf t) >? 4) eqn:Hgt; cbn [negb].
    + apply Z.gtb_lt in Hgt.
      destruct (unpack_I host (take 4 (tcp_buf t))) as [v|] eqn:Hu; [|discriminate].
      intros [= Hp].
      apply (packet_part_moves host) in Hp as (w & Hm & Hw & Hb).
      cbn [tap_writes app] in Hw. rewrite Hw. split; [|exact Hb].
      change w with ([] ++ w).
      eapply moves_cons; [apply (move_size host t v); assumption|exact Hm].
    + intros [= <- <- <-]. split; [constructor|].
      intros _. unfold settled. rewrite Hs. lia.
  - intros [= Hp].
    apply (packet_part_moves host) in Hp as (w & Hm & Hw & Hb).
    cbn [tap_writes app] in Hw. rewrite Hw. split; assumption.
Qed.

(** With enough fuel the loop of the framer runs to its [break]: it has made
    the moves that were possible and is settled. *)
Lemma framer_loop_moves (host : byteorder) (fuel : nat) :
  forall t evs, (passes_left t < fuel)%nat ->
    exists t' e, framer_loop fuel host t evs = Some (Py.Ok (t', evs ++ e)) /\
      moves host t (tap_writes e) t' /\ settled t'.
Proof.
  induction fuel as [|fuel IH]; intros t evs Hm; [lia|].
  cbn [framer_loop].
  destruct (framer_pass_conserves host t) as (fl & t1 & e1 & Hp & _ & _ & Hd).
  rewrite Hp. apply framer_pass_moves in Hp as [Hmv Hb].
  destruct fl.
  - exists t1, e1. split; [reflexivity|]. split; [exact Hmv|apply Hb; reflexivity].
  - destruct (IH t1 (evs ++ e1)) as (t' & e & -> & Hmv' & Hs'); [specialize (Hd eq_refl); lia|].
    exists t', (e1 ++ e). rewrite <- app_assoc. split; [reflexivity|].
    rewrite tap_writes_app. split; [|exact Hs'].
    exact (moves_app host t t1 t' _ _ Hmv Hmv').
Qed.

Lemma framer_moves (host : byteorder) (t : Tcp2Tap) :
  exists t' e, framer host t = Some (Py.Ok (t', e)) /\
    moves host t (tap_writes e) t' /\ settled t'.
Proof.
  unfold framer.
  destruct (framer_loop_moves host (S (S (length (tcp_buf t)))) t []) as (t' & e & H & Hc);
    [unfold passes_left; destruct (tcp_state t); lia|].
  exists t', e. split; [exact H|exact Hc].
Qed.

(** A pass that reads from the TCP connection, in terms of moves. *)
Lemma work_pass_tcp_moves (host : byteorder) (t : Tcp2Tap) (buf : list byte) :
  exists t' evs, work_pass host t (ReadyTcp (Some buf)) = Some (Py.Ok (t', evs)) /\
    moves host (feed t buf) (tap_writes evs) t' /\ settled t'.
Proof.
  cbn [work_pass]. fold (feed t buf).
  destruct (framer_moves host (feed t buf)) as (t' & e & -> & Hm & Hs).
  exists t'. eexists. split; [reflexivity|]. cbn [tap_writes]. split; assumption.
Qed.

(** Reads in pieces: the moves made over all of them are moves of the
    buffer that holds every piece. *)
Lemma work_tcp_reads_moves (host : byteorder) (bufs : list (list byte)) :
  forall t, settled t ->
    exists t' evs, work host t (tcp_reads bufs) = Some (Py.Ok (t', evs)) /\
      moves host (feed t (concat bufs)) (tap_writes evs) t' /\ settled t'.
Proof.
  induction bufs as [|buf bufs IH]; intros t Hs.
  - exists t, []. cbn [concat]. rewrite feed_nil. split; [reflexivity|]. split; [constructor|exact Hs].
  - cbn [tcp_reads map work].
    destruct (work_pass_tcp_moves host t buf) as (t1 & e1 & -> & Hm1 & Hs1).
    destruct (IH t1 Hs1) as (t2 & e2 & H2 & Hm2 & Hs2). fold (tcp_reads bufs). rewrite H2.
    exists t2, (e1 ++ e2). split; [reflexivity|]. split; [|exact Hs2].
    rewrite tap_writes_app. cbn [concat]. rewrite <- feed_feed.
    apply (moves_app host _ (feed t1 (concat bufs))); [apply moves_feed, Hm1|exact Hm2].
Qed.

Lemma settled_attached (conn : nat) : settled (attached conn).
Proof. unfold settled, attached, len. cbn [tcp_state tcp_buf length]. lia. Qed.

Lemma unpack_I_range (host : byteorder) (b : list byte) (v : Z) :
  unpack_I host b = Some v -> 0 <= v < 2 ^ 32.
Proof.
  destruct b as [|b0 [|b1 [|b2 [|b3 [|? ?]]]]]; try discriminate.
  pose proof (byte_val_range b0). pose proof (byte_val_range b1).
  pose proof (byte_val_range b2). pose proof (byte_val_range b3).
  change (2 ^ 32) with 4294967296.
  destruct host; intros [= <-];
    change (2 ^ 8) with 256; change (2 ^ 16) with 65536; change (2 ^ 24) with 16777216; lia.
Qed.

Lemma ntohl_range (host : byteorder) (v : Z) :
  0 <= v < 2 ^ 32 -> 0 <= ntohl host v < 2 ^ 32.
Proof. intros Hv. destruct host; [apply swap32_range|exact Hv]. Qed.

Lemma move_sized (host : byteorder) (t t' : Tcp2Tap) (w : list (list byte)) :
  move host t w t' -> sized t'.
Proof.
  intros H. destruct H as [t v Hs Hl Hu|t Hs Hl]; unfold sized; cbn [tcp_state tcp_remaining].
  - apply ntohl_range, (unpack_I_range host _ _ Hu).
  - reflexivity.
Qed.

Lemma moves_sized (host : byteorder) (t t' : Tcp2Tap) (w : list (list byte)) :
  moves host t w t' -> sized t -> sized t'.
Proof.
  intros H. induction H as [t|t ta tb wa wb Hm _ IH]; [auto|].
  intros _. apply IH, (move_sized host t ta wa Hm).
Qed.

Lemma between_passes_iff (t : Tcp2Tap) : between_passes t <-> settled t /\ sized t.
Proof.
  unfold between_passes, settled, sized. pose proof (Zle_0_nat (length (tcp_buf t))) as Hl.
  unfold len. destruct (tcp_state t); lia.
Qed.

Lemma moves_tcp (host : byteorder) (t t' : Tcp2Tap) (w : list (list byte)) :
  moves host t w t' -> tcp t' = tcp t.
Proof.
  intros H. induction H as [t|t ta tb wa wb Hm _ IH]; [reflexivity|].
  rewrite IH. destruct Hm; reflexivity.
Qed.

(** A pass of [work] either returns, leaving the object as it should be
    between passes and with the connection it had or has accepted, or passes
    on what one of its calls raised. *)
Lemma work_pass_outcome (host : byteorder) (t : Tcp2Tap) (r : ready) :
  between_passes t -> tap_sized r ->
  (exists t' evs, work_pass host t r = Some (Py.Ok (t', evs)) /\ between_passes t' /\
                  (tcp t <> None -> tcp t' <> None)) \/
  (exists e, work_pass host t r = Some (Py.Raise e) /\ raises r = Some e).
Proof.
  intros Hb Hr.
  assert (Hfeed : forall buf, exists t' evs,
            framer host (feed t buf) = Some (Py.Ok (t', evs)) /\ between_passes t' /\
            tcp t' = tcp t).
  { intros buf. destruct (framer_moves host (feed t buf)) as (t' & e & Hf & Hm & Hs).
    exists t', e. split; [exact Hf|]. split.
    - apply between_passes_iff. split; [exact Hs|].
      apply (moves_sized host _ _ _ Hm). apply between_passes_iff in Hb as [_ Hz]. exact Hz.
    - apply (moves_tcp host _ _ _ Hm). }
  destruct r as [conn|[buf|]|payload|e|e|e|payload e|buf k e].
  - left. eexists _, _. split; [reflexivity|]. split; [exact Hb|]. intros _. discriminate.
  - left. cbn [work_pass]. fold (feed t buf).
    destruct (Hfeed buf) as (t' & evs & -> & Hb' & Ht).
    eexists _, _. split; [reflexivity|]. split; [exact Hb'|]. rewrite Ht. auto.
  - left. eexists _, _. split; [reflexivity|]. split; [exact Hb|]. auto.
  - left. cbn [work_pass]. cbn [tap_sized] in Hr.
    rewrite pack_I_htonl.
    + destruct (tcp t) eqn:Et; eexists _, _; (split; [reflexivity|]); (split; [exact Hb|]);
        intros H; rewrite ?Et; congruence.
    + change (2 ^ 32) with 4294967296. unfold len in *. lia.
  - right. exists e. split; reflexivity.
  - right. exists e. split; reflexivity.
  - right. exists e. split; reflexivity.
  - cbn [work_pass]. cbn [tap_sized] in Hr.
    rewrite pack_I_htonl.
    + destruct (tcp t) eqn:Et.
      * right. exists e. split; reflexivity.
      * left. eexists _, _. split; [reflexivity|]. split; [exact Hb|]. auto.
    + change (2 ^ 32) with 4294967296. unfold len in *. lia.
  - cbn [work_pass]. fold (feed t buf).
    destruct (Hfeed buf) as (t' & evs & -> & Hb' & Ht).
    destruct (k <? tap_write_count evs)%nat.
    + right. exists e. split; reflexivity.
    + left. eexists _, _. split; [reflexivity|]. split; [exact Hb'|]. rewrite Ht. auto.
Qed.

(** Every pass of [work] whose calls return returns, and leaves the object
    as it should be between passes. *)
Lemma work_pass_keeps (host : byteorder) (t : Tcp2Tap) (r : ready) :
  between_passes t -> tap_sized r -> calls_return r ->
  exists t' evs, work_pass host t r = Some (Py.Ok (t', evs)) /\ between_passes t' /\
                 (tcp t <> None -> tcp t' <> None).
Proof.
  intros Hb Hr Hc.
  destruct (work_pass_outcome host t r Hb Hr) as [H|(e & _ & He)]; [exact H|].
  unfold calls_return in Hc. congruence.
Qed.

Lemma work_keeps (host : byteorder) (rs : list ready) :
  forall t, between_passes t -> Forall tap_sized rs -> Forall calls_return rs ->
    exists t' evs, work host t rs = Some (Py.Ok (t', evs)) /\ between_passes t' /\
                   (tcp t <> None \/ (exists conn, In (ReadyListener conn) rs) ->
                    tcp t' <> None).
Proof.
  induction rs as [|r rs IH]; intros t Hb Hr Hc.
  - exists t, []. split; [reflexivity|]. split; [exact Hb|].
    intros [H|[conn []]]. exact H.
  - apply Forall_cons in Hr as [Hr Hrs]. apply Forall_cons in Hc as [Hc Hcs]. cbn [work].
    destruct (work_pass_keeps host t r Hb Hr Hc) as (t1 & e1 & E1 & Hb1 & Ht1).
    destruct (IH t1 Hb1 Hrs Hcs) as (t2 & e2 & E2 & Hb2 & Ht2).
    rewrite E1, E2. eexists _, _. split; [reflexivity|]. split; [exact Hb2|].
    intros [H|[conn [Heq|Hin]]].
    + apply Ht2. left. apply Ht1, H.
    + apply Ht2. left. subst r. cbn [work_pass] in E1. injection E1 as <- _. discriminate.
    + apply Ht2. right. exists conn. exact Hin.
Qed.

(** A run of [work] ends with a result, and with an exception only where a
    call raised one. *)
Lemma work_outcome (host : byteorder) (rs : list ready) :
  forall t, between_passes t -> Forall tap_sized rs ->
    (exists t' evs, work host t rs = Some (Py.Ok (t', evs)) /\ between_passes t') \/
    (exists e pre r post t1 evs,
       work host t rs = Some (Py.Raise e) /\ rs = pre ++ r :: post /\
       work host t pre = Some (Py.Ok (t1, evs)) /\
       work_pass host t1 r = Some (Py.Raise e) /\ raises r = Some e).
Proof.
  induction rs as [|r rs IH]; intros t Hb Hr.
  - left. exists t, []. split; [reflexivity|exact Hb].
  - apply Forall_cons in Hr as [Hr Hrs]. cbn [work].
    destruct (work_pass_outcome host t r Hb Hr) as [(t1 & e1 & E1 & Hb1 & _)|(e & E1 & He)].
    + rewrite E1.
      destruct (IH t1 Hb1 Hrs)
        as [(t2 & e2 & E2 & Hb2)|(e & pre & r' & post & t2 & e2 & E2 & -> & Hpre & Hp & He)].
      * left. rewrite E2. eexists _, _. split; [reflexivity|exact Hb2].
      * right. rewrite E2. exists e, (r :: pre), r', post, t2, (e1 ++ e2).
        split; [reflexivity|]. split; [reflexivity|].
        split; [cbn [work]; rewrite E1, Hpre; reflexivity|]. split; [exact Hp|exact He].
    + right. rewrite E1. exists e, [], r, rs, t, [].
      split; [reflexivity|]. split; [reflexivity|]. split; [reflexivity|].
      split; [exact E1|exact He].
Qed.

Lemma tap_write_count_writes (evs : list xevent) :
  tap_write_count evs = length (tap_writes evs).
Proof.
  induction evs as [|ev evs IH]; [reflexivity|].
  destruct ev; cbn [tap_write_count tap_writes length]; rewrite ?IH; reflexivity.
Qed.

(** A write that raises ends the pass that would have made it. *)
Lemma work_pass_write_raises (host : byteorder) (t t' : Tcp2Tap) (buf : list byte)
    (evs : list xevent) (k : nat) (e : Py.exn) :
  work_pass host t (ReadyTcp (Some buf)) = Some (Py.Ok (t', evs)) ->
  (k < length (tap_writes evs))%nat ->
  work_pass host t (TapWriteRaises buf k e) = Some (Py.Raise e).
Proof.
  cbn [work_pass]. destruct (framer host _) as [[[t1 e1]|x]|]; try discriminate.
  intros [= <- <-]. cbn [tap_writes]. rewrite <- tap_write_count_writes. intros Hk.
  apply Nat.ltb_lt in Hk. rewrite Hk. reflexivity.
Qed.

(** Up to the pass in which a call raises, the passes return; there [work]
    ends. *)
Lemma work_raises_at (host : byteorder) (pre : list ready) (r : ready) (post : list ready)
    (e : Py.exn) (t t1 : Tcp2Tap) (evs : list xevent) :
  work host t pre = Some (Py.Ok (t1, evs)) ->
  work_pass host t1 r = Some (Py.Raise e) ->
  work host t (pre ++ r :: post) = Some (Py.Raise e).
Proof.
  revert t evs. induction pre as [|r0 pre IH]; intros t evs Hpre Hr.
  - cbn in Hpre. injection Hpre as <- _. cbn [app work]. rewrite Hr. reflexivity.
  - cbn [app work] in *.
    destruct (work_pass host t r0) as [[[t0 e0]|x]|]; try discriminate.
    destruct (work host t0 pre) as [[[t2 e2]|x]|] eqn:E; try discriminate.
    injection Hpre as <- _. rewrite (IH t0 e2 E Hr). reflexivity.
Qed.

(** The frames of a stream, one after the other. *)
Lemma moves_frames (host : byteorder) (c : option nat) (frames : list (list byte)) :
  Forall (fun p => p <> [] /\ len p < 2 ^ 32) frames ->
  moves host {| tcp := c; tcp_state := ReadingSize;
                tcp_buf := concat (map wire frames); tcp_remaining := 0 |}
        frames
        {| tcp := c; tcp_state := ReadingSize; tcp_buf := []; tcp_remaining := 0 |}.
Proof.
  induction frames as [|p frames IH]; intros Hf; [constructor|].
  apply Forall_cons in Hf as [[Hne Hlt] Hf]. specialize (IH Hf).
  assert (Hpos : 0 < len p).
  { unfold len. destruct p; [congruence|cbn [length]; lia]. }
  destruct (ntohl_unpack_be32 host (len p)) as (v & Hv & Hn); [lia|].
  cbn [map concat]. set (rest := concat (map wire frames)) in *.
  change (p :: frames) with ([] ++ ([p] ++ frames)).
  eapply moves_cons.
  { apply (move_size host _ v); cbn [tcp_state tcp_buf].
    - reflexivity.
    - unfold wire, len. rewrite !length_app. cbn [be32 length]. unfold len in Hpos. lia.
    - unfold wire. rewrite <- app_assoc. exact Hv. }
  cbn [tcp tcp_buf]. rewrite Hn.
  assert (Hnat : Z.to_nat (len p) = length p) by (unfold len; lia).
  assert (Hd4 : drop 4 (wire p ++ rest) = p ++ rest).
  { unfold wire. rewrite <- app_assoc. reflexivity. }
  rewrite Hd4.
  pose proof (move_packet host
                {| tcp := c; tcp_state := ReadingPacket;
                   tcp_buf := p ++ rest; tcp_remaining := len p |}) as Hmp.
  cbn [tcp tcp_state tcp_buf tcp_remaining] in Hmp.
  rewrite Hnat, take_app_length, drop_app_length in Hmp.
  eapply moves_cons; [apply Hmp|exact IH].
  - reflexivity.
  - unfold len. rewrite length_app. lia.
Qed.

End FramerMoves.

Section FramerStreams.
Import Xcon Obs Frames.

(** What the reads of a fresh connection come to, from the moves of the
    whole stream. *)
Lemma work_reads_result (host : byteorder) (conn : nat) (bufs : list (list byte))
    (w : list (list byte)) (t : Tcp2Tap) :
  moves host (feed (attached conn) (concat bufs)) w t -> settled t ->
  exists evs, work host (attached conn) (tcp_reads bufs) = Some (Py.Ok (t, evs)) /\
    tap_writes evs = w.
Proof.
  intros Hm Hs.
  destruct (work_tcp_reads_moves host bufs (attached conn) (settled_attached conn))
    as (t' & evs & Hw & Hm' & Hs').
  destruct (moves_settled_unique host _ _ _ _ _ Hm' Hs' Hm Hs) as [Ew Et].
  exists evs. rewrite Hw, Et. split; [reflexivity|exact Ew].
Qed.

End FramerStreams.

(** X3.  How TCP cuts the stream into reads does not matter: a connection
    that delivers its bytes in any number of pieces leaves the Tcp2Tap in the
    state, and with the writes to the tap, of a single read that delivers
    them all at once. *)
Theorem tcp2tap_segmentation (host : Xcon.byteorder) (conn : nat) (bufs : list (list byte)) :
  exists t evs evs1,
    Xcon.work host (Obs.attached conn) (Obs.tcp_reads bufs) = Some (Py.Ok (t, evs)) /\
    Xcon.work_pass host (Obs.attached conn) (Xcon.ReadyTcp (Some (concat bufs)))
    = Some (Py.Ok (t, evs1)) /\
    Obs.tap_writes evs = Obs.tap_writes evs1.
Proof.
  destruct (work_pass_tcp_moves host (Obs.attached conn) (concat bufs))
    as (t & evs1 & H1 & Hm & Hs).
  destruct (work_reads_result host conn bufs _ t Hm Hs) as (evs & H & Hw).
  exists t, evs, evs1. split; [exact H|]. split; [exact H1|exact Hw].
Qed.

(** X4.  A frame read from the tap is sent to the TCP client as its length in
    four bytes, most significant first, followed by the frame, on a host of
    either byte order; with no client connected it is discarded.  The object
    is left as it was. *)
Theorem tap_frame_wire (host : Xcon.byteorder) (t : Xcon.Tcp2Tap) (payload : list byte) :
  Xcon.len payload < 2 ^ 32 ->
  Xcon.work_pass host t (Xcon.ReadyTap payload)
  = Some (Py.Ok (t, [match Xcon.tcp t with
                     | Some _ => Xcon.XTcpSend (Frames.wire payload)
                     | None => Xcon.XWarnDiscard
                     end])).
Proof.
  intros Hl. cbn [Xcon.work_pass]. rewrite pack_I_htonl.
  - destruct (Xcon.tcp t); reflexivity.
  - unfold Xcon.len in *. lia.
Qed.

Lemma tap_frame_wire_witness :
  Xcon.len [xde; xad; xbe] < 2 ^ 32 /\
  Xcon.work_pass Xcon.LittleEndian (Obs.attached 0) (Xcon.ReadyTap [xde; xad; xbe])
  = Some (Py.Ok (Obs.attached 0,
                 [match Xcon.tcp (Obs.attached 0) with
                  | Some _ => Xcon.XTcpSend (Frames.wire [xde; xad; xbe])
                  | None => Xcon.XWarnDiscard
                  end])).
Proof.
  assert (H : Xcon.len [xde; xad; xbe] < 2 ^ 32) by (vm_compute; reflexivity).
  split; [exact H|].
  exact (tap_frame_wire Xcon.LittleEndian (Obs.attached 0) [xde; xad; xbe] H).
Defined.

(** X6.  A stream of frames arrives whole.  When the bytes a connection
    delivers, in whatever pieces, are the wire form of a list of non-empty
    frames one after the other, exactly those frames are written to the tap,
    in order, and the Tcp2Tap is left with an empty buffer, awaiting a size. *)
Theorem tcp2tap_stream (host : Xcon.byteorder) (conn : nat)
    (frames bufs : list (list byte)) :
  Forall (fun p => p <> [] /\ Xcon.len p < 2 ^ 32) frames ->
  concat bufs = concat (map Frames.wire frames) ->
  exists evs,
    Xcon.work host (Obs.attached conn) (Obs.tcp_reads bufs)
    = Some (Py.Ok (Obs.attached conn, evs)) /\
    Obs.tap_writes evs = frames.
Proof.
  intros Hf Hc.
  apply (work_reads_result host conn bufs frames (Obs.attached conn)).
  - rewrite Hc. exact (moves_frames host (Some conn) frames Hf).
  - apply settled_attached.
Qed.

Lemma tcp2tap_stream_witness :
  Forall (fun p => p <> [] /\ Xcon.len p < 2 ^ 32) [[xde; xad]; [x01]] /\
  concat [[x00; x00; x00]; [x02; xde; xad; x00; x00]; [x00; x01; x01]]
  = concat (map Frames.wire [[xde; xad]; [x01]]) /\
  exists evs,
    Xcon.work Xcon.BigEndian (Obs.attached 0)
      (Obs.tcp_reads [[x00; x00; x00]; [x02; xde; xad; x00; x00]; [x00; x01; x01]])
    = Some (Py.Ok (Obs.attached 0, evs)) /\
    Obs.tap_writes evs = [[xde; xad]; [x01]].
Proof.
  assert (H1 : Forall (fun p => p <> [] /\ Xcon.len p < 2 ^ 32) [[xde; xad]; [x01]]).
  { repeat constructor; try discriminate. }
  assert (H2 : concat [[x00; x00; x00]; [x02; xde; xad; x00; x00]; [x00; x01; x01]]
               = concat (map Frames.wire [[xde; xad]; [x01]])) by (vm_compute; reflexivity).
  split; [exact H1|]. split; [exact H2|].
  exact (tcp2tap_stream Xcon.BigEndian 0 [[xde; xad]; [x01]] _ H1 H2).
Defined.

(** X7.  How work ends.  Its own steps never fail and its inner loop
    always ends: whatever select reports, in whatever order, a run of work
    comes to a result; while select, accept, os.read, send and os.write
    return (recv may raise: that is caught), every pass returns, and between
    passes at most four bytes are buffered while a size is awaited and fewer
    bytes than the announced size (which is below 2^32) while a packet is.
    The only exceptions work ends with are those its system calls raise,
    none of which it catches: one raised by select, accept or os.read ends it
    in that pass, and so does one raised by send once a client has been
    accepted (with no client the frame is discarded and send is not
    called), and one raised by an os.write that the pass comes to. *)
Theorem tcp2tap_work_total (host : Xcon.byteorder) (tap_intf : string) (listen_port : Z)
    (rs : list Xcon.ready) :
  Forall Frames.tap_sized rs ->
  let t0 := (Xcon.Tcp2Tap_init tap_intf listen_port).1 in
  (exists res, Xcon.work host t0 rs = Some res) /\
  (Forall Frames.calls_return rs ->
   exists t evs, Xcon.work host t0 rs = Some (Py.Ok (t, evs)) /\ Frames.between_passes t) /\
  (forall e, Xcon.work host t0 rs = Some (Py.Raise e) ->
     exists pre r post t1 evs,
       rs = pre ++ r :: post /\
       Xcon.work host t0 pre = Some (Py.Ok (t1, evs)) /\
       Frames.raises r = Some e) /\
  (forall pre r post e,
     rs = pre ++ r :: post -> Forall Frames.calls_return pre ->
     Frames.raises_at_once r e \/
     (exists payload conn, r = Xcon.TapSendRaises payload e /\
                           In (Xcon.ReadyListener conn) pre) ->
     Xcon.work host t0 rs = Some (Py.Raise e)) /\
  (forall t buf t' evs k e,
     Xcon.work_pass host t (Xcon.ReadyTcp (Some buf)) = Some (Py.Ok (t', evs)) ->
     (k < length (Obs.tap_writes evs))%nat ->
     Xcon.work_pass host t (Xcon.TapWriteRaises buf k e) = Some (Py.Raise e)).
Proof.
  intros Hr t0.
  assert (Hb : Frames.between_passes t0).
  { unfold Frames.between_passes, Xcon.len. cbn. lia. }
  split; [|split; [|split; [|split]]]; [| | | |intros t buf t' evs k e H1 H2; exact (work_pass_write_raises host t t' buf evs k e H1 H2)].
  - destruct (work_outcome host rs t0 Hb Hr)
      as [(t & evs & -> & _)|(e & pre & r & post & t1 & evs & -> & _)]; eexists; reflexivity.
  - intros Hc. destruct (work_keeps host rs t0 Hb Hr Hc) as (t & evs & H & Hb' & _).
    exists t, evs. split; assumption.
  - intros e He.
    destruct (work_outcome host rs t0 Hb Hr)
      as [(t & evs & H & _)|(e' & pre & r & post & t1 & evs & H & -> & Hpre & _ & Hx)].
    + rewrite H in He. discriminate He.
    + rewrite H in He. injection He as <-.
      exists pre, r, post, t1, evs. repeat split; assumption.
  - intros pre r post e -> Hc Hcase.
    apply Forall_app in Hr as [Hpre Hrest]. apply Forall_cons in Hrest as [Hr0 _].
    destruct (work_keeps host pre t0 Hb Hpre Hc) as (t1 & evs & H & Hb1 & Ht1).
    apply (work_raises_at host pre r post e t0 t1 evs H).
    destruct Hcase as [[-> | [-> | ->]]|(payload & conn & -> & Hin)]; try reflexivity.
    cbn [Xcon.work_pass]. cbn [Frames.tap_sized] in Hr0.
    rewrite pack_I_htonl by (change (2 ^ 32) with 4294967296; unfold Xcon.len in *; lia).
    destruct (Xcon.tcp t1) eqn:Et; [reflexivity|].
    exfalso. apply Ht1; [right; exists conn; exact Hin|reflexivity].
Qed.

Lemma tcp2tap_work_total_witness :
  let rs := [Xcon.ReadyTap [x01]; Xcon.ReadyListener 0; Xcon.ReadyTcp (Some [x00; x00]);
             Xcon.ReadyTcp None; Xcon.ReadyTcp (Some [x00; x09; xde; xad]);
             Xcon.TapSendRaises [x02] (Py.OSError "Broken pipe"); Xcon.ReadyTap [x03]] in
  Forall Frames.tap_sized rs /\
  let t0 := (Xcon.Tcp2Tap_init "tap0" 10001).1 in
  (exists res, Xcon.work Xcon.LittleEndian t0 rs = Some res) /\
  (Forall Frames.calls_return rs ->
   exists t evs, Xcon.work Xcon.LittleEndian t0 rs = Some (Py.Ok (t, evs)) /\
                 Frames.between_passes t) /\
  (forall e, Xcon.work Xcon.LittleEndian t0 rs = Some (Py.Raise e) ->
     exists pre r post t1 evs,
       rs = pre ++ r :: post /\
       Xcon.work Xcon.LittleEndian t0 pre = Some (Py.Ok (t1, evs)) /\
       Frames.raises r = Some e) /\
  (forall pre r post e,
     rs = pre ++ r :: post -> Forall Frames.calls_return pre ->
     Frames.raises_at_once r e \/
     (exists payload conn, r = Xcon.TapSendRaises payload e /\
                           In (Xcon.ReadyListener conn) pre) ->
     Xcon.work Xcon.LittleEndian t0 rs = Some (Py.Raise e)) /\
  (forall t buf t' evs k e,
     Xcon.work_pass Xcon.LittleEndian t (Xcon.ReadyTcp (Some buf)) = Some (Py.Ok (t', evs)) ->
     (k < length (Obs.tap_writes evs))%nat ->
     Xcon.work_pass Xcon.LittleEndian t (Xcon.TapWriteRaises buf k e) = Some (Py.Raise e)).
Proof.
  intros rs.
  assert (H : Forall Frames.tap_sized rs).
  { repeat constructor; vm_compute; discriminate. }
  split; [exact H|].
  exact (tcp2tap_work_total Xcon.LittleEndian "tap0" 10001 rs H).
Defined.

(** The run of the example above ends with the BrokenPipeError of its send:
    a client was accepted before. *)
Example tcp2tap_send_raises :
  Xcon.work Xcon.LittleEndian (Xcon.Tcp2Tap_init "tap0" 10001).1
    [Xcon.ReadyTap [x01]; Xcon.ReadyListener 0; Xcon.ReadyTcp (Some [x00; x00]);
     Xcon.ReadyTcp None; Xcon.ReadyTcp (Some [x00; x09; xde; xad]);
     Xcon.TapSendRaises [x02] (Py.OSError "Broken pipe"); Xcon.ReadyTap [x03]]
  = Some (Py.Raise (Py.OSError "Broken pipe")) /\
  Xcon.work Xcon.LittleEndian (Obs.attached 0)
    [Xcon.TapWriteRaises [x00; x00; x00; x01; xaa] 0 (Py.OSError "Invalid argument")]
  = Some (Py.Raise (Py.OSError "Invalid argument")) /\
  (exists t evs,
     Xcon.work Xcon.LittleEndian (Obs.attached 0)
       [Xcon.TapWriteRaises [x00; x00; x00; x01; xaa] 1 (Py.OSError "Invalid argument")]
     = Some (Py.Ok (t, evs)) /\ Obs.tap_writes evs = [[xaa]]).
Proof. split; [|split]; [vm_compute; reflexivity..|]. eexists _, _. split; vm_compute; reflexivity. Qed.

(** X8.  The size is read only once a fifth byte is buffered.  A read of
    exactly four bytes on a fresh connection leaves them in the buffer and
    takes no header; so the header of an empty frame stays buffered until
    bytes of the next frame arrive, and then the empty frame is written to the
    tap as an empty write before the next frame. *)
Theorem tcp2tap_empty_frame (host : Xcon.byteorder) (conn : nat)
    (b0 b1 b2 b3 : byte) (p : list byte) :
  p <> [] -> Xcon.len p < 2 ^ 32 ->
  (exists evs,
     Xcon.work_pass host (Obs.attached conn) (Xcon.ReadyTcp (Some [b0; b1; b2; b3]))
     = Some (Py.Ok (Frames.feed (Obs.attached conn) [b0; b1; b2; b3], evs)) /\
     Obs.tap_writes evs = [] /\ Obs.headers evs = 0) /\
  (exists evs,
     Xcon.work host (Obs.attached conn) (Obs.tcp_reads [Frames.wire []; Frames.wire p])
     = Some (Py.Ok (Obs.attached conn, evs)) /\
     Obs.tap_writes evs = [[]; p]).
Proof.
  intros Hne Hlt. split.
  - eexists. split; [reflexivity|]. split; reflexivity.
  - apply (work_reads_result host conn).
    + cbn [concat]. rewrite app_nil_r.
      destruct (ntohl_unpack_be32 host 0) as (v & Hv & Hn); [change (2 ^ 32) with 4294967296; lia|].
      change [[]; p] with ([] ++ ([[]] ++ [p])).
      eapply Frames.moves_cons.
      { apply (Frames.move_size host _ v); cbn.
        - reflexivity.
        - unfold Xcon.len. cbn [length]. lia.
        - exact Hv. }
      rewrite Hn.
      eapply Frames.moves_cons.
      { apply Frames.move_packet; cbn.
        - reflexivity.
        - unfold Xcon.len. cbn [length]. lia. }
      cbn [Xcon.tcp Xcon.tcp_buf Xcon.tcp_remaining Frames.feed Obs.attached].
      pose proof (moves_frames host (Some conn) [p]) as Hm.
      cbn [map concat] in Hm. rewrite app_nil_r in Hm.
      apply Hm. repeat constructor; assumption.
    + apply settled_attached.
Qed.

Lemma tcp2tap_empty_frame_witness :
  [xde] <> [] /\ Xcon.len [xde] < 2 ^ 32 /\
  (exists evs,
     Xcon.work_pass Xcon.LittleEndian (Obs.attached 0) (Xcon.ReadyTcp (Some [x00; x00; x00; x07]))
     = Some (Py.Ok (Frames.feed (Obs.attached 0) [x00; x00; x00; x07], evs)) /\
     Obs.tap_writes evs = [] /\ Obs.headers evs = 0) /\
  (exists evs,
     Xcon.work Xcon.LittleEndian (Obs.attached 0)
       (Obs.tcp_reads [Frames.wire []; Frames.wire [xde]])
     = Some (Py.Ok (Obs.attached 0, evs)) /\
     Obs.tap_writes evs = [[]; [xde]]).
Proof.
  assert (H1 : [xde] <> []) by discriminate.
  assert (H2 : Xcon.len [xde] < 2 ^ 32) by (vm_compute; reflexivity).
  split; [exact H1|]. split; [exact H2|].
  exact (tcp2tap_empty_frame Xcon.LittleEndian 0 x00 x00 x00 x07 [xde] H1 H2).
Defined.

Section SplitJoin.
Import Py.

Lemma string_app_nil_r (s : string) : s +:+ "" = s.
Proof. induction s as [|c s IH]; [reflexivity|]. rewrite append_cons, IH. reflexivity. Qed.

Lemma string_app_assoc (a b c : string) : (a +:+ b) +:+ c = a +:+ (b +:+ c).
Proof. induction a as [|x a IH]; [reflexivity|]. rewrite !append_cons, IH. reflexivity. Qed.

Lemma prefix_split (p s : string) : String.prefix p s = true -> exists t, s = p +:+ t.
Proof.
  revert s. induction p as [|c p IH]; intros s H; [exists s; reflexivity|].
  destruct s as [|d s]; [discriminate H|].
  cbn [String.prefix] in H. destruct (ascii_dec c d) as [<-|]; [|discriminate H].
  destruct (IH s H) as [t ->]. exists t. reflexivity.
Qed.

(** The characters of a separator that has been recognised are passed over. *)
Lemma split_go_skip (sep x s cur : string) :
  split_go sep (x +:+ s) (String.length x) cur = split_go sep s 0 cur.
Proof.
  induction x as [|c x IH]; [reflexivity|].
  rewrite append_cons. cbn [String.length split_go]. exact IH.
Qed.

Lemma split_go_cons (sep s : string) :
  forall k cur, exists y l, split_go sep s k cur = y :: l.
Proof.
  induction s as [|c s IH]; intros k cur; [eexists _, _; reflexivity|].
  cbn [split_go]. destruct k as [|k]; [|apply IH].
  destruct (String.prefix sep (String c s)); [eexists _, _; reflexivity|apply IH].
Qed.

(** Joining what [split] returns gives the string back. *)
Lemma concat_split_go (sep : string) (n : nat) :
  sep <> "" ->
  forall s cur, (String.length s <= n)%nat ->
    String.concat sep (split_go sep s 0 cur) = cur +:+ s.
Proof.
  intros Hsep. induction n as [|n IH]; intros s cur Hn.
  - destruct s; [|cbn [String.length] in Hn; lia]. cbn. rewrite string_app_nil_r. reflexivity.
  - destruct s as [|c s]; [cbn; rewrite string_app_nil_r; reflexivity|].
    cbn [String.length] in Hn. cbn [split_go].
    destruct (String.prefix sep (String c s)) eqn:Hp.
    + apply prefix_split in Hp as [t Ht].
      destruct sep as [|d sep']; [congruence|].
      rewrite append_cons in Ht. injection Ht as <- ->.
      replace (String.length (String c sep') - 1)%nat with (String.length sep')
        by (cbn [String.length]; lia).
      rewrite split_go_skip.
      assert (Hl : (String.length t <= n)%nat).
      { rewrite length_append in Hn. lia. }
      destruct (split_go_cons (String c sep') t 0 "") as (y & l & E).
      pose proof (IH t "" Hl) as Hc. rewrite E in *.
      cbn [String.concat]. cbn [String.concat] in Hc. rewrite Hc.
      rewrite append_nil_l. reflexivity.
    + rewrite IH by lia. rewrite string_app_assoc. reflexivity.
Qed.

Lemma concat_split (sep s : string) :
  sep <> "" -> String.concat sep (split sep s) = s.
Proof.
  intros Hsep. unfold split.
  rewrite (concat_split_go sep (String.length s) Hsep s "" (Nat.le_refl _)). reflexivity.
Qed.

End SplitJoin.

Section BridgeLinks.
Import Py Xcon Peers Forward.
Variable py_int : string -> option Z.
Variable getaddrinfo : string -> string -> option (string * Z).
Variable connect_ok : nat -> string * Z -> bool.

Lemma split2_join (sep s a b : string) :
  sep <> "" -> split2 sep s = Ok (a, b) -> a +:+ sep +:+ b = s.
Proof.
  intros Hsep H. unfold split2 in H. pose proof (concat_split sep s Hsep) as Hc.
  destruct (split sep s) as [|x [|y [|? ?]]]; try discriminate H.
  injection H as <- <-. exact Hc.
Qed.

(** A call that returns, with the addresses it resolved. *)
Lemma add_p2p_resolved (b : TcpBridge) (n : net) (p2p : string) (b' : TcpBridge) (n' : net) :
  add_p2p py_int getaddrinfo connect_ok b n p2p = Ok (b', n') ->
  exists source destination src dst,
    p2p = source +:+ "--" +:+ destination /\
    hostintf2addr py_int getaddrinfo source = Ok src /\
    hostintf2addr py_int getaddrinfo destination = Ok dst /\
    b' = {| sockets := (sockets b ++ [next_sock n]) ++ [S (next_sock n)];
            socket2remote := <[S (next_sock n) := next_sock n]>
                               (<[next_sock n := S (next_sock n)]> (socket2remote b));
            socket2hostintf := <[S (next_sock n) := destination]>
                                 (<[next_sock n := source]> (socket2hostintf b)) |} /\
    next_sock n' = S (S (next_sock n)).
Proof.
  unfold add_p2p.
  destruct (split2 "--" p2p) as [[source destination]|] eqn:Ep; [|discriminate].
  cbn [bind].
  destruct (split2 "/" source) as [[sr si]|] eqn:Es; [|discriminate].
  destruct (split2 "/" destination) as [[dr di]|] eqn:Ed; [|discriminate].
  cbn [bind].
  destruct (hostintf2addr py_int getaddrinfo source) as [src|] eqn:Hs; [|discriminate].
  destruct (hostintf2addr py_int getaddrinfo destination) as [dst|] eqn:Hd; [|discriminate].
  cbn [bind]. intros [= <- <-].
  exists source, destination, src, dst.
  rewrite !try_connect_next.
  rewrite (split2_join "/" source sr si) by (discriminate || assumption).
  rewrite (split2_join "/" destination dr di) by (discriminate || assumption).
  rewrite (split2_join "--" p2p source destination) by (discriminate || assumption).
  repeat split; assumption.
Qed.

(** What the links of a run of [__main__] leave in the bridge: link [j] has
    the sockets [base + 2j] and [base + 2j + 1]. *)
Lemma main_add_p2ps_links (p2ps : list string) :
  forall b n b' n',
    main_add_p2ps py_int getaddrinfo connect_ok b n p2ps = Ok (b', n') ->
    next_sock n' = (next_sock n + 2 * length p2ps)%nat /\
    sockets b' = sockets b ++ seq (next_sock n) (2 * length p2ps) /\
    (forall k, (k < next_sock n)%nat ->
       socket2remote b' !! k = socket2remote b !! k /\
       socket2hostintf b' !! k = socket2hostintf b !! k) /\
    (forall j p2p, p2ps !! j = Some p2p ->
       exists source destination src dst,
         p2p = source +:+ "--" +:+ destination /\
         hostintf2addr py_int getaddrinfo source = Ok src /\
         hostintf2addr py_int getaddrinfo destination = Ok dst /\
         socket2remote b' !! (next_sock n + 2 * j)%nat = Some (next_sock n + 2 * j + 1)%nat /\
         socket2remote b' !! (next_sock n + 2 * j + 1)%nat = Some (next_sock n + 2 * j)%nat /\
         socket2hostintf b' !! (next_sock n + 2 * j)%nat = Some source /\
         socket2hostintf b' !! (next_sock n + 2 * j + 1)%nat = Some destination).
Proof.
  induction p2ps as [|p2p p2ps IH]; intros b n b' n' H.
  - cbn [main_add_p2ps] in H. injection H as <- <-. cbn [length].
    rewrite Nat.mul_0_r, Nat.add_0_r. cbn [seq]. rewrite app_nil_r.
    split; [reflexivity|]. split; [reflexivity|]. split; [auto|].
    intros j q Hj. rewrite lookup_nil in Hj. discriminate Hj.
  - cbn [main_add_p2ps] in H.
    destruct (add_p2p py_int getaddrinfo connect_ok b n p2p) as [[b1 n1]|e] eqn:E;
      [|destruct e; discriminate H].
    apply add_p2p_resolved in E
      as (source & destination & src & dst & Hp & Hsrc & Hdst & Hb1 & Hn1).
    destruct (IH b1 n1 b' n' H) as (Hn & Hs & Hold & Hnew).
    set (l := next_sock n) in *.
    assert (Hl0 : socket2remote b' !! l = Some (S l) /\ socket2hostintf b' !! l = Some source).
    { destruct (Hold l) as [-> ->]; [lia|]. rewrite Hb1. cbn [socket2remote socket2hostintf].
      split; (rewrite lookup_insert_ne by lia); rewrite lookup_insert_eq; reflexivity. }
    assert (Hl1 : socket2remote b' !! (S l) = Some l /\
                  socket2hostintf b' !! (S l) = Some destination).
    { destruct (Hold (S l)) as [-> ->]; [lia|]. rewrite Hb1. cbn [socket2remote socket2hostintf].
      split; rewrite lookup_insert_eq; reflexivity. }
    split; [cbn [length]; lia|]. split; [|split].
    + rewrite Hs, Hb1, Hn1. cbn [sockets length].
      replace (2 * S (length p2ps))%nat with (S (S (2 * length p2ps))) by lia.
      cbn [seq]. rewrite <- !app_assoc. reflexivity.
    + intros k Hk. destruct (Hold k) as [-> ->]; [lia|]. rewrite Hb1.
      cbn [socket2remote socket2hostintf].
      split; (rewrite !lookup_insert_ne by lia); reflexivity.
    + intros j q Hj. destruct j as [|j].
      * cbn in Hj. injection Hj as <-.
        exists source, destination, src, dst.
        replace (l + 2 * 0 + 1)%nat with (S l) by lia.
        replace (l + 2 * 0)%nat with l by lia.
        destruct Hl0, Hl1. repeat split; assumption.
      * cbn in Hj. destruct (Hnew j q Hj) as (so & de & sr & ds & H1 & H2 & H3 & H4 & H5 & H6 & H7).
        exists so, de, sr, ds.
        replace (l + 2 * S j + 1)%nat with (next_sock n1 + 2 * j + 1)%nat by lia.
        replace (l + 2 * S j)%nat with (next_sock n1 + 2 * j)%nat by lia.
        repeat split; assumption.
Qed.

Lemma main_add_p2ps_calls (p2ps : list string) :
  forall b n st,
    main_add_p2ps py_int getaddrinfo connect_ok b n p2ps = Ok st ->
    add_p2p_calls py_int getaddrinfo connect_ok (b, n) p2ps = st.
Proof.
  unfold add_p2p_calls.
  induction p2ps as [|p2p p2ps IH]; intros b n st H.
  - cbn in H. injection H as <-. reflexivity.
  - cbn [main_add_p2ps] in H. cbn [fold_left]. unfold add_p2p_call at 2. cbn [fst snd].
    destruct (add_p2p py_int getaddrinfo connect_ok b n p2p) as [[b1 n1]|e];
      [|destruct e; discriminate H].
    apply IH, H.
Qed.

Lemma add_p2p_call_no_loop (st : TcpBridge * net) (p2p : string) :
  no_loop st.1 -> no_loop (add_p2p_call py_int getaddrinfo connect_ok st p2p).1.
Proof.
  destruct st as [b n]. cbn [fst]. intros Hn. unfold add_p2p_call. cbn [fst snd].
  destruct (add_p2p py_int getaddrinfo connect_ok b n p2p) as [[b' n']|] eqn:E; [|exact Hn].
  apply add_p2p_resolved in E as (? & ? & ? & ? & _ & _ & _ & -> & _).
  cbn [fst]. intros s r. cbn [socket2remote].
  destruct (decide (s = S (next_sock n))) as [->|H1].
  - rewrite lookup_insert_eq. intros [= <-]. lia.
  - rewrite lookup_insert_ne by congruence.
    destruct (decide (s = next_sock n)) as [->|H2].
    + rewrite lookup_insert_eq. intros [= <-]. lia.
    + rewrite lookup_insert_ne by congruence. apply Hn.
Qed.

Lemma add_p2p_calls_no_loop (p2ps : list string) :
  forall st, no_loop st.1 -> no_loop (add_p2p_calls py_int getaddrinfo connect_ok st p2ps).1.
Proof.
  unfold add_p2p_calls.
  induction p2ps as [|p2p p2ps IH]; intros st Hn; [exact Hn|].
  cbn [fold_left]. apply IH, add_p2p_call_no_loop, Hn.
Qed.

(** The bridge [work] is called on. *)
Lemma main_p2p_bridge (p2ps : list string) (b : TcpBridge) (n : net) :
  main_p2p py_int getaddrinfo connect_ok p2ps = Ok (b, n) ->
  peers_ok b /\ no_loop b.
Proof.
  intros H. unfold main_p2p in H. apply main_add_p2ps_calls in H.
  split.
  - pose proof (add_p2p_calls_keep py_int getaddrinfo connect_ok p2ps
                  (TcpBridge_init, {| next_sock := 0; connected := ∅ |})) as Hk.
    rewrite H in Hk. apply Hk.
    + intros s Hs. cbn in Hs. apply elem_of_nil in Hs. destruct Hs.
    + intros s Hs. cbn in Hs. apply elem_of_nil in Hs. destruct Hs.
  - pose proof (add_p2p_calls_no_loop p2ps
                  (TcpBridge_init, {| next_sock := 0; connected := ∅ |})) as Hk.
    rewrite H in Hk. apply Hk. intros s r Hs. cbn in Hs. rewrite lookup_empty in Hs. discriminate Hs.
Qed.

Lemma reconnect_events (b : TcpBridge) (s : nat) (n : net) :
  forall ev, ev ∈ (reconnect py_int getaddrinfo connect_ok b s n).2 ->
    exists addr, ev = BReconnect s addr.
Proof.
  unfold reconnect. intros ev.
  destruct (socket2hostintf b !! s) as [label|]; [|intros H; apply elem_of_nil in H; destruct H].
  destruct (hostintf2addr py_int getaddrinfo label) as [addr|];
    [|intros H; apply elem_of_nil in H; destruct H].
  cbn [snd]. intros H. apply list_elem_of_singleton in H. eauto.
Qed.

(** Serving a registered socket: no lookup fails, and what is sent is what
    was read, to the peer. *)
Lemma serve_routes (b : TcpBridge) (n : net) (r : ready_sock) :
  peers_ok b -> no_loop b -> rsock r ∈ sockets b ->
  forall e n' evs, serve py_int getaddrinfo connect_ok b n r = (e, n', evs) ->
    (forall s, e <> Some (KeyError s)) /\
    (forall sock buf, BSend sock buf ∈ evs \/ BSendBroken sock buf ∈ evs ->
       buf <> [] /\ recv_ans r = RecvData buf /\
       socket2remote b !! (rsock r) = Some sock /\
       socket2remote b !! sock = Some (rsock r) /\
       sock <> rsock r).
Proof.
  intros Hp Hn Hr e n' evs. unfold serve.
  destruct (Hp _ Hr) as (remote & Hrem & Hsr & Hrs & [li Hli]).
  destruct (Hp _ Hrem) as (_ & _ & _ & _ & [lr Hlr]).
  pose proof (Hn _ _ Hsr) as Hne.
  rewrite Hsr, Hli.
  assert (Hrec : forall s n0 e0 n0' evs0,
             (let (n1, ev1) := reconnect py_int getaddrinfo connect_ok b s n0 in
              (@None work_end, n1, ev1)) = (e0, n0', evs0) ->
             (forall k, e0 <> Some (KeyError k)) /\
             forall sock buf, BSend sock buf ∈ evs0 \/ BSendBroken sock buf ∈ evs0 -> False).
  { intros s n0 e0 n0' evs0.
    pose proof (reconnect_events b s n0) as Hev.
    destruct (reconnect py_int getaddrinfo connect_ok b s n0) as [n1 ev1]. cbn [snd] in Hev.
    intros [= <- <- <-]. split; [discriminate|].
    intros sock buf [H|H]; destruct (Hev _ H) as [a Ha]; discriminate Ha. }
  destruct (recv_ans r) as [buf| |] eqn:Hra.
  - destruct (len buf =? 0) eqn:Hl.
    + intros [= <- <- <-]. split; [discriminate|].
      intros sock b0 [H|H]; apply elem_of_nil in H; destruct H.
    + assert (Hbuf : buf <> []).
      { intros ->. cbn in Hl. discriminate Hl. }
      rewrite Hlr. destruct (send_ans r).
      * intros [= <- <- <-]. split; [discriminate|].
        intros sock b0 [H|H].
        -- apply list_elem_of_singleton in H. injection H as -> ->.
           repeat split; auto.
        -- apply list_elem_of_singleton in H. discriminate H.
      * pose proof (reconnect_events b remote n) as Hev.
        destruct (reconnect py_int getaddrinfo connect_ok b remote n) as [n1 ev1].
        cbn [snd] in Hev.
        intros [= <- <- <-]. split; [discriminate|].
        intros sock b0 [H|H].
        -- apply elem_of_cons in H as [H|H]; [discriminate H|].
           destruct (Hev _ H) as [a Ha]. discriminate Ha.
        -- apply elem_of_cons in H as [H|H].
           ++ injection H as -> ->. repeat split; auto.
           ++ destruct (Hev _ H) as [a Ha]. discriminate Ha.
      * intros [= <- <- <-]. split; [discriminate|].
        intros sock b0 [H|H]; apply elem_of_nil in H; destruct H.
  - intros H. destruct (Hrec _ _ _ _ _ H) as [H1 H2]. split; [exact H1|].
    intros sock b0 H0. destruct (H2 sock b0 H0).
  - intros H. destruct (Hrec _ _ _ _ _ H) as [H1 H2]. split; [exact H1|].
    intros sock b0 H0. destruct (H2 sock b0 H0).
Qed.

Lemma serve_all_routes (b : TcpBridge) (ir : list ready_sock) :
  peers_ok b -> no_loop b -> Forall (fun r => rsock r ∈ sockets b) ir ->
  forall n e n' evs, serve_all py_int getaddrinfo connect_ok b n ir = (e, n', evs) ->
    (forall s, e <> Some (KeyError s)) /\
    (forall sock buf, BSend sock buf ∈ evs \/ BSendBroken sock buf ∈ evs ->
       buf <> [] /\
       exists r, r ∈ ir /\ recv_ans r = RecvData buf /\
         socket2remote b !! (rsock r) = Some sock /\
         socket2remote b !! sock = Some (rsock r) /\
         sock <> rsock r).
Proof.
  intros Hp Hn. induction ir as [|r ir IH]; intros Hr n e n' evs.
  - cbn [serve_all]. intros [= <- <- <-]. split; [discriminate|].
    intros sock buf [H|H]; apply elem_of_nil in H; destruct H.
  - apply Forall_cons in Hr as [Hr Hrs]. cbn [serve_all].
    destruct (serve py_int getaddrinfo connect_ok b n r) as [[e1 n1] ev1] eqn:E1.
    destruct (serve_routes b n r Hp Hn Hr _ _ _ E1) as [Hk1 Hs1].
    assert (Hhere : forall sock buf, BSend sock buf ∈ ev1 \/ BSendBroken sock buf ∈ ev1 ->
              buf <> [] /\
              exists r0, r0 ∈ r :: ir /\ recv_ans r0 = RecvData buf /\
                socket2remote b !! (rsock r0) = Some sock /\
                socket2remote b !! sock = Some (rsock r0) /\
                sock <> rsock r0).
    { intros sock buf H. destruct (Hs1 sock buf H) as (H1 & H2).
      split; [exact H1|]. exists r. split; [apply elem_of_cons; left; reflexivity|exact H2]. }
    destruct e1 as [w|].
    + intros [= <- <- <-]. split; [exact Hk1|exact Hhere].
    + destruct (serve_all py_int getaddrinfo connect_ok b n1 ir) as [[e2 n2] ev2] eqn:E2.
      destruct (IH Hrs _ _ _ _ E2) as [Hk2 Hs2].
      intros [= <- <- <-]. split; [exact Hk2|].
      intros sock buf H.
      assert (H' : (BSend sock buf ∈ ev1 \/ BSendBroken sock buf ∈ ev1) \/
                   (BSend sock buf ∈ ev2 \/ BSendBroken sock buf ∈ ev2)).
      { rewrite !elem_of_app in H. tauto. }
      destruct H' as [H'|H']; [exact (Hhere sock buf H')|].
      destruct (Hs2 sock buf H') as (H1 & r0 & Hin & H2).
      split; [exact H1|]. exists r0. split; [apply elem_of_cons; right; exact Hin|exact H2].
Qed.

Lemma work_routes (b : TcpBridge) (rounds : list (option (list ready_sock))) :
  peers_ok b -> no_loop b -> selected b rounds ->
  forall n e n' evs, TcpBridge_work py_int getaddrinfo connect_ok b n rounds = (e, n', evs) ->
    (forall s, e <> Some (KeyError s)) /\
    (forall sock buf, BSend sock buf ∈ evs \/ BSendBroken sock buf ∈ evs ->
       buf <> [] /\
       exists r, r ∈ all_ready rounds /\ recv_ans r = RecvData buf /\
         socket2remote b !! (rsock r) = Some sock /\
         socket2remote b !! sock = Some (rsock r) /\
         sock <> rsock r).
Proof.
  intros Hp Hn. unfold selected, all_ready.
  induction rounds as [|[ir|] rounds IH]; intros Hr n e n' evs.
  - cbn [TcpBridge_work]. intros [= <- <- <-]. split; [discriminate|].
    intros sock buf [H|H]; apply elem_of_nil in H; destruct H.
  - cbn [omap list_omap id concat] in Hr |- *. apply Forall_app in Hr as [Hr Hrs].
    cbn [TcpBridge_work].
    destruct (serve_all py_int getaddrinfo connect_ok b n ir) as [[e1 n1] ev1] eqn:E1.
    destruct (serve_all_routes b ir Hp Hn Hr _ _ _ _ E1) as [Hk1 Hs1].
    assert (Hhere : forall sock buf, BSend sock buf ∈ ev1 \/ BSendBroken sock buf ∈ ev1 ->
              buf <> [] /\
              exists r0, r0 ∈ ir ++ concat (omap id rounds) /\ recv_ans r0 = RecvData buf /\
                socket2remote b !! (rsock r0) = Some sock /\
                socket2remote b !! sock = Some (rsock r0) /\
                sock <> rsock r0).
    { intros sock buf H. destruct (Hs1 sock buf H) as (H1 & r0 & Hin & H2).
      split; [exact H1|]. exists r0. split; [apply elem_of_app; left; exact Hin|exact H2]. }
    destruct e1 as [w|].
    + intros [= <- <- <-]. split; [exact Hk1|exact Hhere].
    + destruct (TcpBridge_work py_int getaddrinfo connect_ok b n1 rounds) as [[e2 n2] ev2] eqn:E2.
      destruct (IH Hrs _ _ _ _ E2) as [Hk2 Hs2].
      intros [= <- <- <-]. split; [exact Hk2|].
      intros sock buf H.
      assert (H' : (BSend sock buf ∈ ev1 \/ BSendBroken sock buf ∈ ev1) \/
                   (BSend sock buf ∈ ev2 \/ BSendBroken sock buf ∈ ev2)).
      { rewrite !elem_of_app in H. tauto. }
      destruct H' as [H'|H']; [exact (Hhere sock buf H')|].
      destruct (Hs2 sock buf H') as (H1 & r0 & Hin & H2).
      split; [exact H1|]. exists r0. split; [apply elem_of_app; right; exact Hin|exact H2].
  - cbn [TcpBridge_work]. intros [= <- <- <-]. split; [discriminate|].
    intros sock buf [H|H]; apply elem_of_nil in H; destruct H.
Qed.

End BridgeLinks.

Section BridgeForward.
Import Py Xcon Peers Forward.
Variable py_int : string -> option Z.
Variable getaddrinfo : string -> string -> option (string * Z).
Variable connect_ok : nat -> string * Z -> bool.

Lemma serve_delivers (b : TcpBridge) (n : net) (r : ready_sock) :
  peers_ok b -> rsock r ∈ sockets b -> delivers r ->
  exists ev, serve py_int getaddrinfo connect_ok b n r = (None, n, [ev]) /\ forwards b r ev.
Proof.
  intros Hp Hr [Hsend (buf & Hrecv & Hbuf)]. unfold serve.
  destruct (Hp _ Hr) as (remote & Hrem & Hsr & Hrs & [li Hli]).
  destruct (Hp _ Hrem) as (_ & _ & _ & _ & [lr Hlr]).
  rewrite Hsr, Hrecv, Hli, Hlr, Hsend.
  assert (Hl : (len buf =? 0) = false).
  { apply Z.eqb_neq. unfold len. destruct buf; [congruence|cbn [length]; lia]. }
  rewrite Hl. eexists. split; [reflexivity|].
  exists remote, buf. repeat split; assumption.
Qed.

Lemma serve_all_delivers (b : TcpBridge) (n : net) (ir : list ready_sock) :
  peers_ok b -> Forall (fun r => rsock r ∈ sockets b) ir -> Forall delivers ir ->
  exists evs, serve_all py_int getaddrinfo connect_ok b n ir = (None, n, evs) /\
    Forall2 (forwards b) ir evs.
Proof.
  intros Hp. induction ir as [|r ir IH]; intros Hr Hd.
  - exists []. split; [reflexivity|constructor].
  - apply Forall_cons in Hr as [Hr Hrs]. apply Forall_cons in Hd as [Hd Hds].
    destruct (serve_delivers b n r Hp Hr Hd) as (ev & E & Hf).
    destruct (IH Hrs Hds) as (evs & E' & Hfs).
    cbn [serve_all]. rewrite E, E'. exists (ev :: evs). split; [reflexivity|].
    constructor; assumption.
Qed.

Lemma work_delivers (b : TcpBridge) (n : net) (rounds : list (option (list ready_sock))) :
  peers_ok b -> selected b rounds -> Forall (fun o => o <> None) rounds ->
  Forall delivers (all_ready rounds) ->
  exists evs, TcpBridge_work py_int getaddrinfo connect_ok b n rounds = (None, n, evs) /\
    Forall2 (forwards b) (all_ready rounds) evs.
Proof.
  intros Hp. unfold selected, all_ready.
  induction rounds as [|[ir|] rounds IH]; intros Hr Hs Hd.
  - exists []. split; [reflexivity|constructor].
  - cbn [omap list_omap id concat] in Hr, Hd |- *.
    apply Forall_app in Hr as [Hr Hrs]. apply Forall_app in Hd as [Hd Hds].
    apply Forall_cons in Hs as [_ Hs].
    destruct (serve_all_delivers b n ir Hp Hr Hd) as (e1 & E1 & F1).
    destruct (IH Hrs Hs Hds) as (e2 & E2 & F2).
    cbn [TcpBridge_work]. rewrite E1, E2. exists (e1 ++ e2). split; [reflexivity|].
    apply Forall2_app; assumption.
  - apply Forall_cons in Hs as [Hs _]. congruence.
Qed.

Lemma serve_all_empty_read (b : TcpBridge) (n : net) (pre post : list ready_sock)
    (r : ready_sock) :
  peers_ok b -> Forall (fun r => rsock r ∈ sockets b) pre -> Forall delivers pre ->
  rsock r ∈ sockets b -> recv_ans r = RecvData [] ->
  exists evs, serve_all py_int getaddrinfo connect_ok b n (pre ++ r :: post)
              = (Some Returned, n, evs) /\
    Forall2 (forwards b) pre evs.
Proof.
  intros Hp Hr Hd Hin He. induction pre as [|q pre IH].
  - exists []. split; [|constructor]. cbn [app serve_all]. unfold serve.
    destruct (Hp _ Hin) as (remote & _ & -> & _). rewrite He. reflexivity.
  - apply Forall_cons in Hr as [Hq Hr]. apply Forall_cons in Hd as [Hdq Hd].
    destruct (serve_delivers b n q Hp Hq Hdq) as (ev & E & Hf).
    destruct (IH Hr Hd) as (evs & E' & Hfs).
    cbn [app serve_all]. rewrite E, E'. exists (ev :: evs). split; [reflexivity|].
    constructor; assumption.
Qed.

Lemma work_app (b : TcpBridge) (r1 r2 : list (option (list ready_sock))) :
  forall n n1 e1,
    TcpBridge_work py_int getaddrinfo connect_ok b n r1 = (None, n1, e1) ->
    TcpBridge_work py_int getaddrinfo connect_ok b n (r1 ++ r2)
    = (let '(e, n', e2) := TcpBridge_work py_int getaddrinfo connect_ok b n1 r2 in
       (e, n', e1 ++ e2)).
Proof.
  induction r1 as [|[ir|] r1 IH]; intros n n1 e1.
  - cbn [TcpBridge_work app]. intros [= <- <-].
    destruct (TcpBridge_work py_int getaddrinfo connect_ok b n r2) as [[e n'] e2]. reflexivity.
  - cbn [TcpBridge_work app].
    destruct (serve_all py_int getaddrinfo connect_ok b n ir) as [[[w|] na] eva]; [discriminate|].
    destruct (TcpBridge_work py_int getaddrinfo connect_ok b na r1) as [[e' nb] evb] eqn:E.
    intros [= -> -> <-]. rewrite (IH na n1 evb E).
    destruct (TcpBridge_work py_int getaddrinfo connect_ok b n1 r2) as [[e n'] e2].
    rewrite app_assoc. reflexivity.
  - cbn [TcpBridge_work]. discriminate.
Qed.

End BridgeForward.

Section BridgeMain.
Import Py Xcon.
Variable py_int : string -> option Z.
Variable getaddrinfo : string -> string -> option (string * Z).
Variable connect_ok : nat -> string * Z -> bool.

Lemma main_add_p2ps_app (pre rest : list string) :
  forall b0 n0 b n,
    main_add_p2ps py_int getaddrinfo connect_ok b0 n0 pre = Ok (b, n) ->
    main_add_p2ps py_int getaddrinfo connect_ok b0 n0 (pre ++ rest)
    = main_add_p2ps py_int getaddrinfo connect_ok b n rest.
Proof.
  induction pre as [|p pre IH]; intros b0 n0 b n H.
  - cbn in H. injection H as <- <-. reflexivity.
  - cbn [main_add_p2ps app] in H |- *.
    destruct (add_p2p py_int getaddrinfo connect_ok b0 n0 p) as [[b1 n1]|e];
      [|destruct e; discriminate H].
    apply IH, H.
Qed.

End BridgeMain.

(** X9.  On the bridge that __main__ has built, work finds every socket that
    select reports in its dicts (no KeyError), and whatever it hands to send
    is a non-empty buffer just read from a ready socket, addressed to that
    socket's peer, which is another socket and has the reader as its own
    peer. *)
Theorem tcpbridge_work_routes (py_int : string -> option Z)
    (getaddrinfo : string -> string -> option (string * Z))
    (connect_ok : nat -> string * Z -> bool) (p2ps : list string)
    (b : Xcon.TcpBridge) (n : Xcon.net) (rounds : list (option (list Xcon.ready_sock))) :
  Xcon.main_p2p py_int getaddrinfo connect_ok p2ps = Py.Ok (b, n) ->
  Forward.selected b rounds ->
  let run := Xcon.TcpBridge_work py_int getaddrinfo connect_ok b n rounds in
  (forall s, run.1.1 <> Some (Xcon.KeyError s)) /\
  (forall sock buf, Xcon.BSend sock buf ∈ run.2 \/ Xcon.BSendBroken sock buf ∈ run.2 ->
     buf <> [] /\
     exists r, r ∈ Forward.all_ready rounds /\ Xcon.recv_ans r = Xcon.RecvData buf /\
       Xcon.socket2remote b !! (Xcon.rsock r) = Some sock /\
       Xcon.socket2remote b !! sock = Some (Xcon.rsock r) /\
       sock <> Xcon.rsock r).
Proof.
  intros Hm Hsel run.
  destruct (main_p2p_bridge py_int getaddrinfo connect_ok p2ps b n Hm) as [Hp Hn].
  destruct run as [[e n'] evs] eqn:E. cbn [fst snd].
  exact (work_routes py_int getaddrinfo connect_ok b rounds Hp Hn Hsel n e n' evs E).
Qed.

Lemma tcpbridge_work_routes_witness :
  Xcon.main_p2p demo_int demo_resolve (fun _ _ => false) demo_links
  = Py.Ok (demo_main.1, demo_main.2) /\
  Forward.selected demo_main.1 demo_rounds /\
  let run := Xcon.TcpBridge_work demo_int demo_resolve (fun _ _ => false)
               demo_main.1 demo_main.2 demo_rounds in
  (forall s, run.1.1 <> Some (Xcon.KeyError s)) /\
  (forall sock buf, Xcon.BSend sock buf ∈ run.2 \/ Xcon.BSendBroken sock buf ∈ run.2 ->
     buf <> [] /\
     exists r, r ∈ Forward.all_ready demo_rounds /\ Xcon.recv_ans r = Xcon.RecvData buf /\
       Xcon.socket2remote demo_main.1 !! (Xcon.rsock r) = Some sock /\
       Xcon.socket2remote demo_main.1 !! sock = Some (Xcon.rsock r) /\
       sock <> Xcon.rsock r).
Proof.
  assert (H1 : Xcon.main_p2p demo_int demo_resolve (fun _ _ => false) demo_links
               = Py.Ok (demo_main.1, demo_main.2)) by (vm_compute; reflexivity).
  assert (H2 : Forward.selected demo_main.1 demo_rounds).
  { unfold Forward.selected. apply (bool_decide_unpack _). vm_compute. exact I. }
  split; [exact H1|]. split; [exact H2|].
  exact (tcpbridge_work_routes demo_int demo_resolve (fun _ _ => false) demo_links
           demo_main.1 demo_main.2 demo_rounds H1 H2).
Defined.

(** X10.  While every read brings data and every send goes through, work
    forwards each buffer, in the order read, to the peer of the socket it was
    read from; it makes no connection and its loop goes on. *)
Theorem tcpbridge_work_forwards (py_int : string -> option Z)
    (getaddrinfo : string -> string -> option (string * Z))
    (connect_ok : nat -> string * Z -> bool) (p2ps : list string)
    (b : Xcon.TcpBridge) (n : Xcon.net) (rounds : list (option (list Xcon.ready_sock))) :
  Xcon.main_p2p py_int getaddrinfo connect_ok p2ps = Py.Ok (b, n) ->
  Forward.selected b rounds ->
  Forall (fun o => o <> None) rounds ->
  Forall Forward.delivers (Forward.all_ready rounds) ->
  exists evs,
    Xcon.TcpBridge_work py_int getaddrinfo connect_ok b n rounds = (None, n, evs) /\
    Forall2 (Forward.forwards b) (Forward.all_ready rounds) evs.
Proof.
  intros Hm Hsel Hr Hd.
  destruct (main_p2p_bridge py_int getaddrinfo connect_ok p2ps b n Hm) as [Hp _].
  exact (work_delivers py_int getaddrinfo connect_ok b n rounds Hp Hsel Hr Hd).
Qed.

Lemma tcpbridge_work_forwards_witness :
  Xcon.main_p2p demo_int demo_resolve (fun _ _ => false) demo_links
  = Py.Ok (demo_main.1, demo_main.2) /\
  Forward.selected demo_main.1 demo_rounds /\
  Forall (fun o => o <> None) demo_rounds /\
  Forall Forward.delivers (Forward.all_ready demo_rounds) /\
  exists evs,
    Xcon.TcpBridge_work demo_int demo_resolve (fun _ _ => false)
      demo_main.1 demo_main.2 demo_rounds = (None, demo_main.2, evs) /\
    Forall2 (Forward.forwards demo_main.1) (Forward.all_ready demo_rounds) evs.
Proof.
  assert (H1 : Xcon.main_p2p demo_int demo_resolve (fun _ _ => false) demo_links
               = Py.Ok (demo_main.1, demo_main.2)) by (vm_compute; reflexivity).
  assert (H2 : Forward.selected demo_main.1 demo_rounds).
  { unfold Forward.selected. apply (bool_decide_unpack _). vm_compute. exact I. }
  assert (H3 : Forall (fun o : option (list Xcon.ready_sock) => o <> None) demo_rounds).
  { repeat constructor; discriminate. }
  assert (H4 : Forall Forward.delivers (Forward.all_ready demo_rounds)).
  { repeat constructor; eexists; (split; [reflexivity|discriminate]). }
  split; [exact H1|]. split; [exact H2|]. split; [exact H3|]. split; [exact H4|].
  exact (tcpbridge_work_forwards demo_int demo_resolve (fun _ _ => false) demo_links
           demo_main.1 demo_main.2 demo_rounds H1 H2 H3 H4).
Defined.

(** X11.  An empty read ends work.  After rounds in which every buffer was
    forwarded, the first socket whose recv returns no bytes makes work return:
    the buffers read before it have been forwarded, the sockets that select
    reported after it, in that round and in later ones, are not served. *)
Theorem tcpbridge_work_ends_on_empty_read (py_int : string -> option Z)
    (getaddrinfo : string -> string -> option (string * Z))
    (connect_ok : nat -> string * Z -> bool) (p2ps : list string)
    (b : Xcon.TcpBridge) (n : Xcon.net)
    (rounds rest : list (option (list Xcon.ready_sock)))
    (pre post : list Xcon.ready_sock) (r : Xcon.ready_sock) :
  Xcon.main_p2p py_int getaddrinfo connect_ok p2ps = Py.Ok (b, n) ->
  Forward.selected b (rounds ++ [Some (pre ++ [r])]) ->
  Forall (fun o => o <> None) rounds ->
  Forall Forward.delivers (Forward.all_ready rounds ++ pre) ->
  Xcon.recv_ans r = Xcon.RecvData [] ->
  exists evs,
    Xcon.TcpBridge_work py_int getaddrinfo connect_ok b n
      (rounds ++ Some (pre ++ r :: post) :: rest)
    = (Some Xcon.Returned, n, evs) /\
    Forall2 (Forward.forwards b) (Forward.all_ready rounds ++ pre) evs.
Proof.
  intros Hm Hsel Hr Hd He.
  destruct (main_p2p_bridge py_int getaddrinfo connect_ok p2ps b n Hm) as [Hp _].
  unfold Forward.selected, Forward.all_ready in Hsel.
  rewrite omap_app, concat_app in Hsel. cbn [omap list_omap id concat] in Hsel.
  rewrite app_nil_r in Hsel.
  apply Forall_app in Hsel as [Hs1 Hs2]. apply Forall_app in Hs2 as [Hs2 Hs3].
  apply Forall_cons in Hs3 as [Hs3 _].
  apply Forall_app in Hd as [Hd1 Hd2].
  destruct (work_delivers py_int getaddrinfo connect_ok b n rounds Hp Hs1 Hr Hd1)
    as (e1 & E1 & F1).
  destruct (serve_all_empty_read py_int getaddrinfo connect_ok b n pre post r Hp Hs2 Hd2 Hs3 He)
    as (e2 & E2 & F2).
  rewrite (work_app py_int getaddrinfo connect_ok b rounds _ n n e1 E1).
  cbn [Xcon.TcpBridge_work]. rewrite E2.
  exists (e1 ++ e2). split; [reflexivity|]. apply Forall2_app; assumption.
Qed.

Lemma tcpbridge_work_ends_on_empty_read_witness :
  let r := {| Xcon.rsock := 2; Xcon.recv_ans := Xcon.RecvData [];
              Xcon.send_ans := Xcon.SendOk |} in
  Xcon.main_p2p demo_int demo_resolve (fun _ _ => false) demo_links
  = Py.Ok (demo_main.1, demo_main.2) /\
  Forward.selected demo_main.1 (demo_rounds ++ [Some ([] ++ [r])]) /\
  Forall (fun o => o <> None) demo_rounds /\
  Forall Forward.delivers (Forward.all_ready demo_rounds ++ []) /\
  Xcon.recv_ans r = Xcon.RecvData [] /\
  exists evs,
    Xcon.TcpBridge_work demo_int demo_resolve (fun _ _ => false) demo_main.1 demo_main.2
      (demo_rounds ++ Some ([] ++ r :: []) :: demo_rounds)
    = (Some Xcon.Returned, demo_main.2, evs) /\
    Forall2 (Forward.forwards demo_main.1) (Forward.all_ready demo_rounds ++ []) evs.
Proof.
  intros r.
  assert (H1 : Xcon.main_p2p demo_int demo_resolve (fun _ _ => false) demo_links
               = Py.Ok (demo_main.1, demo_main.2)) by (vm_compute; reflexivity).
  assert (H2 : Forward.selected demo_main.1 (demo_rounds ++ [Some ([] ++ [r])])).
  { unfold Forward.selected. apply (bool_decide_unpack _). vm_compute. exact I. }
  assert (H3 : Forall (fun o : option (list Xcon.ready_sock) => o <> None) demo_rounds).
  { repeat constructor; discriminate. }
  assert (H4 : Forall Forward.delivers (Forward.all_ready demo_rounds ++ [])).
  { repeat constructor; eexists; (split; [reflexivity|discriminate]). }
  assert (H5 : Xcon.recv_ans r = Xcon.RecvData []) by reflexivity.
  split; [exact H1|]. split; [exact H2|]. split; [exact H3|]. split; [exact H4|].
  split; [exact H5|].
  exact (tcpbridge_work_ends_on_empty_read demo_int demo_resolve (fun _ _ => false) demo_links
           demo_main.1 demo_main.2 demo_rounds demo_rounds [] [] r H1 H2 H3 H4 H5).
Defined.

(** X12.  What __main__ leaves in the bridge when every link was added: link
    j of --p2p (counted from 0) has the sockets 2j and 2j+1, each the other's
    peer, labelled with the text before and the text after the "--" of the
    argument; and self.sockets lists the sockets 0 .. 2k-1 in that order. *)
Theorem tcpbridge_link_sockets (py_int : string -> option Z)
    (getaddrinfo : string -> string -> option (string * Z))
    (connect_ok : nat -> string * Z -> bool) (p2ps : list string)
    (b : Xcon.TcpBridge) (n : Xcon.net) :
  Xcon.main_p2p py_int getaddrinfo connect_ok p2ps = Py.Ok (b, n) ->
  Xcon.sockets b = seq 0 (2 * length p2ps) /\
  (forall j p2p, p2ps !! j = Some p2p ->
     exists source destination,
       p2p = source +:+ "--" +:+ destination /\
       Xcon.socket2remote b !! (2 * j)%nat = Some (2 * j + 1)%nat /\
       Xcon.socket2remote b !! (2 * j + 1)%nat = Some (2 * j)%nat /\
       Xcon.socket2hostintf b !! (2 * j)%nat = Some source /\
       Xcon.socket2hostintf b !! (2 * j + 1)%nat = Some destination).
Proof.
  intros Hm. unfold Xcon.main_p2p in Hm.
  apply main_add_p2ps_links in Hm as (_ & Hs & _ & Hl). cbn [Xcon.next_sock] in Hs, Hl.
  split; [exact Hs|].
  intros j p2p Hj. destruct (Hl j p2p Hj) as (so & de & sr & ds & H1 & _ & _ & H4 & H5 & H6 & H7).
  exists so, de. cbn [Nat.add] in H4, H5, H6, H7. repeat split; assumption.
Qed.

Lemma tcpbridge_link_sockets_witness :
  Xcon.main_p2p demo_int demo_resolve (fun _ _ => false) demo_links
  = Py.Ok (demo_main.1, demo_main.2) /\
  Xcon.sockets demo_main.1 = seq 0 (2 * length demo_links) /\
  (forall j p2p, demo_links !! j = Some p2p ->
     exists source destination,
       p2p = source +:+ "--" +:+ destination /\
       Xcon.socket2remote demo_main.1 !! (2 * j)%nat = Some (2 * j + 1)%nat /\
       Xcon.socket2remote demo_main.1 !! (2 * j + 1)%nat = Some (2 * j)%nat /\
       Xcon.socket2hostintf demo_main.1 !! (2 * j)%nat = Some source /\
       Xcon.socket2hostintf demo_main.1 !! (2 * j + 1)%nat = Some destination).
Proof.
  assert (H1 : Xcon.main_p2p demo_int demo_resolve (fun _ _ => false) demo_links
               = Py.Ok (demo_main.1, demo_main.2)) by (vm_compute; reflexivity).
  split; [exact H1|].
  exact (tcpbridge_link_sockets demo_int demo_resolve (fun _ _ => false) demo_links
           demo_main.1 demo_main.2 H1).
Defined.

(** X13.  Reconnection, for either end of a link.  On the bridge that
    __main__ has built, when recv on a socket fails (connection reset or any
    other OSError), work sends nothing and connects that socket again, to the
    address its own end of the link resolves to at that moment; when send to
    the peer raises BrokenPipeError, it is the peer that is connected again,
    to the address of the peer's end, and the buffer that could not be sent
    is not sent again.  This holds in both directions of the link, and
    whatever the resolver and connect answer at that time; an end that no
    longer resolves is not connected, and work goes on. *)
Theorem tcpbridge_reconnects (py_int : string -> option Z)
    (getaddrinfo : string -> string -> option (string * Z))
    (connect_ok : nat -> string * Z -> bool) (p2ps : list string)
    (b : Xcon.TcpBridge) (n : Xcon.net) (j : nat) (p2p : string)
    (getaddrinfo' : string -> string -> option (string * Z))
    (connect_ok' : nat -> string * Z -> bool) :
  Xcon.main_p2p py_int getaddrinfo connect_ok p2ps = Py.Ok (b, n) ->
  p2ps !! j = Some p2p ->
  exists source destination,
    p2p = source +:+ "--" +:+ destination /\
    (forall n2 r, Xcon.rsock r = (2 * j)%nat -> Forward.recv_failed r ->
       Xcon.serve py_int getaddrinfo' connect_ok' b n2 r
       = (None,
          (Forward.redial py_int getaddrinfo' connect_ok' (2 * j) source n2).1,
          (Forward.redial py_int getaddrinfo' connect_ok' (2 * j) source n2).2)) /\
    (forall n2 r, Xcon.rsock r = (2 * j + 1)%nat -> Forward.recv_failed r ->
       Xcon.serve py_int getaddrinfo' connect_ok' b n2 r
       = (None,
          (Forward.redial py_int getaddrinfo' connect_ok' (2 * j + 1) destination n2).1,
          (Forward.redial py_int getaddrinfo' connect_ok' (2 * j + 1) destination n2).2)) /\
    (forall n2 r buf, Xcon.rsock r = (2 * j)%nat -> Forward.broken_pipe r buf ->
       Xcon.serve py_int getaddrinfo' connect_ok' b n2 r
       = (None,
          (Forward.redial py_int getaddrinfo' connect_ok' (2 * j + 1) destination n2).1,
          Xcon.BSendBroken (2 * j + 1) buf
          :: (Forward.redial py_int getaddrinfo' connect_ok' (2 * j + 1) destination n2).2)) /\
    (forall n2 r buf, Xcon.rsock r = (2 * j + 1)%nat -> Forward.broken_pipe r buf ->
       Xcon.serve py_int getaddrinfo' connect_ok' b n2 r
       = (None,
          (Forward.redial py_int getaddrinfo' connect_ok' (2 * j) source n2).1,
          Xcon.BSendBroken (2 * j) buf
          :: (Forward.redial py_int getaddrinfo' connect_ok' (2 * j) source n2).2)) /\
    (forall sock label n2 addr,
       Xcon.hostintf2addr py_int getaddrinfo' label = Py.Ok addr ->
       Forward.redial py_int getaddrinfo' connect_ok' sock label n2
       = (Xcon.try_connect connect_ok' sock addr n2, [Xcon.BReconnect sock addr])).
Proof.
  intros Hm Hj. unfold Xcon.main_p2p in Hm.
  apply main_add_p2ps_links in Hm as (_ & _ & _ & Hl). cbn [Xcon.next_sock] in Hl.
  destruct (Hl j p2p Hj) as (so & de & sr & ds & H1 & H2 & H3 & H4 & H5 & H6 & H7).
  cbn [Nat.add] in H4, H5, H6, H7.
  assert (Hlen : forall buf : list byte, buf <> [] -> (Xcon.len buf =? 0) = false).
  { intros buf Hne. apply Z.eqb_neq. unfold Xcon.len.
    destruct buf; [congruence|cbn [length]; lia]. }
  exists so, de. split; [exact H1|].
  split; [|split; [|split; [|split]]].
  - intros n2 r Hr Hf. unfold Xcon.serve, Xcon.reconnect, Forward.redial.
    rewrite Hr, H4, H6.
    destruct Hf as [-> | ->];
      destruct (Xcon.hostintf2addr py_int getaddrinfo' so); reflexivity.
  - intros n2 r Hr Hf. unfold Xcon.serve, Xcon.reconnect, Forward.redial.
    rewrite Hr, H5, H7.
    destruct Hf as [-> | ->];
      destruct (Xcon.hostintf2addr py_int getaddrinfo' de); reflexivity.
  - intros n2 r buf Hr (Hd & Hne & Hs). unfold Xcon.serve, Xcon.reconnect, Forward.redial.
    rewrite Hr, H4, Hd, H6, H7, Hs, (Hlen buf Hne).
    destruct (Xcon.hostintf2addr py_int getaddrinfo' de); reflexivity.
  - intros n2 r buf Hr (Hd & Hne & Hs). unfold Xcon.serve, Xcon.reconnect, Forward.redial.
    rewrite Hr, H5, Hd, H7, H6, Hs, (Hlen buf Hne).
    destruct (Xcon.hostintf2addr py_int getaddrinfo' so); reflexivity.
  - intros sock label n2 addr Ha. unfold Forward.redial. rewrite Ha. reflexivity.
Qed.

Lemma tcpbridge_reconnects_witness :
  let moved := fun host port : string => Some (host, 10002) in
  Xcon.main_p2p demo_int demo_resolve (fun _ _ => false) demo_links
  = Py.Ok (demo_main.1, demo_main.2) /\
  demo_links !! 1%nat = Some "r2/2--r3/1"%string /\
  exists source destination,
    "r2/2--r3/1"%string = source +:+ "--" +:+ destination /\
    (forall n2 r, Xcon.rsock r = (2 * 1)%nat -> Forward.recv_failed r ->
       Xcon.serve demo_int moved (fun _ _ => true) demo_main.1 n2 r
       = (None,
          (Forward.redial demo_int moved (fun _ _ => true) (2 * 1) source n2).1,
          (Forward.redial demo_int moved (fun _ _ => true) (2 * 1) source n2).2)) /\
    (forall n2 r, Xcon.rsock r = (2 * 1 + 1)%nat -> Forward.recv_failed r ->
       Xcon.serve demo_int moved (fun _ _ => true) demo_main.1 n2 r
       = (None,
          (Forward.redial demo_int moved (fun _ _ => true) (2 * 1 + 1) destination n2).1,
          (Forward.redial demo_int moved (fun _ _ => true) (2 * 1 + 1) destination n2).2)) /\
    (forall n2 r buf, Xcon.rsock r = (2 * 1)%nat -> Forward.broken_pipe r buf ->
       Xcon.serve demo_int moved (fun _ _ => true) demo_main.1 n2 r
       = (None,
          (Forward.redial demo_int moved (fun _ _ => true) (2 * 1 + 1) destination n2).1,
          Xcon.BSendBroken (2 * 1 + 1) buf
          :: (Forward.redial demo_int moved (fun _ _ => true) (2 * 1 + 1) destination n2).2)) /\
    (forall n2 r buf, Xcon.rsock r = (2 * 1 + 1)%nat -> Forward.broken_pipe r buf ->
       Xcon.serve demo_int moved (fun _ _ => true) demo_main.1 n2 r
       = (None,
          (Forward.redial demo_int moved (fun _ _ => true) (2 * 1) source n2).1,
          Xcon.BSendBroken (2 * 1) buf
          :: (Forward.redial demo_int moved (fun _ _ => true) (2 * 1) source n2).2)) /\
    (forall sock label n2 addr,
       Xcon.hostintf2addr demo_int moved label = Py.Ok addr ->
       Forward.redial demo_int moved (fun _ _ => true) sock label n2
       = (Xcon.try_connect (fun _ _ => true) sock addr n2, [Xcon.BReconnect sock addr])).
Proof.
  intros moved.
  assert (H1 : Xcon.main_p2p demo_int demo_resolve (fun _ _ => false) demo_links
               = Py.Ok (demo_main.1, demo_main.2)) by (vm_compute; reflexivity).
  assert (H2 : demo_links !! 1%nat = Some "r2/2--r3/1"%string) by reflexivity.
  split; [exact H1|]. split; [exact H2|].
  exact (tcpbridge_reconnects demo_int demo_resolve (fun _ _ => false) demo_links
           demo_main.1 demo_main.2 1 "r2/2--r3/1" moved (fun _ _ => true) H1 H2).
Defined.

(** X14.  How __main__ fails on a link, after links that were added.  A link
    whose source router does not resolve ends the program with exit status 1
    (the NoVR that hostintf2addr raises is caught); a link whose text does not
    split in two at "--" raises ValueError, which __main__ does not catch.  In
    both cases no later link is looked at. *)
Theorem main_p2p_failures (py_int : string -> option Z)
    (getaddrinfo : string -> string -> option (string * Z))
    (connect_ok : nat -> string * Z -> bool) (pre post : list string) (p2p : string)
    (b : Xcon.TcpBridge) (n : Xcon.net) :
  Xcon.main_p2p py_int getaddrinfo connect_ok pre = Py.Ok (b, n) ->
  (forall source destination host intf i,
     Xcon.split2 "--" p2p = Py.Ok (source, destination) ->
     Xcon.split2 "/" source = Py.Ok (host, intf) ->
     (exists d, Xcon.split2 "/" destination = Py.Ok d) ->
     py_int intf = Some i ->
     getaddrinfo host ("100" +:+ Py.fmt_02d i) = None ->
     Xcon.main_p2p py_int getaddrinfo connect_ok (pre ++ p2p :: post)
     = Py.Raise (Py.SystemExit 1)) /\
  ((forall x, Xcon.split2 "--" p2p <> Py.Ok x) ->
   exists msg,
     Xcon.main_p2p py_int getaddrinfo connect_ok (pre ++ p2p :: post)
     = Py.Raise (Py.ValueError msg)).
Proof.
  intros Hm. unfold Xcon.main_p2p in *.
  rewrite (main_add_p2ps_app py_int getaddrinfo connect_ok pre (p2p :: post) _ _ b n Hm).
  cbn [Xcon.main_add_p2ps]. unfold Xcon.add_p2p. split.
  - intros source destination host intf i H1 H2 [[dr di] H3] H4 H5.
    rewrite H1. cbn [Py.bind]. rewrite H2, H3. cbn [Py.bind].
    unfold Xcon.hostintf2addr at 1. rewrite H2. cbn [Py.bind]. rewrite H4, H5.
    reflexivity.
  - intros Hx. unfold Xcon.split2 in *.
    destruct (Py.split "--" p2p) as [|a [|c [|? ?]]]; cbn [Py.bind];
      try (eexists; reflexivity).
    exfalso. exact (Hx (a, c) eq_refl).
Qed.

Lemma main_p2p_failures_witness :
  Xcon.main_p2p demo_int demo_resolve_r1 (fun _ _ => false) []
  = Py.Ok (Xcon.TcpBridge_init, Peers.fresh_net) /\
  (forall source destination host intf i,
     Xcon.split2 "--" "r9/1--r1/1" = Py.Ok (source, destination) ->
     Xcon.split2 "/" source = Py.Ok (host, intf) ->
     (exists d, Xcon.split2 "/" destination = Py.Ok d) ->
     demo_int intf = Some i ->
     demo_resolve_r1 host ("100" +:+ Py.fmt_02d i) = None ->
     Xcon.main_p2p demo_int demo_resolve_r1 (fun _ _ => false) ([] ++ "r9/1--r1/1" :: demo_links)
     = Py.Raise (Py.SystemExit 1)) /\
  ((forall x, Xcon.split2 "--" "r9/1--r1/1" <> Py.Ok x) ->
   exists msg,
     Xcon.main_p2p demo_int demo_resolve_r1 (fun _ _ => false) ([] ++ "r9/1--r1/1" :: demo_links)
     = Py.Raise (Py.ValueError msg)).
Proof.
  assert (H1 : Xcon.main_p2p demo_int demo_resolve_r1 (fun _ _ => false) []
               = Py.Ok (Xcon.TcpBridge_init, Peers.fresh_net)) by reflexivity.
  split; [exact H1|].
  exact (main_p2p_failures demo_int demo_resolve_r1 (fun _ _ => false) [] demo_links
           "r9/1--r1/1" Xcon.TcpBridge_init Peers.fresh_net H1).
Defined.

Section MangleUuid.
Import Py Sros Uuid.

Lemma prefix_char_ne (d c : ascii) (s : string) :
  c <> d -> String.prefix (String d "") (String c s) = false.
Proof.
  intros Hc. cbn [String.prefix].
  destruct (ascii_dec d c) as [E|E]; [congruence|reflexivity].
Qed.

Lemma split_go_dash (rest cur : string) :
  split_go "-" (String "-" rest) 0 cur = cur :: split_go "-" rest 0 "".
Proof.
  cbn [split_go String.prefix].
  destruct (ascii_dec "-" "-") as [_|E]; [|congruence].
  rewrite prefix_empty. reflexivity.
Qed.

(** A field without dash is split off whole. *)
Lemma split_go_field (a rest cur : string) :
  dashless a = true ->
  split_go "-" (a +:+ String "-" rest) 0 cur = (cur +:+ a) :: split_go "-" rest 0 "".
Proof.
  revert cur. induction a as [|c a IH]; intros cur Hd.
  - rewrite append_nil_l, string_app_nil_r. apply split_go_dash.
  - cbn [dashless] in Hd. apply andb_prop in Hd as [Hc Ha].
    apply negb_true_iff, Ascii.eqb_neq in Hc.
    rewrite append_cons. cbn [split_go]. rewrite prefix_char_ne by exact Hc.
    rewrite (IH _ Ha), string_app_assoc. reflexivity.
Qed.

Lemma split_go_last_field (a cur : string) :
  dashless a = true -> split_go "-" a 0 cur = [cur +:+ a].
Proof.
  revert cur. induction a as [|c a IH]; intros cur Hd.
  - rewrite string_app_nil_r. reflexivity.
  - cbn [dashless] in Hd. apply andb_prop in Hd as [Hc Ha].
    apply negb_true_iff, Ascii.eqb_neq in Hc.
    cbn [split_go]. rewrite prefix_char_ne by exact Hc.
    rewrite (IH _ Ha), string_app_assoc. reflexivity.
Qed.

Lemma split_join5 (p0 p1 p2 p3 p4 : string) :
  Forall (fun p => dashless p = true) [p0; p1; p2; p3; p4] ->
  split "-" (String.concat "-" [p0; p1; p2; p3; p4]) = [p0; p1; p2; p3; p4].
Proof.
  intros H.
  apply Forall_cons in H as [H0 H]. apply Forall_cons in H as [H1 H].
  apply Forall_cons in H as [H2 H]. apply Forall_cons in H as [H3 H].
  apply Forall_cons in H as [H4 _].
  unfold split. cbn [String.concat]. change ("-" +:+ ?x) with (String "-" x).
  rewrite !append_cons, !append_nil_l.
  rewrite (split_go_field p0 _ "" H0), (split_go_field p1 _ "" H1),
    (split_go_field p2 _ "" H2), (split_go_field p3 _ "" H3), (split_go_last_field p4 "" H4).
  reflexivity.
Qed.

Lemma dashless_app (a b : string) : dashless (a +:+ b) = dashless a && dashless b.
Proof.
  induction a as [|c a IH]; [reflexivity|].
  rewrite append_cons. cbn [dashless]. rewrite IH, andb_assoc. reflexivity.
Qed.

Lemma dashless_rev_pairs (s : string) :
  Nat.Even (String.length s) -> dashless (rev_pairs s) = dashless s.
Proof.
  revert s. apply even_length_ind; [reflexivity|].
  intros a b s _ IH. cbn [rev_pairs]. rewrite dashless_app, IH. cbn [dashless].
  rewrite andb_true_r.
  destruct (dashless s), (negb (Ascii.eqb a "-")), (negb (Ascii.eqb b "-")); reflexivity.
Qed.

Lemma odd_length_ind (P : string -> Prop) :
  (forall a, P (String a "")) ->
  (forall a b s, Nat.Odd (String.length s) -> P s -> P (String a (String b s))) ->
  forall s, Nat.Odd (String.length s) -> P s.
Proof.
  intros H1 H2 s [n Hn]. revert s Hn.
  induction n as [|n IH]; intros s Hn.
  - destruct s as [|a [|b s]]; cbn [String.length] in Hn; try lia. apply H1.
  - destruct s as [|a [|b s]]; cbn [String.length] in Hn; try lia.
    apply H2; [exists n; lia | apply IH; lia].
Qed.

(** A field with a character left over after the pairs: the loop reads past
    the end. *)
Lemma uuid_rev_part_odd_raises (s : string) :
  Nat.Odd (String.length s) -> uuid_rev_part s = Raise IndexError.
Proof.
  revert s. apply odd_length_ind; [reflexivity|].
  intros a b s _ IH. rewrite uuid_rev_part_pair, IH. reflexivity.
Qed.

Lemma uuid_rev_part_cases (s : string) :
  (Nat.Even (String.length s) /\ uuid_rev_part s = Ok (rev_pairs s)) \/
  (~ Nat.Even (String.length s) /\ uuid_rev_part s = Raise IndexError).
Proof.
  destruct (Nat.Even_or_Odd (String.length s)) as [He|Ho].
  - left. split; [exact He|apply uuid_rev_part_even, He].
  - right. split; [|apply uuid_rev_part_odd_raises, Ho].
    intros He. exact (Nat.Even_Odd_False _ He Ho).
Qed.

Lemma mangle_uuid_even (uuid p0 p1 p2 p3 p4 : string) (rest : list string) :
  Py.split "-" uuid = p0 :: p1 :: p2 :: p3 :: p4 :: rest ->
  Uuid.even3 p0 p1 p2 ->
  Sros.mangle_uuid uuid
  = Py.Ok (String.concat "-" [rev_pairs p0; rev_pairs p1; rev_pairs p2; p3; p4]).
Proof.
  unfold Sros.mangle_uuid, Uuid.even3. intros -> (H0 & H1 & H2).
  cbn [Sros.index lookup list_lookup Py.bind].
  rewrite !uuid_rev_part_even by assumption. reflexivity.
Qed.

End MangleUuid.

(** X15.  What mangle_uuid returns, for every text.  When the text has at
    least five dash-separated fields and each of the first three has an even
    number of characters, the result is the first three fields with their
    character pairs in reverse order, then the fourth and the fifth field as
    they are, joined by dashes; fields after the fifth are dropped.  For every
    other text mangle_uuid raises IndexError. *)
Theorem mangle_uuid_cases (uuid : string) :
  (forall p0 p1 p2 p3 p4 rest,
     Py.split "-" uuid = p0 :: p1 :: p2 :: p3 :: p4 :: rest ->
     Uuid.even3 p0 p1 p2 ->
     Sros.mangle_uuid uuid
     = Py.Ok (String.concat "-" [rev_pairs p0; rev_pairs p1; rev_pairs p2; p3; p4])) /\
  ((forall p0 p1 p2 p3 p4 rest,
      Py.split "-" uuid = p0 :: p1 :: p2 :: p3 :: p4 :: rest -> ~ Uuid.even3 p0 p1 p2) ->
   Sros.mangle_uuid uuid = Py.Raise Py.IndexError).
Proof.
  unfold Sros.mangle_uuid, Uuid.even3. split.
  - intros p0 p1 p2 p3 p4 rest -> (H0 & H1 & H2).
    cbn [Sros.index lookup list_lookup Py.bind].
    rewrite !uuid_rev_part_even by assumption. reflexivity.
  - intros H.
    destruct (Py.split "-" uuid) as [|p0 l]; [reflexivity|].
    cbn [Sros.index lookup list_lookup Py.bind].
    destruct (uuid_rev_part_cases p0) as [[E0 ->]|[_ ->]]; [|reflexivity]. cbn [Py.bind].
    destruct l as [|p1 l]; [reflexivity|]. cbn [Sros.index lookup list_lookup Py.bind].
    destruct (uuid_rev_part_cases p1) as [[E1 ->]|[_ ->]]; [|reflexivity]. cbn [Py.bind].
    destruct l as [|p2 l]; [reflexivity|]. cbn [Sros.index lookup list_lookup Py.bind].
    destruct (uuid_rev_part_cases p2) as [[E2 ->]|[_ ->]]; [|reflexivity]. cbn [Py.bind].
    destruct l as [|p3 l]; [reflexivity|]. cbn [Sros.index lookup list_lookup Py.bind].
    destruct l as [|p4 l]; [reflexivity|].
    exfalso. apply (H p0 p1 p2 p3 p4 l eq_refl). repeat split; assumption.
Qed.

(** X16.  mangle_uuid undoes itself on a UUID: for a text of five fields
    without dashes inside, the first three of even length, it returns such a
    text again, and applied to that it returns the original. *)
Theorem mangle_uuid_involution (p0 p1 p2 p3 p4 : string) :
  Forall (fun p => Uuid.dashless p = true) [p0; p1; p2; p3; p4] ->
  Uuid.even3 p0 p1 p2 ->
  exists m,
    Sros.mangle_uuid (String.concat "-" [p0; p1; p2; p3; p4]) = Py.Ok m /\
    String.length m = String.length (String.concat "-" [p0; p1; p2; p3; p4]) /\
    Sros.mangle_uuid m = Py.Ok (String.concat "-" [p0; p1; p2; p3; p4]).
Proof.
  intros Hd (E0 & E1 & E2).
  pose proof (split_join5 p0 p1 p2 p3 p4 Hd) as Hs.
  pose proof (mangle_uuid_even _ p0 p1 p2 p3 p4 [] Hs (conj E0 (conj E1 E2))) as Hm.
  exists (String.concat "-" [rev_pairs p0; rev_pairs p1; rev_pairs p2; p3; p4]).
  split; [exact Hm|]. split.
  - cbn [String.concat]. rewrite !length_append, !rev_pairs_length by assumption. reflexivity.
  - assert (Hd' : Forall (fun p => Uuid.dashless p = true)
                    [rev_pairs p0; rev_pairs p1; rev_pairs p2; p3; p4]).
    { apply Forall_cons in Hd as [H0 Hd]. apply Forall_cons in Hd as [H1 Hd].
      apply Forall_cons in Hd as [H2 Hd].
      do 3 (apply Forall_cons; split; [rewrite dashless_rev_pairs; assumption|]).
      exact Hd. }
    pose proof (split_join5 _ _ _ _ _ Hd') as Hs'.
    rewrite (mangle_uuid_even _ _ _ _ _ _ [] Hs').
    + rewrite !rev_pairs_involutive by assumption. reflexivity.
    + unfold Uuid.even3. rewrite !rev_pairs_length by assumption. repeat split; assumption.
Qed.

Lemma mangle_uuid_involution_witness :
  Forall (fun p => Uuid.dashless p = true) ["00112233"; "4455"; "6677"; "8899"; "aabbccddeeff"] /\
  Uuid.even3 "00112233" "4455" "6677" /\
  exists m,
    Sros.mangle_uuid (String.concat "-" ["00112233"; "4455"; "6677"; "8899"; "aabbccddeeff"])
    = Py.Ok m /\
    String.length m
    = String.length (String.concat "-" ["00112233"; "4455"; "6677"; "8899"; "aabbccddeeff"]) /\
    Sros.mangle_uuid m
    = Py.Ok (String.concat "-" ["00112233"; "4455"; "6677"; "8899"; "aabbccddeeff"]).
Proof.
  assert (H1 : Forall (fun p => Uuid.dashless p = true)
                 ["00112233"; "4455"; "6677"; "8899"; "aabbccddeeff"]).
  { repeat constructor. }
  assert (H2 : Uuid.even3 "00112233" "4455" "6677").
  { repeat split; [exists 4%nat|exists 2%nat|exists 2%nat]; reflexivity. }
  split; [exact H1|]. split; [exact H2|].
  exact (mangle_uuid_involution "00112233" "4455" "6677" "8899" "aabbccddeeff" H1 H2).
Defined.

Example mangle_uuid_six_fields :
  Sros.mangle_uuid "0011-22-3344-55-66-77" = Py.Ok "1100-22-4433-55-66".
Proof. reflexivity. Qed.

Section Starts.
Import Py Vrnetlab Watchdog Started.

Lemma spawns_app (e1 e2 : list event) : spawns (e1 ++ e2) = spawns e1 ++ spawns e2.
Proof.
  induction e1 as [|e e1 IH]; [reflexivity|].
  destruct e; cbn [app spawns]; rewrite IH; reflexivity.
Qed.

Lemma fold_smbios (sm : list string) (args : list string) :
  fold_left (fun a e => a ++ ["-smbios"; e]) sm args
  = args ++ flat_map (fun e => ["-smbios"; e]) sm.
Proof.
  revert args. induction sm as [|e sm IH]; intros args; cbn [fold_left flat_map].
  - rewrite app_nil_r. reflexivity.
  - rewrite IH, <- app_assoc. reflexivity.
Qed.

(** [VM.start]: the arguments the emulator is spawned with are those the
    object held, followed by the block of this start, and the object keeps
    the whole list. *)
Lemma VM_start_block (gm gn : VM -> M (list string)) (v : VM) (w : world) :
  silent (gm v) -> silent (gn v) ->
  trace (VM_start gm gn v w).2
  = trace w ++ [EvSpawn (qemu_args v ++ start_block gm gn v w);
                EvCommunicate 2; EvTelnetOpen (5000 + num v)] /\
  qemu_args (VM_start gm gn v w).1 = qemu_args v ++ start_block gm gn v w /\
  uuid (VM_start gm gn v w).1 = uuid v /\
  fake_start_date (VM_start gm gn v w).1 = fake_start_date v /\
  smbios (VM_start gm gn v w).1 = smbios v /\
  num_nics (VM_start gm gn v w).1 = num_nics v /\
  nic_type (VM_start gm gn v w).1 = nic_type v.
Proof.
  intros Hm Hn. unfold VM_start, start_block.
  rewrite mbind_eq. rewrite (mbind_eq (gn v)).
  set (w1 := (gm v w).2). set (w2 := (gn v w1).2).
  assert (Ht : trace w2 = trace w) by (unfold w2, w1; rewrite Hn, Hm; reflexivity).
  rewrite fold_smbios.
  unfold mbind, emit, ret. cbn [fst snd trace gen set_qemu_args set_handles
    qemu_args uuid fake_start_date smbios num_nics nic_type].
  rewrite Ht, <- !app_assoc. cbn [app].
  destruct (truthy (uuid v)), (truthy (fake_start_date v));
    cbn [app]; rewrite <- ?app_assoc; cbn [app]; repeat split.
Qed.

Lemma sros_start_block (o : Sros.SROS_vm) (w : world) :
  exists e2,
    trace (Sros.start o w).2
    = trace w ++ EvSpawn (qemu_args (Sros.vm o)
                          ++ start_block (Sros.gen_mgmt o) (Sros.gen_nics o) (Sros.vm o) w)
                 :: e2 /\
    spawns e2 = [] /\
    qemu_args (Sros.vm (Sros.start o w).1)
    = qemu_args (Sros.vm o) ++ start_block (Sros.gen_mgmt o) (Sros.gen_nics o) (Sros.vm o) w /\
    uuid (Sros.vm (Sros.start o w).1) = uuid (Sros.vm o) /\
    fake_start_date (Sros.vm (Sros.start o w).1) = fake_start_date (Sros.vm o) /\
    smbios (Sros.vm (Sros.start o w).1) = smbios (Sros.vm o) /\
    num_nics (Sros.vm (Sros.start o w).1) = num_nics (Sros.vm o) /\
    nic_type (Sros.vm (Sros.start o w).1) = nic_type (Sros.vm o) /\
    Sros.class (Sros.start o w).1 = Sros.class o.
Proof.
  unfold Sros.start. rewrite mbind_eq.
  destruct (VM_start_block (Sros.gen_mgmt o) (Sros.gen_nics o) (Sros.vm o) w
              (silent_sros_gen_mgmt o _) (silent_sros_gen_nics o _))
    as (Ht & Ha & Hu & Hd & Hsm & Hnn & Hty).
  destruct (Sros.class o) eqn:Hc; unfold mbind, emit, ret;
    cbn [fst snd trace gen Sros.vm Sros.with_vm Sros.class];
    rewrite Ht, <- ?app_assoc; cbn [app]; eexists; (split; [reflexivity|]);
    (split; [reflexivity|]); repeat split; assumption.
Qed.

End Starts.

Section NicBlocks.
Import Py Vrnetlab Started.

Lemma for_each_nics_length (ty : string) (f : Z -> Z) (idxs : list Z) :
  forall acc w,
    length (for_each idxs (fun j res => append_nic ty (f j) res) acc w).1
    = (length acc + 4 * length idxs)%nat.
Proof.
  induction idxs as [|j idxs IH]; intros acc w.
  - cbn. lia.
  - cbn [for_each]. rewrite mbind_eq, IH, append_nic_fst, length_app. cbn [length Ports.nic_quad].
    lia.
Qed.

Lemma sros_gen_nics_length (o : Sros.SROS_vm) (v : VM) (w : world) :
  length (Sros.gen_nics o v w).1
  = (4 * length (match Sros.class o with
                 | Sros.LineCard _ => range 0 (num_nics v)
                 | _ => range 1 (num_nics v)
                 end))%nat.
Proof.
  unfold Sros.gen_nics.
  destruct (Sros.class o); unfold VM_gen_nics, Sros.SROS_lc_gen_nics.
  - rewrite (for_each_nics_length (nic_type v) (fun j => j)). reflexivity.
  - rewrite (for_each_nics_length (nic_type v) (fun j => j)). reflexivity.
  - rewrite (for_each_nics_length (nic_type v) (fun j => 6 * (slot - 1) + j + 1)). reflexivity.
Qed.

Lemma VM_gen_mgmt_fst (v : VM) (w : world) :
  (VM_gen_mgmt v w).1
  = ["-device"; nic_type v +:+ ",netdev=p" +:+ fmt_02d 0 +:+ ",mac=" +:+ (gen_mac 0 w).1;
     "-netdev";
     "user,id=p" +:+ fmt_02d 0 +:+
     ",net=10.0.0.0/24,tftp=/tftpboot,hostfwd=tcp::2022-10.0.0.15:22,hostfwd=tcp::2830-10.0.0.15:830"].
Proof. unfold VM_gen_mgmt. rewrite mbind_eq. reflexivity. Qed.

(** Every class generates eight management arguments, a [-netdev] among
    them. *)
Lemma sros_gen_mgmt_shape (o : Sros.SROS_vm) (v : VM) (w : world) :
  length (Sros.gen_mgmt o v w).1 = 8%nat /\ In "-netdev" (Sros.gen_mgmt o v w).1.
Proof.
  unfold Sros.gen_mgmt.
  destruct (Sros.class o);
    unfold Sros.SROS_integrated_gen_mgmt, Sros.SROS_cp_gen_mgmt, Sros.SROS_lc_gen_mgmt;
    rewrite ?mbind_eq, ?VM_gen_mgmt_fst; unfold ret; cbn [fst app length In];
    (split; [reflexivity|tauto]).
Qed.

Lemma start_block_shape (o : Sros.SROS_vm) (v : VM) (w : world) :
  length (start_block (Sros.gen_mgmt o) (Sros.gen_nics o) v w)
  = ((if truthy (uuid v) then 2 else 0) + (if truthy (fake_start_date v) then 2 else 0)
     + 2 * length (smbios v) + 8
     + 4 * length (match Sros.class o with
                   | Sros.LineCard _ => range 0 (num_nics v)
                   | _ => range 1 (num_nics v)
                   end))%nat /\
  In "-netdev" (start_block (Sros.gen_mgmt o) (Sros.gen_nics o) v w).
Proof.
  unfold start_block.
  destruct (sros_gen_mgmt_shape o v w) as [Hl Hin]. split.
  - rewrite !length_app, Hl, sros_gen_nics_length.
    assert (Hs : length (flat_map (fun e => ["-smbios"; e]) (smbios v))
                 = (2 * length (smbios v))%nat).
    { induction (smbios v) as [|e sm IH]; [reflexivity|]. cbn [flat_map length app]. lia. }
    rewrite Hs. destruct (truthy (uuid v)), (truthy (fake_start_date v)); cbn [length]; lia.
  - apply in_or_app. right. apply in_or_app. right. apply in_or_app. right.
    apply in_or_app. left. exact Hin.
Qed.

End NicBlocks.

(** X17.  start is not repeatable: every call appends the UUID, start date,
    smbios and NIC arguments to the list the object already holds.  When a VM
    that was started is stopped and started again, the second emulator is
    spawned with the whole command line of the first one followed by a second
    block of as many arguments, each block with its own -netdev arguments. *)
Theorem restart_appends_arguments (o : Sros.SROS_vm) (sa : Vrnetlab.stop_answers)
    (w w1 w2 : Vrnetlab.world) :
  let o1 := (Sros.start o w).1 in
  let o1' := Sros.with_vm o1 (Vrnetlab.VM_stop sa (Sros.vm o1) w1).1 in
  exists b1 b2,
    Started.spawns (Vrnetlab.trace (Sros.start o w).2)
    = Started.spawns (Vrnetlab.trace w) ++ [Vrnetlab.qemu_args (Sros.vm o) ++ b1] /\
    Started.spawns (Vrnetlab.trace (Sros.start o1' w2).2)
    = Started.spawns (Vrnetlab.trace w2) ++ [Vrnetlab.qemu_args (Sros.vm o) ++ b1 ++ b2] /\
    length b2 = length b1 /\
    In "-netdev" b1 /\ In "-netdev" b2.
Proof.
  intros o1 o1'.
  destruct (sros_start_block o w) as (e2 & Ht & Hsp & Ha & Hu & Hd & Hsm & Hnn & Hty & Hc).
  fold o1 in Ha, Hu, Hd, Hsm, Hnn, Hty, Hc.
  destruct (VM_stop_trace sa (Sros.vm o1) w1) as (_ & _ & _ & Hv).
  assert (Hvm : Sros.vm o1' = Vrnetlab.set_running (Sros.vm o1) false).
  { unfold o1'. cbn [Sros.vm Sros.with_vm]. exact Hv. }
  assert (Hc' : Sros.class o1' = Sros.class o) by (unfold o1'; cbn [Sros.class Sros.with_vm]; exact Hc).
  destruct (sros_start_block o1' w2) as (e2' & Ht' & Hsp' & _).
  exists (Started.start_block (Sros.gen_mgmt o) (Sros.gen_nics o) (Sros.vm o) w),
         (Started.start_block (Sros.gen_mgmt o1') (Sros.gen_nics o1') (Sros.vm o1') w2).
  split; [|split; [|split; [|split]]].
  - rewrite Ht, spawns_app. cbn [Started.spawns]. rewrite Hsp. reflexivity.
  - rewrite Ht', spawns_app. cbn [Started.spawns]. rewrite Hsp'.
    rewrite Hvm at 1. cbn [Vrnetlab.qemu_args Vrnetlab.set_running].
    rewrite Ha, <- app_assoc. reflexivity.
  - rewrite (proj1 (start_block_shape o1' _ w2)), (proj1 (start_block_shape o _ w)).
    rewrite Hc', Hvm. cbn [Vrnetlab.uuid Vrnetlab.fake_start_date Vrnetlab.smbios
      Vrnetlab.num_nics Vrnetlab.set_running].
    rewrite Hu, Hd, Hsm, Hnn. reflexivity.
  - apply start_block_shape.
  - apply start_block_shape.
Qed.

Section SrosBuilt.
Import Py Vrnetlab Built Started.

Lemma digits_from_nonempty (fuel : nat) :
  forall base n acc, acc <> "" -> digits_from fuel base n acc <> "".
Proof.
  induction fuel as [|fuel IH]; intros base n acc Ha; [exact Ha|].
  cbn [digits_from]. destruct (n / base =? 0); [discriminate|].
  apply IH. discriminate.
Qed.

Lemma append_nonempty_r (a b : string) : b <> "" -> a +:+ b <> "".
Proof.
  intros Hb. destruct a as [|c a]; [exact Hb|]. rewrite append_cons. discriminate.
Qed.

Lemma fmt_int_nonempty (base : Z) (width : nat) (n : Z) : fmt_int base width n <> "".
Proof.
  unfold fmt_int. apply append_nonempty_r, append_nonempty_r.
  unfold digits. cbn [digits_from].
  destruct (Z.abs n / base =? 0); [discriminate|].
  apply digits_from_nonempty. discriminate.
Qed.

Lemma truthy_Some (s : string) : s <> "" -> truthy (Some s) = true.
Proof.
  intros Hs. unfold truthy. apply negb_true_iff, String.eqb_neq. exact Hs.
Qed.

(** What the constructor of [SROS_vm] leaves in the object when it returns. *)
Lemma SROS_vm_init_fields (params : list string) (kvm : bool)
    (lic : option Sros.license_file) (u pw : option string) (n ram : Z) (v : VM) :
  Sros.SROS_vm_init_with params kvm lic u pw n ram = Ok v ->
  qemu_args v = qemu_args (VM_init kvm u pw (Some "/sros.qcow2") n ram) /\
  nic_type v = "e1000" /\
  num v = n /\
  uuid v = Some (match lic with
                 | Some l => Sros.uuid_input l
                 | None => "00000000-0000-0000-0000-000000000000"
                 end) /\
  fake_start_date v = match lic with Some l => license_date l | None => None end.
Proof.
  unfold Sros.SROS_vm_init_with.
  destruct (bind_kwargs params _) as [[]|e]; [|discriminate]. cbn [bind].
  unfold Sros.read_license. destruct lic as [l|].
  - destruct (Sros.mangle_uuid (Sros.uuid_input l)); [|discriminate].
    intros [= <-]. unfold license_date.
    destruct (Sros.date_match l) as [[g1 day]|]; repeat split.
  - intros [= <-]. repeat split.
Qed.

(** Every VM the constructor of [SROS] makes comes from the constructor of
    [SROS_vm], with the NIC count and smbios entry of its class. *)
Lemma SROS_init_built (params : list string) (kvm : bool) (lic : option Sros.license_file)
    (u pw : option string) (num_nics : Z) (newchassis : bool) (vms : list Sros.SROS_vm) :
  Sros.SROS_init_with params kvm lic u pw num_nics newchassis = Ok vms ->
  Forall (fun o => exists u' pw' n v k sm,
            Sros.SROS_vm_init_with params kvm lic u' pw' n 6144 = Ok v /\
            Sros.vm o = set_nics v k sm) vms.
Proof.
  unfold Sros.SROS_init_with.
  assert (Hlc : forall slots acc res,
            Forall (fun o => exists u' pw' n v k sm,
                      Sros.SROS_vm_init_with params kvm lic u' pw' n 6144 = Ok v /\
                      Sros.vm o = set_nics v k sm) acc ->
            Sros.append_linecards params kvm lic slots newchassis acc = Ok res ->
            Forall (fun o => exists u' pw' n v k sm,
                      Sros.SROS_vm_init_with params kvm lic u' pw' n 6144 = Ok v /\
                      Sros.vm o = set_nics v k sm) res).
  { induction slots as [|i slots IH]; intros acc res Hacc.
    - cbn. intros [= <-]. exact Hacc.
    - cbn [Sros.append_linecards]. unfold Sros.SROS_lc_init.
      destruct (Sros.SROS_vm_init_with params kvm lic None None i 6144) as [v|] eqn:E;
        [|discriminate].
      cbn [bind]. apply IH. apply Forall_app. split; [exact Hacc|].
      constructor; [|constructor].
      eexists None, None, i, v, _, _. split; [exact E|reflexivity]. }
  destruct (num_nics >? 5).
  - destruct lic as [l|]; cbn [negb]; [|discriminate].
    unfold Sros.SROS_cp_init.
    destruct (Sros.SROS_vm_init_with params kvm (Some l) u pw 0 6144) as [v|] eqn:E;
      [|discriminate].
    cbn [bind]. apply Hlc. constructor; [|constructor].
    eexists u, pw, 0, v, _, _. split; [exact E|reflexivity].
  - unfold Sros.SROS_integrated_init.
    destruct (Sros.SROS_vm_init_with params kvm lic u pw 0 6144) as [v|] eqn:E;
      [|discriminate].
    cbn [bind]. intros [= <-]. constructor; [|constructor].
    eexists u, pw, 0, v, _, _. split; [exact E|reflexivity].
Qed.

End SrosBuilt.

(** X18.  What read_license leaves for start.  When read_license accepts a
    license file, the object's uuid is the UUID text exactly as the file has
    it (mangle_uuid only decides whether the file is accepted; what it returns
    is overwritten), and, when the file holds a date, fake_start_date is that
    date with 1 added to the day of the month as a number (the 31st gives day
    32).  start of an object that carries these hands them to the emulator as
    -uuid and -rtc base=. *)
Theorem license_arguments (l : Sros.license_file) (v v' : Vrnetlab.VM)
    (o : Sros.SROS_vm) (k : Z) (sm : list string) :
  Sros.read_license (Some l) v = Py.Ok v' ->
  Sros.vm o = Vrnetlab.set_nics v' k sm ->
  (exists m, Sros.mangle_uuid (Sros.uuid_input l) = Py.Ok m) /\
  Vrnetlab.uuid v' = Some (Sros.uuid_input l) /\
  Vrnetlab.fake_start_date v'
  = match Sros.date_match l with
    | Some (g1, day) => Some (g1 +:+ Py.fmt_02d (day + 1))
    | None => Vrnetlab.fake_start_date v
    end /\
  forall w, exists args,
    Started.spawns (Vrnetlab.trace (Sros.start o w).2)
    = Started.spawns (Vrnetlab.trace w) ++ [args] /\
    has_pair "-uuid" (Sros.uuid_input l) args /\
    (forall g1 day, Sros.date_match l = Some (g1, day) ->
       has_pair "-rtc" ("base=" +:+ g1 +:+ Py.fmt_02d (day + 1)) args).
Proof.
  intros Hr Hvm. unfold Sros.read_license in Hr.
  destruct (Sros.mangle_uuid (Sros.uuid_input l)) as [m|e] eqn:Em; [|discriminate].
  injection Hr as <-.
  assert (Hne : Sros.uuid_input l <> "").
  { intros E. rewrite E in Em. vm_compute in Em. discriminate Em. }
  split; [exists m; reflexivity|]. split; [reflexivity|].
  split; [cbn [Vrnetlab.fake_start_date Vrnetlab.set_license];
          destruct (Sros.date_match l) as [[g1 day]|]; reflexivity|].
  intros w. destruct (sros_start_block o w) as (e2 & Ht & Hsp & _).
  eexists. split; [rewrite Ht, spawns_app; cbn [Started.spawns]; rewrite Hsp; reflexivity|].
  unfold Started.start_block. rewrite Hvm.
  cbn [Vrnetlab.uuid Vrnetlab.fake_start_date Vrnetlab.set_nics Vrnetlab.set_license].
  rewrite (truthy_Some _ Hne). cbn [Py.fmt_s].
  set (q := Vrnetlab.qemu_args _).
  split.
  - exists q. eexists. reflexivity.
  - intros g1 day Hdm. rewrite Hdm.
    rewrite truthy_Some by (apply append_nonempty_r, fmt_int_nonempty). cbn [Py.fmt_s].
    exists (q ++ ["-uuid"; Sros.uuid_input l]). eexists.
    rewrite <- !app_assoc. reflexivity.
Qed.

Lemma license_arguments_witness :
  let v := Vrnetlab.VM_init false (Some "vrnetlab"%string) (Some "VR-netlab9"%string)
             (Some "/sros.qcow2"%string) 0 6144 in
  let v' := Vrnetlab.set_license v (Some (Sros.uuid_input demo_license))
              (Some "2016-01-32"%string) in
  let o := Sros.SROS_integrated_body v' false in
  Sros.read_license (Some demo_license) v = Py.Ok v' /\
  Sros.vm o = Vrnetlab.set_nics v' 5 (Vrnetlab.smbios (Sros.vm o)) /\
  (exists m, Sros.mangle_uuid (Sros.uuid_input demo_license) = Py.Ok m) /\
  Vrnetlab.uuid v' = Some (Sros.uuid_input demo_license) /\
  Vrnetlab.fake_start_date v'
  = match Sros.date_match demo_license with
    | Some (g1, day) => Some (g1 +:+ Py.fmt_02d (day + 1))
    | None => Vrnetlab.fake_start_date v
    end /\
  forall w, exists args,
    Started.spawns (Vrnetlab.trace (Sros.start o w).2)
    = Started.spawns (Vrnetlab.trace w) ++ [args] /\
    has_pair "-uuid" (Sros.uuid_input demo_license) args /\
    (forall g1 day, Sros.date_match demo_license = Some (g1, day) ->
       has_pair "-rtc" ("base=" +:+ g1 +:+ Py.fmt_02d (day + 1)) args).
Proof.
  intros v v' o.
  assert (H1 : Sros.read_license (Some demo_license) v = Py.Ok v') by (vm_compute; reflexivity).
  assert (H2 : Sros.vm o = Vrnetlab.set_nics v' 5 (Vrnetlab.smbios (Sros.vm o)))
    by reflexivity.
  split; [exact H1|]. split; [exact H2|].
  exact (license_arguments demo_license v v' o 5 (Vrnetlab.smbios (Sros.vm o)) H1 H2).
Defined.

Example license_day_32 :
  Started.license_date demo_license = Some "2016-01-32".
Proof. reflexivity. Qed.

Section SrosPorts.
Import Py Vrnetlab Built Ports.

Lemma range_snoc (lo hi : Z) : lo <= hi -> range lo (hi + 1) = range lo hi ++ [hi].
Proof.
  intros H. unfold range.
  replace (Z.to_nat (hi + 1 - lo)) with (S (Z.to_nat (hi - lo))) by lia.
  rewrite seq_S, map_app. cbn [map Nat.add]. f_equal. f_equal. lia.
Qed.

Lemma range_app (a b c : Z) : a <= b <= c -> range a b ++ range b c = range a c.
Proof.
  intros H. unfold range.
  replace (Z.to_nat (c - a)) with (Z.to_nat (b - a) + Z.to_nat (c - b))%nat by lia.
  rewrite seq_app, map_app. f_equal. cbn [Nat.add].
  rewrite <- (Nat.add_0_r (Z.to_nat (b - a))) at 1.
  rewrite <- fmap_add_seq. rewrite <- list_fmap_compose.
  apply map_ext. intros k. unfold compose. lia.
Qed.

(** The NIC ranges of the slots 1 .. k, one after the other, are 1 .. 6k. *)
Lemma slot_ranges (k : nat) :
  concat (map (fun s => range (6 * (s - 1) + 1) (6 * s + 1)) (range 1 (Z.of_nat k + 1)))
  = range 1 (6 * Z.of_nat k + 1).
Proof.
  induction k as [|k IH]; [reflexivity|].
  replace (Z.of_nat (S k) + 1) with ((Z.of_nat k + 1) + 1) by lia.
  rewrite range_snoc by lia. rewrite map_app, concat_app, IH. cbn [map concat].
  rewrite app_nil_r.
  replace (6 * (Z.of_nat k + 1 - 1) + 1) with (6 * Z.of_nat k + 1) by lia.
  replace (6 * Z.of_nat (S k) + 1) with (6 * (Z.of_nat k + 1) + 1) by lia.
  apply range_app. lia.
Qed.

Lemma append_linecards_each (params : list string) (kvm : bool)
    (lic : option Sros.license_file) (newchassis : bool) (slots : list Z) :
  accepts_cpus params -> license_parses lic ->
  forall vms, exists lcs,
    Sros.append_linecards params kvm lic slots newchassis vms = Ok (vms ++ lcs) /\
    Forall2 (fun s lc => exists v,
               Sros.SROS_vm_init_with params kvm lic None None s 6144 = Ok v /\
               lc = Sros.SROS_lc_body v s newchassis) slots lcs.
Proof.
  intros Hp Hl. induction slots as [|i slots IH]; intros vms.
  - exists []. rewrite app_nil_r. split; [reflexivity|constructor].
  - cbn [Sros.append_linecards]. unfold Sros.SROS_lc_init.
    destruct (SROS_vm_init_returns params kvm lic None None i 6144 Hp Hl) as [v Hv].
    rewrite Hv. cbn [bind].
    destruct (IH (vms ++ [Sros.SROS_lc_body v i newchassis])) as (lcs & -> & HF).
    exists (Sros.SROS_lc_body v i newchassis :: lcs).
    rewrite <- app_assoc. split; [reflexivity|].
    constructor; [exists v; split; [exact Hv|reflexivity]|exact HF].
Qed.

End SrosPorts.


(** X20.  An integrated SR-OS VM has four traffic NICs.  The attributes
    SROS_integrated.__init__ assigns after its base constructor fix num_nics
    at 5, whatever --num-nics of at most 5 was asked for, and gen_nics, whose
    range starts at index 1, produces the NICs 1 .. 4, on the ports
    10001 .. 10004. *)
Theorem integrated_four_nics (v : Vrnetlab.VM) (newchassis : bool) (w : Vrnetlab.world) :
  let o := Sros.SROS_integrated_body v newchassis in
  Vrnetlab.num_nics (Sros.vm o) = 5 /\
  Ports.nics_are (Vrnetlab.nic_type v) [1; 2; 3; 4] (Sros.gen_nics o (Sros.vm o) w).1.
Proof.
  cbn zeta. split; [reflexivity|].
  pose proof (VM_gen_nics_ports
                (Sros.vm (Sros.SROS_integrated_body v newchassis)) w) as H.
  cbn [Sros.vm Sros.SROS_integrated_body Vrnetlab.num_nics Vrnetlab.nic_type
       Vrnetlab.set_nics] in H.
  specialize (H ltac:(lia)).
  change (Py.range 1 5) with [1; 2; 3; 4] in H.
  exact H.
Qed.

Section Working.
Import Py Vrnetlab Watchdog Started Boot.

Lemma spawns_VM_stop (sa : stop_answers) (v : VM) (w : world) :
  spawns (trace (VM_stop sa v w).2) = spawns (trace w) /\
  (VM_stop sa v w).1 = set_running v false.
Proof.
  unfold VM_stop, mbind, emit, ret.
  destruct (terminate_lookup_error sa); [|destruct (communicate_timeout sa)];
    cbn [fst snd trace gen]; rewrite ?spawns_app; cbn [spawns]; rewrite ?app_nil_r;
    split; reflexivity.
Qed.

(** [start]: one emulator more, a process handle, and the bootstrap state as
    it was. *)
Lemma sros_start_state (o : Sros.SROS_vm) (w : world) :
  exists args,
    spawns (trace (Sros.start o w).2) = spawns (trace w) ++ [args] /\
    p (Sros.vm (Sros.start o w).1) <> None /\
    spins (Sros.vm (Sros.start o w).1) = spins (Sros.vm o) /\
    running (Sros.vm (Sros.start o w).1) = running (Sros.vm o) /\
    Sros.class (Sros.start o w).1 = Sros.class o.
Proof.
  destruct (sros_start_block o w) as (e2 & Ht & Hsp & _ & _ & _ & _ & _ & _ & Hc).
  destruct (sros_start_trace o w) as (_ & _ & _ & Hs & Hr & _ & _).
  eexists. split; [rewrite Ht, spawns_app; cbn [spawns]; rewrite Hsp; reflexivity|].
  split; [|split; [exact Hs|split; [exact Hr|exact Hc]]].
  unfold Sros.start, VM_start. rewrite !mbind_eq.
  destruct (Sros.class o); unfold mbind, emit, ret;
    cbn [fst snd Sros.vm Sros.with_vm p set_handles]; discriminate.
Qed.

(** With a live emulator [check_qemu] is one poll. *)
Lemma check_qemu_alive (a : Sros.work_answers) (o : Sros.SROS_vm) (w : world) :
  Sros.comm a = Sros.StillRunning -> p (Sros.vm o) <> None ->
  Sros.check_qemu (Sros.comm a) (Sros.stop_check a) o w
  = (o, {| trace := trace w ++ [EvCommunicate 1]; gen := gen w |}).
Proof.
  intros Hc Hp. unfold Sros.check_qemu. rewrite Hc.
  destruct (p (Sros.vm o)) as [k|]; [reflexivity|congruence].
Qed.

Lemma work_alive (a : Sros.work_answers) (o : Sros.SROS_vm) (w : world) :
  Sros.comm a = Sros.StillRunning -> p (Sros.vm o) <> None ->
  Sros.work a o w
  = (if negb (running (Sros.vm o))
     then Sros.bootstrap_spin Sros.bootstrap_config (Sros.stop_spin a) (Sros.console a) o
     else ret o)
      {| trace := trace w ++ [EvCommunicate 1]; gen := gen w |}.
Proof.
  intros Hc Hp. unfold Sros.work. rewrite mbind_eq, (check_qemu_alive a o w Hc Hp).
  reflexivity.
Qed.

Lemma spin_not_linecard (sa : stop_answers) (ex : expect_result) (o : Sros.SROS_vm) :
  (forall slot, Sros.class o <> Sros.LineCard slot) ->
  Sros.bootstrap_spin Sros.bootstrap_config sa ex o
  = Sros.SROS_vm_bootstrap_spin Sros.bootstrap_config sa ex o.
Proof.
  intros Hcl. unfold Sros.bootstrap_spin. destruct (Sros.class o) eqn:Ec; try reflexivity.
  exfalso. exact (Hcl slot eq_refl).
Qed.

(** A call of [work] with a live emulator and a silent console, below the
    threshold: one poll, one [expect], one spin more. *)
Lemma work_quiet_spin (a : Sros.work_answers) (o : Sros.SROS_vm) (w : world) :
  quiet a -> (forall slot, Sros.class o <> Sros.LineCard slot) ->
  running (Sros.vm o) = false -> p (Sros.vm o) <> None -> spins (Sros.vm o) <= 60 ->
  Sros.work a o w
  = (Sros.with_vm o (set_spins (Sros.vm o) (spins (Sros.vm o) + 1)),
     {| trace := trace w ++ [EvCommunicate 1; EvTelnetExpect 1]; gen := gen w |}).
Proof.
  intros (Hc & Hm & Hr) Hcl Hrun Hp Hs.
  rewrite (work_alive a o w Hc Hp), Hrun. cbn [negb].
  rewrite (spin_not_linecard _ _ o Hcl). unfold Sros.SROS_vm_bootstrap_spin.
  assert (E : (spins (Sros.vm o) >? 60) = false) by lia. rewrite E.
  unfold mbind, emit, ret. cbn [fst snd trace gen]. rewrite Hm, Hr, <- app_assoc. reflexivity.
Qed.

(** The same call above the threshold: the VM is stopped and started again,
    and the counter starts over. *)
Lemma work_quiet_restart (a : Sros.work_answers) (o : Sros.SROS_vm) (w : world) :
  quiet a -> (forall slot, Sros.class o <> Sros.LineCard slot) ->
  running (Sros.vm o) = false -> p (Sros.vm o) <> None -> 60 < spins (Sros.vm o) ->
  exists args,
    spawns (trace (Sros.work a o w).2) = spawns (trace w) ++ [args] /\
    p (Sros.vm (Sros.work a o w).1) <> None /\
    spins (Sros.vm (Sros.work a o w).1) = 0 /\
    running (Sros.vm (Sros.work a o w).1) = false /\
    Sros.class (Sros.work a o w).1 = Sros.class o.
Proof.
  intros (Hc & Hm & Hr) Hcl Hrun Hp Hs.
  rewrite (work_alive a o w Hc Hp), Hrun. cbn [negb].
  set (w1 := {| trace := trace w ++ [EvCommunicate 1]; gen := gen w |}).
  assert (Hw1 : spawns (trace w1) = spawns (trace w)).
  { unfold w1. cbn [trace]. rewrite spawns_app. cbn [spawns]. rewrite app_nil_r. reflexivity. }
  rewrite (spin_not_linecard _ _ o Hcl). unfold Sros.SROS_vm_bootstrap_spin.
  assert (E60 : (spins (Sros.vm o) >? 60) = true) by lia. rewrite E60.
  rewrite mbind_eq.
  destruct (spawns_VM_stop (Sros.stop_spin a) (Sros.vm o) w1) as [Hst Hv].
  rewrite Hv. set (w2 := (VM_stop (Sros.stop_spin a) (Sros.vm o) w1).2) in *.
  rewrite mbind_eq.
  destruct (sros_start_state (Sros.with_vm o (set_running (Sros.vm o) false)) w2)
    as (args & Hsp & Hp' & _ & Hr' & Hc').
  unfold ret. cbn [fst snd Sros.vm Sros.with_vm Sros.class spins running p set_spins].
  exists args. rewrite Hsp, Hst, Hw1.
  split; [reflexivity|]. split; [exact Hp'|]. split; [reflexivity|].
  split; [exact Hr'|exact Hc'].
Qed.

End Working.

(** X21.  The watchdog of an SR-OS VM runs on a cycle of 62 calls of work.
    While the emulator stays alive and the console stays silent, an
    integrated or control-plane VM that has been started counts one spin per
    call, up to 61, and is stopped and started again by the call after that:
    after n calls the emulator has been restarted n div 62 times, the spin
    counter is n mod 62, and the VM is still not running. *)
Theorem watchdog_period (ans : nat -> Sros.work_answers) (n : nat) (o : Sros.SROS_vm)
    (w : Vrnetlab.world) :
  (forall k, Boot.quiet (ans k)) ->
  (forall slot, Sros.class o <> Sros.LineCard slot) ->
  Vrnetlab.running (Sros.vm o) = false ->
  Vrnetlab.p (Sros.vm o) <> None ->
  Vrnetlab.spins (Sros.vm o) = 0 ->
  Vrnetlab.spins (Sros.vm (Boot.works ans n o w).1) = Z.of_nat n mod 62 /\
  Vrnetlab.running (Sros.vm (Boot.works ans n o w).1) = false /\
  exists restarts,
    Started.spawns (Vrnetlab.trace (Boot.works ans n o w).2)
    = Started.spawns (Vrnetlab.trace w) ++ restarts /\
    Z.of_nat (length restarts) = Z.of_nat n / 62.
Proof.
  intros Hq Hcl Hrun Hp Hs.
  assert (H : Vrnetlab.spins (Sros.vm (Boot.works ans n o w).1) = Z.of_nat n mod 62 /\
              Vrnetlab.running (Sros.vm (Boot.works ans n o w).1) = false /\
              Vrnetlab.p (Sros.vm (Boot.works ans n o w).1) <> None /\
              Sros.class (Boot.works ans n o w).1 = Sros.class o /\
              exists restarts,
                Started.spawns (Vrnetlab.trace (Boot.works ans n o w).2)
                = Started.spawns (Vrnetlab.trace w) ++ restarts /\
                Z.of_nat (length restarts) = Z.of_nat n / 62).
  { induction n as [|n (IHs & IHr & IHp & IHc & L & IHt & IHl)].
    - cbn [Boot.works]. unfold Vrnetlab.ret. cbn [fst snd].
      split; [exact Hs|]. split; [exact Hrun|]. split; [exact Hp|]. split; [reflexivity|].
      exists []. rewrite app_nil_r. split; reflexivity.
    - cbn [Boot.works]. rewrite mbind_eq.
      set (o1 := (Boot.works ans n o w).1) in *. set (w1 := (Boot.works ans n o w).2) in *.
      assert (Hcl1 : forall slot, Sros.class o1 <> Sros.LineCard slot)
        by (intros slot; rewrite IHc; apply Hcl).
      assert (Hm : 0 <= Z.of_nat n mod 62 < 62) by (apply Z.mod_pos_bound; lia).
      destruct (Z_le_gt_dec (Vrnetlab.spins (Sros.vm o1)) 60) as [Hle|Hgt].
      + rewrite (work_quiet_spin (ans n) o1 w1 (Hq n) Hcl1 IHr IHp Hle).
        cbn [fst snd Sros.vm Sros.with_vm Sros.class Vrnetlab.spins Vrnetlab.running
             Vrnetlab.p Vrnetlab.set_spins Vrnetlab.trace].
        split; [rewrite IHs in Hle |- *; rewrite Nat2Z.inj_succ; Z.div_mod_to_equations; lia|].
        split; [exact IHr|]. split; [exact IHp|]. split; [exact IHc|].
        exists L. rewrite spawns_app. cbn [Started.spawns]. rewrite app_nil_r.
        split; [exact IHt|].
        rewrite IHl. rewrite IHs in Hle. rewrite Nat2Z.inj_succ.
        Z.div_mod_to_equations; lia.
      + destruct (work_quiet_restart (ans n) o1 w1 (Hq n) Hcl1 IHr IHp ltac:(lia))
          as (args & Hsp & Hp' & Hs' & Hr' & Hc').
        split; [rewrite Hs'; rewrite IHs in Hgt; rewrite Nat2Z.inj_succ;
                Z.div_mod_to_equations; lia|].
        split; [exact Hr'|]. split; [exact Hp'|]. split; [rewrite Hc'; exact IHc|].
        exists (L ++ [args]). rewrite Hsp, IHt, <- app_assoc.
        split; [reflexivity|].
        rewrite length_app. cbn [length]. rewrite IHs in Hgt.
        rewrite Nat2Z.inj_add, IHl, Nat2Z.inj_succ. cbn [Z.of_nat].
        Z.div_mod_to_equations; lia. }
  destruct H as (H1 & H2 & _ & _ & H5). split; [exact H1|]. split; [exact H2|exact H5].
Qed.

Lemma watchdog_period_witness :
  (forall k : nat, Boot.quiet ((fun _ => Boot.quiet_answers) k)) /\
  (forall slot, Sros.class Boot.booting <> Sros.LineCard slot) /\
  Vrnetlab.running (Sros.vm Boot.booting) = false /\
  Vrnetlab.p (Sros.vm Boot.booting) <> None /\
  Vrnetlab.spins (Sros.vm Boot.booting) = 0 /\
  Vrnetlab.spins (Sros.vm (Boot.works (fun _ => Boot.quiet_answers) 130 Boot.booting
                             quiet_world).1) = Z.of_nat 130 mod 62 /\
  Vrnetlab.running (Sros.vm (Boot.works (fun _ => Boot.quiet_answers) 130 Boot.booting
                               quiet_world).1) = false /\
  exists restarts,
    Started.spawns (Vrnetlab.trace (Boot.works (fun _ => Boot.quiet_answers) 130 Boot.booting
                                      quiet_world).2)
    = Started.spawns (Vrnetlab.trace quiet_world) ++ restarts /\
    Z.of_nat (length restarts) = Z.of_nat 130 / 62.
Proof.
  assert (H1 : forall k : nat, Boot.quiet ((fun _ => Boot.quiet_answers) k)).
  { intros k. repeat split. }
  assert (H2 : forall slot, Sros.class Boot.booting <> Sros.LineCard slot)
    by (intros slot; discriminate).
  assert (H3 : Vrnetlab.running (Sros.vm Boot.booting) = false) by reflexivity.
  assert (H4 : Vrnetlab.p (Sros.vm Boot.booting) <> None) by discriminate.
  assert (H5 : Vrnetlab.spins (Sros.vm Boot.booting) = 0) by reflexivity.
  split; [exact H1|]. split; [exact H2|]. split; [exact H3|]. split; [exact H4|].
  split; [exact H5|].
  exact (watchdog_period (fun _ => Boot.quiet_answers) 130 Boot.booting quiet_world
           H1 H2 H3 H4 H5).
Defined.

Section Extends.
Import Py Vrnetlab Watchdog Started Boot.

Lemma extends_ret {A} (a : A) : extends (ret a).
Proof. intros w. exists []. rewrite app_nil_r. reflexivity. Qed.

Lemma extends_emit (e : event) : extends (emit e).
Proof. intros w. exists [e]. reflexivity. Qed.

Lemma extends_bind {A B} (m : M A) (k : A -> M B) :
  extends m -> (forall a, extends (k a)) -> extends (mbind m k).
Proof.
  intros Hm Hk w. rewrite mbind_eq.
  destruct (Hm w) as [e1 H1]. destruct (Hk (m w).1 (m w).2) as [e2 H2].
  exists (e1 ++ e2). rewrite H2, H1, app_assoc. reflexivity.
Qed.

Lemma extends_silent {A} (m : M A) : silent m -> extends m.
Proof. intros H w. exists []. rewrite H, app_nil_r. reflexivity. Qed.

Lemma extends_for_each {A S} (xs : list A) (body : A -> S -> M S) :
  (forall x s, extends (body x s)) -> forall s, extends (for_each xs body s).
Proof.
  intros Hb. induction xs as [|x xs IH]; intros s; cbn [for_each].
  - apply extends_ret.
  - apply extends_bind; [apply Hb|]. intros s'. apply IH.
Qed.

Lemma extends_wait_write (cmd : string) (wait : option string) : extends (wait_write cmd wait).
Proof.
  unfold wait_write. apply extends_bind; [|intros _; apply extends_emit].
  destruct (truthy wait); [apply extends_emit|apply extends_ret].
Qed.

Lemma extends_VM_stop (sa : stop_answers) (v : VM) : extends (VM_stop sa v).
Proof. intros w. destruct (VM_stop_trace sa v w) as (e1 & H & _). eexists. exact H. Qed.

Lemma extends_start (o : Sros.SROS_vm) : extends (Sros.start o).
Proof. intros w. destruct (sros_start_block o w) as (e2 & H & _). eexists. exact H. Qed.

Ltac extends_step :=
  lazymatch goal with
  | |- extends (ret _) => apply extends_ret
  | |- extends (emit _) => apply extends_emit
  | |- extends (wait_write _ _) => apply extends_wait_write
  | |- extends (VM_stop _ _) => apply extends_VM_stop
  | |- extends (Sros.start _) => apply extends_start
  | |- extends (mbind _ _) => apply extends_bind; [|intros ?]
  | |- extends (for_each _ _ _) => apply extends_for_each; intros ? ?
  | |- extends (if ?b then _ else _) => destruct b
  | |- extends (match ?x with [] => _ | _ :: _ => _ end) => destruct x
  end.

Lemma extends_bootstrap_config (o : Sros.SROS_vm) : extends (Sros.bootstrap_config o).
Proof.
  unfold Sros.bootstrap_config.
  destruct (Sros.class o);
    unfold Sros.SROS_integrated_bootstrap_config, Sros.SROS_cp_bootstrap_config;
    repeat extends_step.
Qed.

Lemma extends_bootstrap_spin (sa : stop_answers) (ex : expect_result) (o : Sros.SROS_vm) :
  extends (Sros.bootstrap_spin Sros.bootstrap_config sa ex o).
Proof.
  unfold Sros.bootstrap_spin.
  destruct (Sros.class o);
    unfold Sros.SROS_vm_bootstrap_spin, Sros.SROS_lc_bootstrap_spin;
    repeat (extends_step || apply extends_bootstrap_config).
Qed.

End Extends.

Section WorkStates.
Import Py Vrnetlab Watchdog Started Boot.

Lemma work_up (a : Sros.work_answers) (o : Sros.SROS_vm) (w : world) :
  up o -> Sros.comm a = Sros.StillRunning ->
  Sros.work a o w = (o, {| trace := trace w ++ [EvCommunicate 1]; gen := gen w |}).
Proof.
  intros [Hr Hp] Hc. rewrite (work_alive a o w Hc Hp), Hr. reflexivity.
Qed.

(** A pass over VMs that are up: one poll each, every flag true. *)
Lemma work_each_up (ans : nat -> Sros.work_answers) (vms : list Sros.SROS_vm) :
  Forall up vms -> (forall k, Sros.comm (ans k) = Sros.StillRunning) ->
  forall k w,
    Sros.work_each ans k vms w
    = ((vms, map (fun _ => true) vms),
       {| trace := trace w ++ repeat (EvCommunicate 1) (length vms); gen := gen w |}).
Proof.
  intros Hup Hal. induction vms as [|o vms IH]; intros k w.
  - cbn. unfold ret. rewrite app_nil_r. destruct w; reflexivity.
  - apply Forall_cons in Hup as [Ho Hup]. cbn [Sros.work_each].
    rewrite mbind_eq, (work_up (ans k) o w Ho (Hal k)). cbn [fst snd].
    rewrite mbind_eq, (IH Hup). unfold ret. cbn [fst snd trace gen map length repeat].
    rewrite (proj1 Ho), <- app_assoc. reflexivity.
Qed.

Lemma all_upb_true (vms : list Sros.SROS_vm) :
  Health.all_upb (map (fun _ => true) vms) = true.
Proof. induction vms as [|o vms IH]; [reflexivity|exact IH]. Qed.

Lemma VR_pass_up (ans : nat -> Sros.work_answers) (vms : list Sros.SROS_vm)
    (started : bool) (w : world) :
  Forall up vms -> (forall k, Sros.comm (ans k) = Sros.StillRunning) ->
  Sros.VR_pass ans vms started w
  = ((vms, true), {| trace := trace w ++ steady_pass (length vms); gen := gen w |}).
Proof.
  intros Hup Hal. unfold Sros.VR_pass.
  rewrite mbind_eq, (work_each_up ans vms Hup Hal). cbn [fst snd].
  rewrite mbind_eq, supervision_pass_writes, all_upb_true, orb_true_r.
  unfold ret, steady_pass. cbn [fst snd trace gen]. rewrite <- app_assoc. reflexivity.
Qed.

Lemma bind_extends_r {A B} (m : M A) (k : A -> M B) (w : world) :
  (forall a, extends (k a)) ->
  exists e, trace (mbind m k w).2 = trace (m w).2 ++ e.
Proof. intros Hk. rewrite mbind_eq. apply Hk. Qed.

(** What [work] adds after [check_qemu] comes after it in the trace. *)
Lemma work_after_check (a : Sros.work_answers) (o : Sros.SROS_vm) (w : world) :
  exists e,
    trace (Sros.work a o w).2
    = trace (Sros.check_qemu (Sros.comm a) (Sros.stop_check a) o w).2 ++ e.
Proof.
  unfold Sros.work. apply bind_extends_r. intros o'.
  destruct (negb _); [apply extends_bootstrap_spin|apply extends_ret].
Qed.

Lemma extends_check_tail (ca : Sros.communicate_answer) (sa : stop_answers)
    (o : Sros.SROS_vm) :
  extends (emit (EvCommunicate 1) ;;;
           match ca with
           | Sros.StillRunning => ret o
           | Sros.Ended errs =>
               if Sros.errs_differ errs
               then v <- VM_stop sa (Sros.vm o) ;; Sros.start (Sros.with_vm o v)
               else ret o
           end).
Proof.
  apply extends_bind; [apply extends_emit|]. intros _.
  destruct ca as [|errs]; [apply extends_ret|].
  destruct (Sros.errs_differ errs); [|apply extends_ret].
  apply extends_bind; [apply extends_VM_stop|]. intros v. apply extends_start.
Qed.

Lemma check_qemu_unstarted (ca : Sros.communicate_answer) (sa : stop_answers)
    (o : Sros.SROS_vm) (w : world) :
  p (Sros.vm o) = None ->
  exists args e, trace (Sros.check_qemu ca sa o w).2 = trace w ++ EvSpawn args :: e.
Proof.
  intros Hp. unfold Sros.check_qemu. rewrite Hp.
  destruct (bind_extends_r (Sros.start o)
              (fun o0 => emit (EvCommunicate 1) ;;;
                 match ca with
                 | Sros.StillRunning => ret o0
                 | Sros.Ended errs =>
                     if Sros.errs_differ errs
                     then v <- VM_stop sa (Sros.vm o0) ;; Sros.start (Sros.with_vm o0 v)
                     else ret o0
                 end) w (extends_check_tail ca sa)) as [e He].
  rewrite He. destruct (sros_start_block o w) as (e2 & Ht & _). rewrite Ht.
  eexists _, _. rewrite <- app_assoc. cbn [app]. reflexivity.
Qed.

Lemma check_qemu_ended (errs : option string) (sa : stop_answers)
    (o : Sros.SROS_vm) (w : world) :
  p (Sros.vm o) <> None -> errs <> Some "" ->
  exists e1 args e2,
    trace (Sros.check_qemu (Sros.Ended errs) sa o w).2
    = trace w ++ EvCommunicate 1 :: EvTerminate :: e1 ++ EvSpawn args :: e2 /\
    forall args', EvSpawn args' ∉ e1.
Proof.
  intros Hp Herr. unfold Sros.check_qemu.
  assert (Hd : Sros.errs_differ errs = true).
  { destruct errs as [s|]; [|reflexivity]. cbn. apply negb_true_iff, String.eqb_neq.
    congruence. }
  rewrite Hd. destruct (p (Sros.vm o)) as [k|]; [|congruence].
  rewrite !mbind_eq. unfold emit. change (ret o w) with (o, w). cbn [fst snd].
  set (w1 := {| trace := trace w ++ [EvCommunicate 1]; gen := gen w |}).
  destruct (VM_stop_trace sa (Sros.vm o) w1) as (e1 & Ht1 & Hno & Hv).
  destruct (sros_start_block (Sros.with_vm o (VM_stop sa (Sros.vm o) w1).1)
              (VM_stop sa (Sros.vm o) w1).2) as (e2 & Ht2 & _).
  rewrite Ht2, Ht1. unfold w1. cbn [trace].
  exists e1. eexists _, _. split; [|exact Hno].
  rewrite <- !app_assoc. cbn [app]. reflexivity.
Qed.

End WorkStates.

(** X22.  What one call of work does, by the state it finds.  A VM that is
    running and whose emulator is alive is only polled: one communicate with a
    timeout of one second, nothing on the console, no attribute changed.  A VM
    without a process is started before anything else.  A VM whose emulator
    has ended is stopped and started again in the same call, unless the error
    output handed back is the empty string. *)
Theorem work_by_state (a : Sros.work_answers) (o : Sros.SROS_vm) (w : Vrnetlab.world) :
  (Boot.up o -> Sros.comm a = Sros.StillRunning ->
   Sros.work a o w
   = (o, {| Vrnetlab.trace := Vrnetlab.trace w ++ [Vrnetlab.EvCommunicate 1];
            Vrnetlab.gen := Vrnetlab.gen w |})) /\
  (Vrnetlab.p (Sros.vm o) = None ->
   exists args e,
     Vrnetlab.trace (Sros.work a o w).2
     = Vrnetlab.trace w ++ Vrnetlab.EvSpawn args :: e) /\
  (Vrnetlab.p (Sros.vm o) <> None ->
   forall errs, Sros.comm a = Sros.Ended errs -> errs <> Some "" ->
   exists e1 args e2,
     Vrnetlab.trace (Sros.work a o w).2
     = Vrnetlab.trace w
       ++ Vrnetlab.EvCommunicate 1 :: Vrnetlab.EvTerminate :: e1
       ++ Vrnetlab.EvSpawn args :: e2 /\
     forall args', Vrnetlab.EvSpawn args' ∉ e1).
Proof.
  split; [|split].
  - apply work_up.
  - intros Hp. destruct (work_after_check a o w) as [e He]. rewrite He.
    destruct (check_qemu_unstarted (Sros.comm a) (Sros.stop_check a) o w Hp)
      as (args & e' & ->).
    exists args, (e' ++ e). rewrite <- app_assoc. reflexivity.
  - intros Hp errs Hc Herr. destruct (work_after_check a o w) as [e He]. rewrite He, Hc.
    destruct (check_qemu_ended errs (Sros.stop_check a) o w Hp Herr)
      as (e1 & args & e2 & -> & Hno).
    exists e1, args, (e2 ++ e). split; [|exact Hno].
    rewrite <- !app_assoc. cbn [app]. rewrite <- app_assoc. reflexivity.
Qed.

(** X23.  A router whose VMs are all up stays as it is.  While every VM is
    running with a live emulator, each pass of the loop of start polls each
    emulator once and writes "0 running" to /health; nothing is spawned or
    stopped, the consoles are not touched, and the VMs are left unchanged. *)
Theorem vr_steady_state (ans : nat -> nat -> Sros.work_answers) (n : nat)
    (vms : list Sros.SROS_vm) (w : Vrnetlab.world) :
  Forall Boot.up vms ->
  (forall j k, Sros.comm (ans j k) = Sros.StillRunning) ->
  Sros.VR_passes ans n vms w
  = ((vms, match n with O => false | S _ => true end),
     {| Vrnetlab.trace := Vrnetlab.trace w
                          ++ concat (repeat (Boot.steady_pass (length vms)) n);
        Vrnetlab.gen := Vrnetlab.gen w |}).
Proof.
  intros Hup Hal. induction n as [|n IH].
  - cbn. unfold Vrnetlab.ret. rewrite app_nil_r. destruct w; reflexivity.
  - cbn [Sros.VR_passes]. rewrite mbind_eq, IH. cbn [fst snd].
    rewrite (VR_pass_up (ans n) vms _ _ Hup (Hal n)). cbn [Vrnetlab.trace Vrnetlab.gen].
    f_equal. f_equal. rewrite <- app_assoc. f_equal.
    replace (S n) with (n + 1)%nat by lia.
    rewrite repeat_app, concat_app. cbn [repeat concat]. rewrite app_nil_r. reflexivity.
Qed.

Lemma vr_steady_state_witness :
  Forall Boot.up [Boot.booted; Boot.booted] /\
  (forall j k : nat, Sros.comm ((fun _ _ => Boot.quiet_answers) j k) = Sros.StillRunning) /\
  Sros.VR_passes (fun _ _ => Boot.quiet_answers) 3 [Boot.booted; Boot.booted] quiet_world
  = (([Boot.booted; Boot.booted], true),
     {| Vrnetlab.trace := Vrnetlab.trace quiet_world
                          ++ concat (repeat (Boot.steady_pass
                                               (length [Boot.booted; Boot.booted])) 3);
        Vrnetlab.gen := Vrnetlab.gen quiet_world |}).
Proof.
  assert (H1 : Forall Boot.up [Boot.booted; Boot.booted]).
  { repeat constructor; discriminate. }
  assert (H2 : forall j k : nat,
             Sros.comm ((fun _ _ => Boot.quiet_answers) j k) = Sros.StillRunning)
    by reflexivity.
  split; [exact H1|]. split; [exact H2|].
  exact (vr_steady_state (fun _ _ => Boot.quiet_answers) 3 [Boot.booted; Boot.booted]
           quiet_world H1 H2).
Defined.

Section XrvNics.
Import Py Vrnetlab Xnic.

Lemma xrv_append_nic_fst (i : Z) (cmd : list string) (w : world) :
  (Xrv.append_nic i cmd w).1 = cmd ++ quad i (Xrv.gen_mac i w).1.
Proof.
  unfold Xrv.append_nic. rewrite mbind_eq. unfold ret. cbn [fst].
  unfold quad, pci_bus, pci_addr. rewrite <- !app_assoc. reflexivity.
Qed.

Lemma xrv_for_each_nics (idxs : list Z) :
  forall acc w, exists qs,
    (for_each idxs Xrv.append_nic acc w).1 = acc ++ concat qs /\
    Forall2 (fun i q => exists mac, q = quad i mac) idxs qs.
Proof.
  induction idxs as [|j idxs IH]; intros acc w.
  - exists []. split; [cbn; rewrite app_nil_r; reflexivity | constructor].
  - cbn [for_each]. rewrite mbind_eq, xrv_append_nic_fst.
    destruct (IH (acc ++ quad j (Xrv.gen_mac j w).1) (Xrv.append_nic j acc w).2)
      as (qs & -> & HF).
    eexists (_ :: qs). split; [cbn [concat]; rewrite <- app_assoc; reflexivity|].
    constructor; [eexists; reflexivity | exact HF].
Qed.

(** The command line of [start_vm] for a new launcher object: what comes
    before the traffic NICs, and the NICs. *)
Lemma start_vm_cmd_shape (kvm : bool) (username password : string) (w : world) :
  exists pre qs,
    (Xrv.start_vm_cmd kvm (Xrv.XRV_init username password) w).1 = pre ++ concat qs /\
    Forall (fun a => defines_p00 a = false) pre /\
    Forall2 (fun i q => exists mac, q = quad i mac) (range 0 128) qs.
Proof.
  unfold Xrv.start_vm_cmd. rewrite mbind_eq.
  cbn [Xrv.num_nics Xrv.ram Xrv.XRV_init].
  match goal with |- context [for_each _ _ ?acc ?w1] =>
    destruct (xrv_for_each_nics (range 0 128) acc w1) as (qs & E & HF);
    exists acc, qs end.
  split; [exact E|]. split; [|exact HF].
  destruct kvm; cbn [insert1 app]; repeat (apply Forall_cons; split; [reflexivity|]);
    apply Forall_nil; exact I.
Qed.

Lemma quad_no_p00 (i : Z) (mac : string) :
  0 <= i < 128 -> Forall (fun a => defines_p00 a = false) (quad i mac).
Proof.
  intros Hi. unfold quad.
  apply Forall_cons; split; [reflexivity|].
  apply Forall_cons; split; [reflexivity|].
  apply Forall_cons; split; [reflexivity|].
  apply Forall_cons; split; [|apply Forall_nil; exact I].
  apply negb_true_iff.
  apply (forallb_range socket_not_p00 0 128); [vm_compute; reflexivity|exact Hi].
Qed.

End XrvNics.

(** X2.  The traffic NICs of the IOS-XR command line.  For each i of
    0 .. 127 in order, start_vm appends a -device that refers to netdev p<i>,
    at PCI bus i div 26 + 1 and address i mod 26 + 1, and then a -netdev
    socket with the id p<i+1> listening on port "100<i+1>": the socket is
    formatted with i+1 where the device is formatted with i.  So no argument
    makes a socket netdev p00, which the first device refers to.  The places
    on the PCI buses are pairwise different, on the buses 1 .. 5 with the
    addresses 1 .. 26. *)
Theorem xrv_nic_arguments (kvm : bool) (username password : string) (w : Vrnetlab.world) :
  (exists pre qs,
     (Xrv.start_vm_cmd kvm (Xrv.XRV_init username password) w).1 = pre ++ concat qs /\
     Forall2 (fun i q => exists mac, q = Xnic.quad i mac) (Py.range 0 128) qs) /\
  Forall (fun a => Xnic.defines_p00 a = false)
    (Xrv.start_vm_cmd kvm (Xrv.XRV_init username password) w).1 /\
  (forall i j, 0 <= i < 128 -> 0 <= j < 128 ->
     1 <= Xnic.pci_bus i <= 5 /\ 1 <= Xnic.pci_addr i <= 26 /\
     (Xnic.pci_bus i = Xnic.pci_bus j -> Xnic.pci_addr i = Xnic.pci_addr j -> i = j)).
Proof.
  destruct (start_vm_cmd_shape kvm username password w) as (pre & qs & E & Hpre & HF).
  split; [exists pre, qs; split; [exact E|exact HF]|]. split.
  - rewrite E. apply Forall_app. split; [exact Hpre|].
    assert (Hr : Forall (fun i => 0 <= i < 128) (Py.range 0 128)).
    { apply Forall_forall. intros i Hi. apply list_elem_of_In, in_range in Hi. exact Hi. }
    clear E. revert Hr.
    induction HF as [|i q idxs qs' [mac ->] _ IH]; intros Hr; [apply Forall_nil; exact I|].
    apply Forall_cons in Hr as [Hi Hr]. cbn [concat]. apply Forall_app.
    split; [apply quad_no_p00, Hi|apply IH, Hr].
  - intros i j Hi Hj. unfold Xnic.pci_bus, Xnic.pci_addr.
    split; [Z.div_mod_to_equations; lia|].
    split; [Z.div_mod_to_equations; lia|].
    intros H1 H2. Z.div_mod_to_equations. lia.
Qed.

Section XrvSpins.
Import Py Vrnetlab Xboot.

Lemma xrv_set_spins_spins (x : Xrv.XRV) : Xrv.set_spins x (Xrv.spins x) = x.
Proof. destruct x. reflexivity. Qed.

Lemma xrv_spin_quiet (ex : expect_result) (x : Xrv.XRV) (w : world) :
  Xrv.spins x <= 300 -> quiet ex ->
  Xrv.bootstrap_spin ex x w
  = ((false, false, Xrv.set_spins x (Xrv.spins x + 1)),
     {| trace := trace w ++ [EvTelnetExpect 1]; gen := gen w |}).
Proof.
  intros Hs [Hm Hr]. unfold Xrv.bootstrap_spin, Xrv.spin_tail.
  assert (E : (Xrv.spins x >? 300) = false) by lia.
  rewrite E, Hm, Hr. reflexivity.
Qed.

(** Spins on a silent console: the counter goes up to 301 and the spin after
    that reports [done]. *)
Lemma xrv_quiet_spins (answers : list expect_result) :
  forall x w, Forall quiet answers -> 0 <= Xrv.spins x <= 301 ->
    Xrv.spin_until_done answers x w
    = (if (length answers <=? Z.to_nat (301 - Xrv.spins x))%nat
       then (None,
             {| trace := trace w ++ repeat (EvTelnetExpect 1) (length answers);
                gen := gen w |})
       else (Some (Xrv.set_spins x 301),
             {| trace := trace w ++ repeat (EvTelnetExpect 1) (Z.to_nat (301 - Xrv.spins x));
                gen := gen w |})).
Proof.
  induction answers as [|ex answers IH]; intros x w Hq Hs.
  - cbn. unfold ret. rewrite app_nil_r. destruct w; reflexivity.
  - apply Forall_cons in Hq as [Hex Hq]. cbn [Xrv.spin_until_done length].
    rewrite mbind_eq.
    destruct (Z_le_gt_dec (Xrv.spins x) 300) as [Hle|Hgt].
    + rewrite (xrv_spin_quiet ex x w Hle Hex). cbn [fst snd].
      rewrite (IH _ _ Hq) by (cbn [Xrv.spins Xrv.set_spins]; lia).
      cbn [Xrv.spins Xrv.set_spins trace gen].
      replace (Z.to_nat (301 - Xrv.spins x))
        with (S (Z.to_nat (301 - (Xrv.spins x + 1)))) by lia.
      cbn [Nat.leb].
      destruct (length answers <=? Z.to_nat (301 - (Xrv.spins x + 1)))%nat;
        cbn [repeat]; rewrite <- app_assoc; reflexivity.
    + rewrite xrv_spin_gives_up by lia. cbn [fst snd].
      assert (E : Xrv.spins x = 301) by lia.
      replace (Xrv.set_spins x 301) with x
        by (rewrite <- E; symmetry; apply xrv_set_spins_spins).
      replace (Z.to_nat (301 - Xrv.spins x)) with 0%nat by lia.
      cbn [Nat.leb repeat]. unfold ret. rewrite app_nil_r.
      destruct w; reflexivity.
Qed.

End XrvSpins.

(** X24.  The IOS-XR launcher gives up after 301 silent seconds.  On a
    console that never says anything the spin counter goes up by one per
    spin; the loop of start is still going after 301 spins and ends with the
    302nd, which finds the counter above 300.  start then closes the console
    and returns as it does after a bootstrap: nothing was written to the
    console and xr_ready is still False. *)
Theorem xrv_gives_up (kvm : bool) (answers : list Vrnetlab.expect_result)
    (username password : string) (w : Vrnetlab.world) :
  Forall Xboot.quiet answers ->
  let x := Xrv.XRV_init username password in
  ((length answers <= 301)%nat ->
   Xrv.spin_until_done answers x w
   = (None, {| Vrnetlab.trace := Vrnetlab.trace w
                 ++ repeat (Vrnetlab.EvTelnetExpect 1) (length answers);
               Vrnetlab.gen := Vrnetlab.gen w |})) /\
  ((301 < length answers)%nat ->
   Xrv.spin_until_done answers x w
   = (Some (Xrv.set_spins x 301),
      {| Vrnetlab.trace := Vrnetlab.trace w ++ repeat (Vrnetlab.EvTelnetExpect 1) 301;
         Vrnetlab.gen := Vrnetlab.gen w |}) /\
   (Xrv.start kvm answers x w).1 = Some (Xrv.set_spins x 301) /\
   Boot.console_writes (Vrnetlab.trace (Xrv.start kvm answers x w).2)
   = Boot.console_writes (Vrnetlab.trace w) /\
   last (Vrnetlab.trace (Xrv.start kvm answers x w).2) = Some Vrnetlab.EvTelnetClose).
Proof.
  intros Hq x.
  pose proof (fun w' => xrv_quiet_spins answers x w' Hq ltac:(cbn; lia)) as H.
  change (Z.to_nat (301 - Xrv.spins x)) with 301%nat in H.
  split.
  - intros Hl. rewrite H. assert (E : (length answers <=? 301)%nat = true)
      by (apply Nat.leb_le; exact Hl). rewrite E. reflexivity.
  - intros Hl. assert (E : (length answers <=? 301)%nat = false)
      by (apply Nat.leb_gt; exact Hl).
    split; [rewrite H, E; reflexivity|].
    assert (Hsil : Vrnetlab.trace (Xrv.start_vm_cmd kvm x w).2 = Vrnetlab.trace w).
    { unfold Xrv.start_vm_cmd. rewrite mbind_eq.
      rewrite (silent_for_each (Py.range 0 (Xrv.num_nics x)) Xrv.append_nic).
      - reflexivity.
      - intros i s. unfold Xrv.append_nic.
        apply silent_bind; [|intros mac; apply silent_ret].
        unfold Xrv.gen_mac. apply silent_bind; [apply silent_draw|]. intros a.
        apply silent_bind; [apply silent_draw|]. intros b. apply silent_ret. }
    unfold Xrv.start, Xrv.start_vm, Vrnetlab.mbind.
    destruct (Xrv.start_vm_cmd kvm x w) as [cmd w1]. cbn [snd] in Hsil.
    unfold Vrnetlab.emit, Vrnetlab.ret. cbn [fst snd Vrnetlab.trace Vrnetlab.gen].
    rewrite H, E. cbn [fst snd Vrnetlab.trace Vrnetlab.gen].
    split; [reflexivity|]. split.
    + assert (Hcw : forall e1 e2, Boot.console_writes (e1 ++ e2)
                    = Boot.console_writes e1 ++ Boot.console_writes e2).
      { intros e1 e2. induction e1 as [|e e1 IH]; [reflexivity|].
        destruct e; cbn [app Boot.console_writes]; rewrite IH; reflexivity. }
      assert (Hrep : forall k, Boot.console_writes (repeat (Vrnetlab.EvTelnetExpect 1) k) = []).
      { intros k. induction k as [|k IH]; [reflexivity|exact IH]. }
      rewrite !Hcw, Hrep, Hsil. cbn [Boot.console_writes]. rewrite !app_nil_r. reflexivity.
    + rewrite last_snoc. reflexivity.
Qed.

Lemma xrv_gives_up_witness :
  Forall Xboot.quiet (repeat silence 302) /\
  let x := Xrv.XRV_init "vrnetlab" "VR-netlab9" in
  ((length (repeat silence 302) <= 301)%nat ->
   Xrv.spin_until_done (repeat silence 302) x quiet_world
   = (None, {| Vrnetlab.trace := Vrnetlab.trace quiet_world
                 ++ repeat (Vrnetlab.EvTelnetExpect 1) (length (repeat silence 302));
               Vrnetlab.gen := Vrnetlab.gen quiet_world |})) /\
  ((301 < length (repeat silence 302))%nat ->
   Xrv.spin_until_done (repeat silence 302) x quiet_world
   = (Some (Xrv.set_spins x 301),
      {| Vrnetlab.trace := Vrnetlab.trace quiet_world
                           ++ repeat (Vrnetlab.EvTelnetExpect 1) 301;
         Vrnetlab.gen := Vrnetlab.gen quiet_world |}) /\
   (Xrv.start false (repeat silence 302) x quiet_world).1 = Some (Xrv.set_spins x 301) /\
   Boot.console_writes (Vrnetlab.trace (Xrv.start false (repeat silence 302) x quiet_world).2)
   = Boot.console_writes (Vrnetlab.trace quiet_world) /\
   last (Vrnetlab.trace (Xrv.start false (repeat silence 302) x quiet_world).2)
   = Some Vrnetlab.EvTelnetClose).
Proof.
  assert (H : Forall Xboot.quiet (repeat silence 302)).
  { apply Forall_forall. intros ex Hex. apply list_elem_of_In, repeat_spec in Hex.
    subst ex. split; reflexivity. }
  split; [exact H|].
  exact (xrv_gives_up false (repeat silence 302) "vrnetlab" "VR-netlab9" quiet_world H).
Defined.

Section XrvBootstrap.
Import Py Vrnetlab Xboot.





End XrvBootstrap.



Section XrvLogin.
Import Py Vrnetlab Xboot.




End XrvLogin.



Section SrosConfig.
Import Py Vrnetlab Boot.















Lemma card_lines_of_slots (lcs : list Sros.SROS_vm) :
  forall slots, map Sros.class lcs = map Sros.LineCard slots ->
  flat_map card_lines_of lcs = flat_map card_lines slots.
Proof.
  induction lcs as [|lc lcs IH]; intros [|s slots] Hm; try discriminate; [reflexivity|].
  cbn [map] in Hm. injection Hm as Hc Hm. cbn [flat_map].
  rewrite (IH slots Hm). unfold card_lines_of at 1. rewrite Hc. reflexivity.
Qed.

End SrosConfig.





Section LineCards.
Import Py Vrnetlab Boot.

Lemma check_qemu_class (ca : Sros.communicate_answer) (sa : stop_answers)
    (o : Sros.SROS_vm) (w : world) :
  Sros.class (Sros.check_qemu ca sa o w).1 = Sros.class o.
Proof.
  unfold Sros.check_qemu. rewrite mbind_eq.
  assert (H0 : Sros.class (match p (Sros.vm o) with
                           | Some _ => ret o
                           | None => Sros.start o
                           end w).1 = Sros.class o).
  { destruct (p (Sros.vm o)); [reflexivity|].
    destruct (sros_start_block o w) as (e & H). apply H. }
  set (o1 := (match p (Sros.vm o) with Some _ => ret o | None => Sros.start o end w).1) in *.
  set (w1 := (match p (Sros.vm o) with Some _ => ret o | None => Sros.start o end w).2).
  rewrite mbind_eq. unfold emit. cbn [fst snd].
  destruct ca as [|errs]; [exact H0|].
  destruct (Sros.errs_differ errs); [|exact H0].
  rewrite mbind_eq.
  match goal with |- Sros.class (Sros.start ?x ?y).1 = _ =>
    destruct (sros_start_block x y) as (e & H) end.
  rewrite (proj2 (proj2 (proj2 (proj2 (proj2 (proj2 (proj2 (proj2 H)))))))). exact H0.
Qed.

(** A line card is running after every call of [work]. *)
Lemma work_linecard (a : Sros.work_answers) (o : Sros.SROS_vm) (w : world) (slot : Z) :
  Sros.class o = Sros.LineCard slot ->
  running (Sros.vm (Sros.work a o w).1) = true.
Proof.
  intros Hc. unfold Sros.work. rewrite mbind_eq.
  pose proof (check_qemu_class (Sros.comm a) (Sros.stop_check a) o w) as Hcl.
  set (o1 := (Sros.check_qemu (Sros.comm a) (Sros.stop_check a) o w).1) in *.
  destruct (running (Sros.vm o1)) eqn:Hr; cbn [negb]; [exact Hr|].
  unfold Sros.bootstrap_spin. rewrite Hcl, Hc. reflexivity.
Qed.

Lemma work_each_flags (ans : nat -> Sros.work_answers) (vms : list Sros.SROS_vm) :
  forall k w,
    (forall j o, vms !! j = Some o -> linecard_or_up (ans (k + j)%nat) o) ->
    Health.all_upb (Sros.work_each ans k vms w).1.2 = true /\
    Forall (fun o => running (Sros.vm o) = true) (Sros.work_each ans k vms w).1.1.
Proof.
  induction vms as [|o vms IH]; intros k w H.
  - split; [reflexivity|constructor].
  - cbn [Sros.work_each]. rewrite !mbind_eq. unfold ret. cbn [fst snd].
    assert (Ho : running (Sros.vm (Sros.work (ans k) o w).1) = true).
    { specialize (H 0%nat o eq_refl). rewrite Nat.add_0_r in H.
      destruct H as [[slot Hs]|[Hup Hc]].
      - apply (work_linecard _ _ _ slot Hs).
      - rewrite (work_up (ans k) o w Hup Hc). exact (proj1 Hup). }
    destruct (IH (S k) (Sros.work (ans k) o w).2) as [IH1 IH2].
    { intros j o' Hj. replace (S k + j)%nat with (k + S j)%nat by lia.
      apply H. exact Hj. }
    split.
    + unfold Health.all_upb in *. cbn [forallb]. rewrite Ho, IH1. reflexivity.
    + constructor; assumption.
Qed.

End LineCards.

(** X29.  A line card counts as running whatever happens to it.  SROS_lc's
    bootstrap_spin sets running without looking at anything, and work calls
    it whenever the VM is not running, also right after check_qemu has
    stopped and restarted a dead emulator.  So in a pass of the loop of start
    over VMs of which each is a line card, in any state and with any outcome
    of the poll, or else is up with a live emulator, every VM ends up
    running and "0 running" is written to /health. *)
Theorem linecard_counts_as_running (ans : nat -> Sros.work_answers)
    (vms : list Sros.SROS_vm) (started : bool) (w : Vrnetlab.world) :
  (forall k o, vms !! k = Some o -> Boot.linecard_or_up (ans k) o) ->
  Forall (fun o => Vrnetlab.running (Sros.vm o) = true)
    (Sros.VR_pass ans vms started w).1.1 /\
  (Sros.VR_pass ans vms started w).1.2 = true /\
  last (Vrnetlab.trace (Sros.VR_pass ans vms started w).2)
  = Some (Vrnetlab.EvHealth "0 running").
Proof.
  intros H. destruct (work_each_flags ans vms 0%nat w H) as [Hf Hr].
  unfold Sros.VR_pass. rewrite !mbind_eq, supervision_pass_writes, Hf, orb_true_r.
  unfold Vrnetlab.ret. cbn [fst snd Vrnetlab.trace].
  split; [exact Hr|]. split; [reflexivity|]. apply last_snoc.
Qed.

Lemma linecard_counts_as_running_witness :
  let lc := Sros.SROS_lc_body
              (Vrnetlab.VM_init false None None (Some "/sros.qcow2"%string) 1 6144) 1 false in
  let crashed := {| Sros.comm := Sros.Ended (Some "qemu: killed"%string);
                    Sros.stop_check := exits_at_once; Sros.stop_spin := exits_at_once;
                    Sros.console := silence |} in
  let ans := fun k : nat => match k with O => Boot.quiet_answers | _ => crashed end in
  (forall k o, [Boot.booted; lc] !! k = Some o -> Boot.linecard_or_up (ans k) o) /\
  Forall (fun o => Vrnetlab.running (Sros.vm o) = true)
    (Sros.VR_pass ans [Boot.booted; lc] true quiet_world).1.1 /\
  (Sros.VR_pass ans [Boot.booted; lc] true quiet_world).1.2 = true /\
  last (Vrnetlab.trace (Sros.VR_pass ans [Boot.booted; lc] true quiet_world).2)
  = Some (Vrnetlab.EvHealth "0 running").
Proof.
  intros lc crashed ans.
  assert (H : forall k o, [Boot.booted; lc] !! k = Some o -> Boot.linecard_or_up (ans k) o).
  { intros [|[|k]] o; cbn; intros Ho; [| |discriminate Ho];
      injection Ho as <-.
    - right. split; [split; [reflexivity|discriminate]|reflexivity].
    - left. exists 1. reflexivity. }
  split; [exact H|].
  exact (linecard_counts_as_running ans [Boot.booted; lc] true quiet_world H).
Defined.
